(** * Financial projection engine: the tax calculator, the classification
      resolver and the per-year waterfall of [calculateAll]

    Shallow embedding of [services/financialCalculations.js]
    ([calculateTax] and [calculateAll] with its local helpers [getVal],
    [sumGroup] and [sumAllGroupsByPageType]).

    Conventions of the embedding.
    - A JavaScript number is a value of [num]: an exact rational, or one of
      the three IEEE special values NaN, +Infinity, -Infinity.  The special
      values follow the IEEE rules (so that a division by zero is visible);
      finite arithmetic is exact: rounding, overflow and the sign of zero
      are not modelled.
    - A grid value [parseFloat(dp?.value || 0)] is the number its decimal
      string denotes, NaN when the string is not a number; a missing data
      point reads as 0.
    - Strings are byte strings, the UTF-8 bytes of the JavaScript string.
      [toLowerCase] acts on the ASCII letters only; white space ([trim],
      [\s], [parseInt]) is the white space of JavaScript, read off the
      bytes.
    - The result object [results] is a two-level finite map
      (year id, then label); [prevYearResults] is a reference into it, so
      the aliasing of the JavaScript objects is kept. The map holds the
      own properties only: row names are taken not to be names that every
      object inherits ("constructor", "toString", "__proto__" and the
      like), under which [results[yId][name]] would read the inherited
      property. *)

From Stdlib Require Import QArith Qabs Qminmax Lqa ZArith Ascii String List Bool.
From Stdlib Require Import Sorted Qround.
From stdpp Require Import gmap strings list.
From stdpp Require Import pretty.

Local Open Scope Q_scope.

(** ** JavaScript numbers *)

Module JsNum.

Inductive num : Type :=
| Fin (q : Q)
| PInf
| NInf
| NaN.

Definition zero : num := Fin 0.
Definition of_Z (z : Z) : num := Fin (inject_Z z).

Definition is_finite (a : num) : bool :=
  match a with Fin _ => true | _ => false end.

Definition Qltb (a b : Q) : bool := negb (Qle_bool b a).

(** Sign of a number: [Some Gt], [Some Eq], [Some Lt], or [None] for NaN. *)
Definition sgn (a : num) : option comparison :=
  match a with
  | Fin q => Some (q ?= 0)
  | PInf => Some Gt
  | NInf => Some Lt
  | NaN => None
  end.

Definition inf_of_sign (c1 c2 : comparison) : num :=
  match c1, c2 with
  | Eq, _ | _, Eq => NaN
  | Gt, Gt | Lt, Lt => PInf
  | _, _ => NInf
  end.

Definition nneg (a : num) : num :=
  match a with
  | Fin q => Fin (- q)
  | PInf => NInf
  | NInf => PInf
  | NaN => NaN
  end.

Definition nadd (a b : num) : num :=
  match a, b with
  | NaN, _ | _, NaN => NaN
  | Fin x, Fin y => Fin (x + y)
  | PInf, NInf | NInf, PInf => NaN
  | PInf, _ | _, PInf => PInf
  | NInf, _ | _, NInf => NInf
  end.

Definition nsub (a b : num) : num := nadd a (nneg b).

Definition nmul (a b : num) : num :=
  match a, b with
  | Fin x, Fin y => Fin (x * y)
  | _, _ =>
      match sgn a, sgn b with
      | Some c1, Some c2 => inf_of_sign c1 c2
      | _, _ => NaN
      end
  end.

(** [a / b]: a zero divisor gives an infinity (or NaN for 0/0), as in
    IEEE arithmetic. *)
Definition ndiv (a b : num) : num :=
  match a, b with
  | NaN, _ | _, NaN => NaN
  | Fin x, Fin y =>
      if Qeq_bool y 0 then
        match x ?= 0 with Eq => NaN | Gt => PInf | Lt => NInf end
      else Fin (x / y)
  | Fin _, _ => Fin 0
  | _, Fin y =>
      match sgn a, (y ?= 0) with
      | Some c1, Eq => inf_of_sign c1 Gt
      | Some c1, c2 => inf_of_sign c1 c2
      | None, _ => NaN
      end
  | _, _ => NaN
  end.

(** [a <= b], [a < b], [a > b]: false as soon as one side is NaN. *)
Definition nle (a b : num) : bool :=
  match a, b with
  | NaN, _ | _, NaN => false
  | Fin x, Fin y => Qle_bool x y
  | NInf, _ | _, PInf => true
  | _, _ => false
  end.

Definition nlt (a b : num) : bool :=
  match a, b with
  | NaN, _ | _, NaN => false
  | Fin x, Fin y => Qltb x y
  | PInf, _ | _, NInf => false
  | _, _ => true
  end.

Definition ngt (a b : num) : bool := nlt b a.

(** [a === b] on numbers. *)
Definition neqb (a b : num) : bool :=
  match a, b with
  | Fin x, Fin y => Qeq_bool x y
  | PInf, PInf | NInf, NInf => true
  | _, _ => false
  end.

(** [a !== 0]. *)
Definition nonzero (a : num) : bool := negb (neqb a zero).

(** Truthiness of a number: 0 and NaN are falsy. *)
Definition truthy (a : num) : bool :=
  match a with
  | Fin q => negb (Qeq_bool q 0)
  | NaN => false
  | _ => true
  end.

(** [a || b] on numbers. *)
Definition nor (a b : num) : num := if truthy a then a else b.

(** [Math.min(a, b)]. *)
Definition nmin (a b : num) : num :=
  match a, b with
  | NaN, _ | _, NaN => NaN
  | _, _ => if nle a b then a else b
  end.

(** [Math.abs(a)]. *)
Definition nabs (a : num) : num :=
  match a with
  | Fin q => Fin (Qabs q)
  | NaN => NaN
  | _ => PInf
  end.

(** Equality of numbers as values (the propositional form of [===]). *)
Definition num_eq (a b : num) : Prop :=
  match a, b with
  | Fin x, Fin y => x == y
  | PInf, PInf | NInf, NInf => True
  | _, _ => False
  end.

Definition num_le (a b : num) : Prop := nle a b = true.

End JsNum.

Export JsNum.

Declare Scope num_scope.
Delimit Scope num_scope with num.
Bind Scope num_scope with num.
Infix "+" := nadd : num_scope.
Infix "-" := nsub : num_scope.
Infix "*" := nmul : num_scope.
Infix "/" := ndiv : num_scope.
Notation "- x" := (nneg x) : num_scope.
Notation "a '|||' b" := (nor a b) (at level 50, left associativity) : num_scope.

(** Decimal literals of the source. *)
Definition dec (n : Z) (d : positive) : num := Fin (n # d).
Coercion of_Z : Z >-> num.

(** ** Tax calculator *)

Module Tax.

Record TaxResult : Type := mkTax {
  tax : num;
  surcharge : num;
  cess : num;
  total : num
}.

Definition domestic_22 : string := "domestic_22".
Definition llp : string := "llp".
Definition proprietorship : string := "proprietorship".

(** One slab of the progressive schedule:
    [if (taxable > lo) tax += (Math.min(taxable, hi) - lo) * rate]. *)
Definition slab (taxable lo hi rate acc : num) : num :=
  if ngt taxable lo then (acc + (nmin taxable hi - lo) * rate)%num else acc.

Definition top_slab (taxable lo rate acc : num) : num :=
  if ngt taxable lo then (acc + (taxable - lo) * rate)%num else acc.

Definition calculateTax (pbt : num) (regime : string) : TaxResult :=
  if nle pbt 0%Z then mkTax 0%Z 0%Z 0%Z 0%Z
  else
    let '(tax, surcharge, cess) :=
      if String.eqb regime domestic_22 then
        let tax := (pbt * dec 22 100)%num in
        let surcharge := (tax * dec 10 100)%num in
        let cess := ((tax + surcharge) * dec 4 100)%num in
        (tax, surcharge, cess)
      else if String.eqb regime llp then
        let tax := (pbt * dec 30 100)%num in
        let surcharge :=
          if ngt pbt 10000000%Z then (tax * dec 12 100)%num else of_Z 0 in
        let cess := ((tax + surcharge) * dec 4 100)%num in
        (tax, surcharge, cess)
      else if String.eqb regime proprietorship then
        let taxable := pbt in
        let tax := of_Z 0 in
        let tax := slab taxable 300000%Z 700000%Z (dec 5 100) tax in
        let tax := slab taxable 700000%Z 1000000%Z (dec 10 100) tax in
        let tax := slab taxable 1000000%Z 1200000%Z (dec 15 100) tax in
        let tax := slab taxable 1200000%Z 1500000%Z (dec 20 100) tax in
        let tax := top_slab taxable 1500000%Z (dec 30 100) tax in
        let tax := if nle pbt 700000%Z then of_Z 0 else tax in
        (tax, of_Z 0, of_Z 0)
      else (of_Z 0, of_Z 0, of_Z 0) in
    mkTax tax surcharge cess (tax + surcharge + cess)%num.

Definition tax_zero : TaxResult := mkTax 0%Z 0%Z 0%Z 0%Z.

(** Component-wise equality of two results as JavaScript values. *)
Definition tax_result_eq (a b : TaxResult) : Prop :=
  num_eq (tax a) (tax b) /\ num_eq (surcharge a) (surcharge b) /\
  num_eq (cess a) (cess b) /\ num_eq (total a) (total b).

End Tax.

(** ** Strings *)

Module JsString.

Definition lower_ascii (c : ascii) : ascii :=
  let n := nat_of_ascii c in
  if (65 <=? n)%nat && (n <=? 90)%nat then ascii_of_nat (n + 32) else c.

(** [s.toLowerCase()]. *)
Fixpoint toLowerCase (s : string) : string :=
  match s with
  | EmptyString => EmptyString
  | String c s' => String (lower_ascii c) (toLowerCase s')
  end.

(** [s.startsWith(p)]. *)
Fixpoint startsWith (s p : string) : bool :=
  match p, s with
  | EmptyString, _ => true
  | String _ _, EmptyString => false
  | String a p', String b s' => Ascii.eqb a b && startsWith s' p'
  end.

(** [s.includes(sub)]. *)
Fixpoint includes (s sub : string) : bool :=
  startsWith s sub ||
  match s with
  | EmptyString => false
  | String _ s' => includes s' sub
  end.

Definition is_lower_alnum (c : ascii) : bool :=
  let n := nat_of_ascii c in
  ((97 <=? n)%nat && (n <=? 122)%nat) || ((48 <=? n)%nat && (n <=? 57)%nat).

(** [s.replace(/[^a-z0-9]/g, '')]. *)
Fixpoint strip_non_alnum (s : string) : string :=
  match s with
  | EmptyString => EmptyString
  | String c s' =>
      if is_lower_alnum c then String c (strip_non_alnum s')
      else strip_non_alnum s'
  end.

(** The normal form used by the exclusion lists:
    [s.toLowerCase().replace(/[^a-z0-9]/g, '')]. *)
Definition cleanName (s : string) : string := strip_non_alnum (toLowerCase s).

Definition is_space (c : ascii) : bool :=
  let n := nat_of_ascii c in
  ((9 <=? n)%nat && (n <=? 13)%nat) || (n =? 32)%nat.

(** The white space of [\s], of [trim] and of [parseInt], on the UTF-8
    bytes of the string: the number of bytes of the white-space character
    that [s] starts with, 0 when it starts with none. Beside the ASCII ones
    these are U+00A0 (C2 A0), U+1680 (E1 9A 80), U+2000 to U+200A, U+2028,
    U+2029, U+202F (E2 80 ..), U+205F (E2 81 9F), U+3000 (E3 80 80) and
    U+FEFF (EF BB BF). *)
Definition space_width (s : string) : nat :=
  match s with
  | EmptyString => 0
  | String c s1 =>
      if is_space c then 1
      else
        let a := nat_of_ascii c in
        match s1 with
        | String d s2 =>
            let b := nat_of_ascii d in
            if (a =? 194) && (b =? 160) then 2
            else
              match s2 with
              | String e _ =>
                  let f := nat_of_ascii e in
                  if ((a =? 225) && (b =? 154) && (f =? 128))
                     || ((a =? 226) && (b =? 128)
                         && (((128 <=? f) && (f <=? 138)) || (f =? 168)
                             || (f =? 169) || (f =? 175)))
                     || ((a =? 226) && (b =? 129) && (f =? 159))
                     || ((a =? 227) && (b =? 128) && (f =? 128))
                     || ((a =? 239) && (b =? 187) && (f =? 191))
                  then 3 else 0
              | EmptyString => 0
              end
        | EmptyString => 0
        end
  end%nat.

(** [s.replace(/\s+/g, '_')]: every maximal run of white space becomes one
    underscore. [in_run] tells that the previous character was white space. *)
Fixpoint spaces_to_underscore_aux (in_run : bool) (s : string) : string :=
  match s with
  | EmptyString => EmptyString
  | String c s1 =>
      let underscore t := if in_run then t else String "_"%char t in
      match space_width s, s1 with
      | 1%nat, _ => underscore (spaces_to_underscore_aux true s1)
      | 2%nat, String _ s2 => underscore (spaces_to_underscore_aux true s2)
      | 3%nat, String _ (String _ s3) => underscore (spaces_to_underscore_aux true s3)
      | _, _ => String c (spaces_to_underscore_aux false s1)
      end
  end.

Definition spaces_to_underscore (s : string) : string :=
  spaces_to_underscore_aux false s.

Fixpoint trim_left (s : string) : string :=
  match s with
  | EmptyString => EmptyString
  | String _ s1 =>
      match space_width s, s1 with
      | 1%nat, _ => trim_left s1
      | 2%nat, String _ s2 => trim_left s2
      | 3%nat, String _ (String _ s3) => trim_left s3
      | _, _ => s
      end
  end.

(** Drops trailing white space: what is left when the leading white space
    of [s] is dropped is empty exactly when [s] is white space only. *)
Fixpoint trim_right (s : string) : string :=
  match s with
  | EmptyString => EmptyString
  | String c s1 =>
      match trim_left s with
      | EmptyString => EmptyString
      | _ => String c (trim_right s1)
      end
  end.

(** [s.trim()]. *)
Definition trim (s : string) : string := trim_right (trim_left s).

(** Truthiness of an optional string ([undefined], [null] and the empty
    string are falsy). *)
Definition str_truthy (o : option string) : bool :=
  match o with
  | Some (String _ _) => true
  | _ => false
  end.

(** [o === s] for an optional string [o]. *)
Definition opt_is (o : option string) (s : string) : bool :=
  match o with
  | Some t => String.eqb t s
  | None => false
  end.

(** [o?.includes(s)], used as a condition. *)
Definition opt_includes (o : option string) (s : string) : bool :=
  match o with
  | Some t => includes t s
  | None => false
  end.

End JsString.

Export JsString.

(** ** Input data *)

Module Model.

(** Identifier of a year setting. *)
Definition year_id : Type := Z.

(** A grid cell. [value] is the number that [parseFloat(dp.value || 0)]
    makes of the cell: NaN when the cell holds text that is not a number. *)
Record DataPoint : Type := mkDataPoint {
  year_setting : year_id;
  value : num
}.

Record Row : Type := mkRow {
  r_name : string;
  is_hidden : bool;
  is_calculated : bool;
  is_total_row : bool;
  r_system_tag : option string;
  data : list DataPoint
}.

Record Group : Type := mkGroup {
  g_name : string;
  page_type : string;
  g_system_tag : option string;
  cf_bucket : option string;
  nature : option string;
  rows : list Row
}.

(** [row.data.find(d => d.year_setting === yearId)] followed by
    [parseFloat(dp?.value || 0)]. *)
Definition row_value (row : Row) (yearId : year_id) : num :=
  match List.find (fun d => Z.eqb (year_setting d) yearId) (data row) with
  | Some dp => value dp
  | None => of_Z 0
  end.

(** The usual filter of the loops over rows:
    not hidden, not calculated, not a total row, name not starting with "=". *)
Definition is_input_row (row : Row) : bool :=
  negb (is_hidden row) && negb (is_calculated row) &&
  negb (is_total_row row) && negb (startsWith (r_name row) "=").

(** The result object: year id, then label. Only the numeric entries are
    kept; the entries that hold arrays or objects ([_operatingDeltas],
    [_investingDeltas], [_financingDeltas], [_globalDeltaAudit],
    [_leakedRows], [_debug_components], [_diagnosticSummary],
    [_residualAudit], [_ghostRows]) are display-only and left out. *)
Abbreviation year_results := (gmap string num).
Abbreviation results := (gmap year_id (gmap string num)).

Definition year_map (R : results) (y : year_id) : year_results :=
  default ∅ (R !! y).

(** [results[y][k]]; [None] is [undefined]. *)
Definition res_get (R : results) (y : year_id) (k : string) : option num :=
  year_map R y !! k.

(** [results[y][k] = v]. *)
Definition res_set (R : results) (y : year_id) (k : string) (v : num) : results :=
  <[y := <[k := v]> (year_map R y)]> R.

(** [prevYearResults?.[k]], where [prevYearResults] is the object of the
    year processed before ([None] in the first iteration). *)
Definition prev_get (R : results) (prev : option year_id) (k : string) : option num :=
  match prev with
  | Some p => res_get R p k
  | None => None
  end.

(** [x || d] where [x] may be [undefined]. *)
Definition oor (x : option num) (d : num) : num :=
  match x with
  | Some v => nor v d
  | None => d
  end.

End Model.

Export Model.

(** ** Classification resolver *)

Module Resolver.

Section WithGroups.

Variable allGroups : list Group.

(** The row loop of [getVal]: exact match on the lower-cased names, then
    the alias of "capital". *)
Fixpoint getVal_rows (yearId : year_id) (keyLower : string) (rs : list Row)
  : option num :=
  match rs with
  | [] => None
  | row :: rest =>
      let rowLower := toLowerCase (r_name row) in
      if String.eqb rowLower keyLower then Some (row_value row yearId)
      else if String.eqb keyLower "capital" &&
              (String.eqb rowLower "ordinary share capital" ||
               String.eqb rowLower "share capital")
      then Some (row_value row yearId)
      else getVal_rows yearId keyLower rest
  end.

Fixpoint getVal_groups (yearId : year_id) (keyLower : string) (gs : list Group)
  : option num :=
  match gs with
  | [] => None
  | group :: rest =>
      match getVal_rows yearId keyLower (rows group) with
      | Some v => Some v
      | None => getVal_groups yearId keyLower rest
      end
  end.

Definition getVal (R : results) (yearId : year_id) (key : string) : num :=
  match res_get R yearId key with
  | Some v => v
  | None =>
      match getVal_groups yearId (toLowerCase key) allGroups with
      | Some v => v
      | None => of_Z 0
      end
  end.

(** The predicate of [allGroups.find] in [sumGroup]. *)
Definition group_matches (groupNamePart : string) (g : Group) : bool :=
  includes (toLowerCase (g_name g)) (toLowerCase groupNamePart) ||
  (str_truthy (g_system_tag g) &&
   opt_includes (option_map toLowerCase (g_system_tag g))
     (spaces_to_underscore (toLowerCase groupNamePart))).

Definition isNaN (v : num) : bool :=
  match v with NaN => true | _ => false end.

Definition isExcluded (excludeNames : list string) (row : Row) : bool :=
  let clean := cleanName (r_name row) in
  existsb (fun ex => includes clean (cleanName ex)) excludeNames
  || includes clean "depreciation"
  || startsWith clean "depr"
  || includes clean "interest".

(** One iteration of [group.rows.forEach] in [sumGroup]. *)
Definition sumGroup_row (yearId : year_id) (excludeNames : list string)
    (sum : num) (row : Row) : num :=
  if is_hidden row then sum
  else if negb (isExcluded excludeNames row) && negb (is_calculated row) &&
          negb (is_total_row row) && negb (startsWith (r_name row) "=")
  then
    let val := row_value row yearId in
    (sum + (if isNaN val then of_Z 0 else val))%num
  else sum.

Definition sumGroup_rows (yearId : year_id) (excludeNames : list string)
    (rs : list Row) : num :=
  fold_left (sumGroup_row yearId excludeNames) rs (of_Z 0).

Definition sumGroup (yearId : year_id) (groupNamePart : string)
    (excludeNames : list string) : num :=
  match List.find (group_matches groupNamePart) allGroups with
  | Some group => sumGroup_rows yearId excludeNames (rows group)
  | None => of_Z 0
  end.

(** One row of [sumAllGroupsByPageType]; [resultsObj] is the optional
    results object of the year. *)
Definition sumAll_row (yearId : year_id) (normalizedExcludes : list string)
    (resultsObj : option year_results) (sum : num) (row : Row) : num :=
  if is_hidden row || is_calculated row || is_total_row row then sum
  else if startsWith (r_name row) "=" then sum
  else if existsb (fun ex => includes (cleanName (r_name row)) ex) normalizedExcludes
  then sum
  else
    let val :=
      match resultsObj with
      | Some o =>
          match o !! r_name row with
          | Some v => oor (Some v) (of_Z 0)
          | None => row_value row yearId
          end
      | None => row_value row yearId
      end in
    (sum + (if isNaN val then of_Z 0 else val))%num.

Definition tag_excluded (excludeSystemTags : list string) (g : Group) : bool :=
  match g_system_tag g with
  | Some t => existsb (String.eqb t) excludeSystemTags
  | None => false
  end.

Definition sumAllGroupsByPageType (yearId : year_id) (pageType : string)
    (excludeSystemTags excludeRowNames : list string)
    (resultsObj : option year_results) : num :=
  let normalizedExcludes := List.map cleanName excludeRowNames in
  fold_left
    (fun sum group =>
       fold_left (sumAll_row yearId normalizedExcludes resultsObj) (rows group) sum)
    (List.filter
       (fun g => String.eqb (page_type g) pageType &&
                 negb (tag_excluded excludeSystemTags g))
       allGroups)
    (of_Z 0).

End WithGroups.

End Resolver.

(** ** The waterfall engine *)

Module Engine.

Import Tax Resolver.

Local Open Scope num_scope.

Record YearSetting : Type := mkYear {
  id : year_id;
  year : string
}.

Record LoanSummary : Type := mkLoanSummary {
  ls_year_setting : year_id;
  annual_interest : num;
  annual_principal : num;
  closing_balance : num;
  opening_balance : num;
  loan_name : option string;
  is_new_loan : bool
}.

Record GprSettings : Type := mkGpr {
  enabled : bool;
  firstYearIncrement : num;
  subsequentIncrement : num
}.

(** The working-capital fields of [wcSettings], after the defaults of the
    destructuring and [parseFloat]. *)
Record WcSettings : Type := mkWc {
  wc_requirement_type : string;
  existing_wc_limit : num;
  existing_wc_interest_rate : num;
  proposed_wc_limit : num;
  proposed_wc_interest_rate : num
}.

Record WcLoan : Type := mkWcLoan {
  bank_name : string;
  sanctioned_amount : num;
  interest_rate : num
}.

Record Asset : Type := mkAsset {
  is_existing_asset : bool;
  start_date : option string;
  purchase_year : option year_id;
  start_year : option Z;
  amount : num
}.

(** Per-year totals of the loan summaries ([loanDataByYear]). *)
Record LoanData : Type := mkLoanData {
  ld_interest : num;
  ld_principal : num;
  ld_closingBalance : num;
  ld_openingBalance : num
}.

(** An entry of [operatingDeltas], [investingDeltas], [financingDeltas]. *)
Record DeltaItem : Type := mkDelta {
  d_name : string;
  d_delta : num;
  d_bucket : string
}.

(** An entry of [globalDeltaAudit] (the fields that are summed). *)
Record AuditItem : Type := mkAudit {
  a_row : string;
  a_delta : num;
  a_cashImpact : num;
  a_captured : bool;
  a_leak : bool
}.

Definition n0 : num := of_Z 0.
Definition n2 : num := of_Z 2.
Definition n100 : num := of_Z 100.

Definition digit_of (c : ascii) : option Z :=
  let n := nat_of_ascii c in
  if (48 <=? n)%nat && (n <=? 57)%nat then Some (Z.of_nat (n - 48)) else None.

(** The first run of four digits of a label ([/\d{4}/] and [parseInt]). *)
Fixpoint first_four_digits (s : string) : option Z :=
  match s with
  | EmptyString => None
  | String a s1 =>
      match s1 with
      | String b (String c (String d _)) =>
          match digit_of a, digit_of b, digit_of c, digit_of d with
          | Some x, Some y, Some z, Some w =>
              Some (1000 * x + 100 * y + 10 * z + w)%Z
          | _, _, _, _ => first_four_digits s1
          end
      | _ => None
      end
  end.

Definition getYearNum (yStr : string) : Z :=
  match first_four_digits yStr with
  | Some n => n
  | None => 0%Z
  end.

(** Stable insertion sort by [getYearNum], for
    [[...yearSettings].sort((a, b) => getYearNum(a.year) - getYearNum(b.year))]:
    [Array.prototype.sort] is stable, so years with the same number keep
    the order of [yearSettings]. A year is put in front of the first year
    already placed whose number is not smaller; the years already placed
    are those that follow it in [yearSettings]. *)
Fixpoint insert_year (y : YearSetting) (l : list YearSetting) : list YearSetting :=
  match l with
  | [] => [y]
  | x :: rest =>
      if (getYearNum (year y) <=? getYearNum (year x))%Z then y :: l
      else x :: insert_year y rest
  end.

Definition sort_years (l : list YearSetting) : list YearSetting :=
  fold_right insert_year [] l.

(** Leading decimal digits of a string, most significant first. *)
Fixpoint leading_digits (s : string) (acc : option Z) : option Z :=
  match s with
  | EmptyString => acc
  | String c s' =>
      match digit_of c with
      | Some d => leading_digits s' (Some (10 * default 0%Z acc + d)%Z)
      | None => acc
      end
  end.

(** [parseInt(label.split('-')[0])]: white space is skipped, then an
    optional sign and the digits up to the first other character are read;
    [None] stands for NaN. *)
Definition parseInt_first_segment (label : string) : option Z :=
  match trim_left label with
  | String "+"%char s' => leading_digits s' None
  | s => leading_digits s None
  end.

Definition opt_eq_str (a b : option string) : bool :=
  match a, b with
  | Some x, Some y => String.eqb x y
  | _, _ => false
  end.

Section CalculateAll.

Variable allGroups : list Group.
Variable yearSettings : list YearSetting.
Variable taxRegime : string.
Variable loanSummaries : list LoanSummary.
Variable gprSettings : option GprSettings.
Variable wcSettings : WcSettings.
Variable projectCostsData : list Asset.
Variable existingWCLoans : list WcLoan.

(** [loanDataByYear[yId]]: the sums, in list order, over the summaries of
    the year; [None] when the year has no summary. *)
Definition loanDataByYear (yId : year_id) : option LoanData :=
  fold_left
    (fun acc summary =>
       if Z.eqb (ls_year_setting summary) yId then
         let d := default (mkLoanData n0 n0 n0 n0) acc in
         Some (mkLoanData
                 (ld_interest d + annual_interest summary)
                 (ld_principal d + annual_principal summary)
                 (ld_closingBalance d + closing_balance summary)
                 (ld_openingBalance d + opening_balance summary))
       else acc)
    loanSummaries None.

(** [summary.loan_name || (summary.is_new_loan ? 'New Term Loan' : 'Term Loan')]. *)
Definition loanName (summary : LoanSummary) : string :=
  match loan_name summary with
  | Some (String c s) => String c s
  | _ => if is_new_loan summary then "New Term Loan" else "Term Loan"
  end.

Section Year.

(** The loop variables of [sortedYearSettings.forEach((year, yearIndex) => ...)]
    and the reference [prevYearResults]. *)
Variable yId : year_id.
Variable yearIndex : nat.
Variable prev : option year_id.

Definition set_res (R : results) (k : string) (v : num) : results :=
  res_set R yId k v.

(** *** 1. Operating statement *)

(** A. Revenue. *)
Definition revenue_row (totalRevenue : num) (row : Row) : num :=
  if is_hidden row then totalRevenue
  else if negb (is_calculated row) && negb (is_total_row row) &&
          negb (startsWith (r_name row) "=")
  then totalRevenue + row_value row yId
  else totalRevenue.

Definition totalRevenue_of : num :=
  match List.find (fun g => includes (toLowerCase (g_name g)) "revenue") allGroups with
  | Some revenueGroup => fold_left revenue_row (rows revenueGroup) n0
  | None => n0
  end.

Definition phase_revenue (R : results) : results * num :=
  let totalRevenue := totalRevenue_of in
  let R := set_res R "Total Revenue" totalRevenue in
  let R := set_res R "Total Sales" totalRevenue in
  (R, totalRevenue).

(** B. Cost of goods sold: the accumulators of the loop over the rows. *)
Record Cogs : Type := mkCogs {
  openStockRM : num;
  closeStockRM : num;
  purchasesRM : num;
  otherRMCosts : num;
  manufacturingExpenses : num;
  openWIP : num;
  closeWIP : num;
  openFG : num;
  closeFG : num
}.

Definition cogs_init : Cogs := mkCogs n0 n0 n0 n0 n0 n0 n0 n0 n0.

Definition is_opening_rm (name : string) : bool :=
  includes name "opening" && includes name "stock" && includes name "raw".

(** The opening raw-material stock of an opening-stock row with grid value
    [value]: forced value, carry-forward, or the input of the first year. *)
Definition opening_rm_value (R : results) (value : num) : num :=
  match res_get R yId "_forced_opening_stock_rm" with
  | Some forced => forced
  | None =>
      if (0 <? yearIndex)%nat
      then oor (prev_get R prev "Closing Stock (Raw Materials)") value
      else value
  end.

Definition cogs_row (st : results * Cogs) (row : Row) : results * Cogs :=
  let '(R, c) := st in
  if is_hidden row then st
  else if negb (is_calculated row) && negb (is_total_row row) &&
          negb (startsWith (r_name row) "=")
  then
    let value := row_value row yId in
    let name := toLowerCase (r_name row) in
    if is_opening_rm name then
      let open := opening_rm_value R value in
      let R := set_res R (r_name row) open in
      let R := set_res R "Opening Stock (Raw Materials)" open in
      (R, mkCogs open (closeStockRM c) (purchasesRM c) (otherRMCosts c)
            (manufacturingExpenses c) (openWIP c) (closeWIP c) (openFG c) (closeFG c))
    else if includes name "closing" && includes name "stock" && includes name "raw" then
      (R, mkCogs (openStockRM c) value (purchasesRM c) (otherRMCosts c)
            (manufacturingExpenses c) (openWIP c) (closeWIP c) (openFG c) (closeFG c))
    else if includes name "purchase" && includes name "raw" then
      (R, mkCogs (openStockRM c) (closeStockRM c) (purchasesRM c + value) (otherRMCosts c)
            (manufacturingExpenses c) (openWIP c) (closeWIP c) (openFG c) (closeFG c))
    else if includes name "freight" && includes name "in" then
      (R, mkCogs (openStockRM c) (closeStockRM c) (purchasesRM c) (otherRMCosts c + value)
            (manufacturingExpenses c) (openWIP c) (closeWIP c) (openFG c) (closeFG c))
    else if includes name "opening" && includes name "work" && includes name "process" then
      let v := if (yearIndex =? 0)%nat then value
               else oor (prev_get R prev "Closing Stock (Work-in-Process)") value in
      (R, mkCogs (openStockRM c) (closeStockRM c) (purchasesRM c) (otherRMCosts c)
            (manufacturingExpenses c) v (closeWIP c) (openFG c) (closeFG c))
    else if includes name "closing" && includes name "work" && includes name "process" then
      (R, mkCogs (openStockRM c) (closeStockRM c) (purchasesRM c) (otherRMCosts c)
            (manufacturingExpenses c) (openWIP c) value (openFG c) (closeFG c))
    else if includes name "opening" && includes name "finished" then
      let v := if (yearIndex =? 0)%nat then value
               else oor (prev_get R prev "Closing Stock (Finished Goods)") value in
      (R, mkCogs (openStockRM c) (closeStockRM c) (purchasesRM c) (otherRMCosts c)
            (manufacturingExpenses c) (openWIP c) (closeWIP c) v (closeFG c))
    else if includes name "closing" && includes name "finished" then
      (R, mkCogs (openStockRM c) (closeStockRM c) (purchasesRM c) (otherRMCosts c)
            (manufacturingExpenses c) (openWIP c) (closeWIP c) (openFG c) value)
    else
      (R, mkCogs (openStockRM c) (closeStockRM c) (purchasesRM c) (otherRMCosts c)
            (manufacturingExpenses c + value) (openWIP c) (closeWIP c) (openFG c) (closeFG c))
  else st.

Definition is_cogs_group (g : Group) : bool :=
  includes (toLowerCase (g_name g)) "cost of goods sold" ||
  includes (toLowerCase (g_name g)) "cogs".

Definition cogsGroup : option Group := List.find is_cogs_group allGroups.

Definition phase_cogs (R : results) : results * Cogs :=
  match cogsGroup with
  | Some g => fold_left cogs_row (rows g) (R, cogs_init)
  | None => (R, cogs_init)
  end.

(** Target gross-profit-ratio logic. *)
Definition gpr_enabled : bool :=
  match gprSettings with
  | Some g => enabled g
  | None => false
  end.

Definition gpr_increment : num :=
  match gprSettings with
  | Some g =>
      if (yearIndex =? 1)%nat then nor (firstYearIncrement g) n0
      else nor (subsequentIncrement g) n0
  | None => n0
  end.

Definition targetGPR_of (R : results) : num :=
  let prevGPR := oor (prev_get R prev "_actual_gpr") n0 in
  prevGPR + gpr_increment.

Definition solved_closing_stock (c : Cogs) (totalRevenue targetGPR : num) : num :=
  let targetGrossProfit := totalRevenue * (targetGPR / n100) in
  let targetCOGS := totalRevenue - targetGrossProfit in
  let fixedPart :=
    (openStockRM c + purchasesRM c + otherRMCosts c) + manufacturingExpenses c
    + (openWIP c - closeWIP c) + (openFG c - closeFG c) in
  fixedPart - targetCOGS.

Definition res_truthy (R : results) (y : year_id) (k : string) : bool :=
  match res_get R y k with
  | Some v => truthy v
  | None => false
  end.

Definition phase_gpr (R : results) (totalRevenue : num) (c : Cogs) : results * Cogs :=
  if gpr_enabled && ngt totalRevenue n0 then
    if (yearIndex =? 0)%nat then
      let actualRMConsumed := openStockRM c + purchasesRM c + otherRMCosts c - closeStockRM c in
      let actualGrossFactoryCost := actualRMConsumed + manufacturingExpenses c in
      let actualFactoryCostProduced := actualGrossFactoryCost + openWIP c - closeWIP c in
      let actualCOGS := actualFactoryCostProduced + openFG c - closeFG c in
      let actualGrossProfit := totalRevenue - actualCOGS in
      let actualGPR := (actualGrossProfit / totalRevenue) * n100 in
      (set_res R "_actual_gpr" actualGPR, c)
    else
      let targetGPR := targetGPR_of R in
      let R := set_res R "_actual_gpr" targetGPR in
      let close := solved_closing_stock c totalRevenue targetGPR in
      let R := set_res R "Closing Stock (Raw Materials)" close in
      let R := if res_truthy R yId "Closing Stock"
               then set_res R "Closing Stock" close else R in
      let R :=
        if (yearIndex + 1 <? length yearSettings)%nat then
          match nth_error yearSettings (yearIndex + 1) with
          | Some next => res_set R (id next) "_forced_opening_stock_rm" close
          | None => R
          end
        else R in
      (R, mkCogs (openStockRM c) close (purchasesRM c) (otherRMCosts c)
            (manufacturingExpenses c) (openWIP c) (closeWIP c) (openFG c) (closeFG c))
  else (R, c).

(** The derived cost chain. *)
Record CostChain : Type := mkChain {
  rmConsumed : num;
  grossFactoryCost : num;
  factoryCostProduced : num;
  cogs : num;
  grossProfit : num
}.

Definition cost_chain (totalRevenue : num) (c : Cogs) : CostChain :=
  let rmConsumed := openStockRM c + purchasesRM c + otherRMCosts c - closeStockRM c in
  let grossFactoryCost := rmConsumed + manufacturingExpenses c in
  let factoryCostProduced := grossFactoryCost + openWIP c - closeWIP c in
  let cogs := factoryCostProduced + openFG c - closeFG c in
  let grossProfit := totalRevenue - cogs in
  mkChain rmConsumed grossFactoryCost factoryCostProduced cogs grossProfit.

(** [totalRevenue ? (grossProfit / totalRevenue) * 100 : 0]. *)
Definition grossProfitRatio (totalRevenue grossProfit : num) : num :=
  if truthy totalRevenue then (grossProfit / totalRevenue) * n100 else n0.

Definition phase_chain (R : results) (totalRevenue : num) (c : Cogs) : results * CostChain :=
  let ch := cost_chain totalRevenue c in
  let R := set_res R "Raw Material Consumed" (rmConsumed ch) in
  let R := set_res R "Total Manufacturing Expenses" (manufacturingExpenses c) in
  let R := set_res R "Gross Factory Cost" (grossFactoryCost ch) in
  let R := set_res R "Factory Cost of Goods Produced" (factoryCostProduced ch) in
  let R := set_res R "Cost of Goods Sold (COGS)" (cogs ch) in
  let R := set_res R "Gross Profit" (grossProfit ch) in
  let R := set_res R "Gross Profit Ratio" (grossProfitRatio totalRevenue (grossProfit ch)) in
  (R, ch).

(** Working-capital interest, SG&A and EBITDA. *)
Definition wc_interest_loan (st : results * num) (loan : WcLoan) : results * num :=
  let '(R, wcInterestExisting) := st in
  let limit := sanctioned_amount loan in
  let rate := interest_rate loan in
  let interest := (limit * rate) / n100 in
  (set_res R ("Interest on " +:+ bank_name loan +:+ " WC") interest,
   wcInterestExisting + interest).

Definition is_enhancement : bool :=
  String.eqb (wc_requirement_type wcSettings) "enhancement".

Definition phase_wc_interest (R : results) : results * num * num :=
  let '(R, wcInterestExisting) :=
    match existingWCLoans with
    | _ :: _ => fold_left wc_interest_loan existingWCLoans (R, n0)
    | [] =>
        if is_enhancement then
          let w := (existing_wc_limit wcSettings * existing_wc_interest_rate wcSettings) / n100 in
          (set_res R "Interest on Existing Working Capital" w, w)
        else (R, n0)
    end in
  let wcInterestProposed :=
    (proposed_wc_limit wcSettings * proposed_wc_interest_rate wcSettings) / n100 in
  let R := set_res R "Interest on Proposed Working Capital" wcInterestProposed in
  (R, wcInterestExisting, wcInterestProposed).

Definition sga_excludes : list string :=
  ["Depreciation"; "Interest"; "Depriciation"; "Equipment"; "Depr"; "Amortization"].

Definition phase_sga (R : results) (grossProfit : num) : results * num :=
  let totalSGA := sumGroup allGroups yId "Selling" sga_excludes in
  let R := set_res R "Total SG&A Expenses" totalSGA in
  let R := set_res R "Total Selling, General & Administrative Expenses" totalSGA in
  let R := set_res R "Selling, General, and Admn. Exp. Total" totalSGA in
  let ebitda := grossProfit - totalSGA in
  let R := set_res R "EBITDA" ebitda in
  let R := set_res R "Profit before Depreciation, Interest and Tax" ebitda in
  (R, ebitda).

(** I. Interest. *)
Definition termLoanInterest_of : num :=
  match loanDataByYear yId with
  | Some d => nor (ld_interest d) n0
  | None => n0
  end.

Definition loan_interest_entry (R : results) (summary : LoanSummary) : results :=
  if Z.eqb (ls_year_setting summary) yId
  then set_res R ("Interest on " +:+ loanName summary) (annual_interest summary)
  else R.

Definition is_other_interest (name : string) : bool :=
  includes name "interest" &&
  negb (includes name "total interest") &&
  negb (includes name "term loan interest") &&
  negb (includes name "working capital interest") &&
  negb (startsWith name "interest on") &&
  negb (includes name "interest coverage").

Definition other_interest_row (otherInterest : num) (row : Row) : num :=
  if is_other_interest (toLowerCase (r_name row))
  then otherInterest + row_value row yId
  else otherInterest.

Definition otherInterest_of : num :=
  fold_left (fun acc group => fold_left other_interest_row (rows group) acc)
    allGroups n0.

Record Interest : Type := mkInterest {
  termLoanInterest : num;
  otherInterest : num;
  wcInterestExisting : num;
  wcInterestProposed : num;
  totalInterest : num
}.

Definition phase_interest (R : results) (wcE wcP : num) : results * Interest :=
  let termLoanInterest := termLoanInterest_of in
  let R := fold_left loan_interest_entry loanSummaries R in
  let otherInterest := otherInterest_of in
  let totalInterest := termLoanInterest + otherInterest + wcE + wcP in
  let R := set_res R "Term Loan Interest" termLoanInterest in
  let R := set_res R "Working Capital Interest" n0 in
  let R := set_res R "Other Interest" otherInterest in
  let R := set_res R "Total Interest" totalInterest in
  (R, mkInterest termLoanInterest otherInterest wcE wcP totalInterest).

(** J to N. Depreciation, operating profit, profit before and after tax,
    retained profit. *)
Record Profit : Type := mkProfit {
  depreciation : num;
  opProfit : num;
  pbt : num;
  taxDetails : TaxResult;
  pat : num;
  dividends : num;
  divTax : num;
  retainedProfit : num
}.

Definition phase_profit (R : results) (ebitda totalInterest : num) : results * Profit :=
  let depreciation :=
    nor (getVal allGroups R yId "Depreciation")
        (getVal allGroups R yId "Depreciation (Office Equipment)") in
  let R := set_res R "Depreciation" depreciation in
  let R := set_res R "Depreciation (Office Equipment)" depreciation in
  let opProfit := ebitda - depreciation in
  let R := set_res R "Operating Profit (EBIT)" opProfit in
  let R := set_res R "Profit After Depreciation" opProfit in
  let R := set_res R "EBIT" opProfit in
  let pbt := ebitda - totalInterest - depreciation in
  let R := set_res R "Profit Before Tax" pbt in
  let R := set_res R "Profit/loss before tax" pbt in
  let taxDetails := calculateTax pbt taxRegime in
  let R := set_res R "Tax" (tax taxDetails) in
  let R := set_res R "Surcharge" (surcharge taxDetails) in
  let R := set_res R "Cess" (cess taxDetails) in
  let R := set_res R "Total Tax" (total taxDetails) in
  let R := set_res R "Provision for Taxes" (total taxDetails) in
  let pat := pbt - total taxDetails in
  let R := set_res R "Profit After Tax (PAT)" pat in
  let R := set_res R "PAT" pat in
  let dividends := getVal allGroups R yId "Equity / Dividend Paid Amount" in
  let divTax := getVal allGroups R yId "Dividend Tax including Surcharge" in
  let retainedProfit := pat - (dividends + divTax) in
  let R := set_res R "Retained Profit" retainedProfit in
  (R, mkProfit depreciation opProfit pbt taxDetails pat dividends divTax retainedProfit).

(** *** 2. Balance sheet *)

(** A. Current assets, with the inventory heads taken from the operating
    statement. *)
Definition phase_current_assets (R : results) (c : Cogs) : results * num :=
  let nonCashCurrentAssets := sumGroup allGroups yId "Current assets" ["Cash"; "Bank"] in
  let gridRM := getVal allGroups R yId "Raw materials Domestic" in
  let R := set_res R "Raw materials Domestic" (closeStockRM c) in
  let R := set_res R "Closing Stock (Raw Materials)" (closeStockRM c) in
  let gridWIP := getVal allGroups R yId "Stock in process" in
  let R := set_res R "Stock in process" (closeWIP c) in
  let R := set_res R "Closing Stock (Work-in-Process)" (closeWIP c) in
  let gridFG := getVal allGroups R yId "Finished goods" in
  let R := set_res R "Finished goods" (closeFG c) in
  let R := set_res R "Closing Stock (Finished Goods)" (closeFG c) in
  let nonCashCurrentAssets :=
    nonCashCurrentAssets - gridRM - gridWIP - gridFG
    + closeStockRM c + closeWIP c + closeFG c in
  (R, nonCashCurrentAssets).

(** B. Fixed assets (written-down-value cascade). *)
Definition currentYearLabel : option string :=
  option_map year (nth_error yearSettings yearIndex).

Definition asset_in_year (asset : Asset) : bool :=
  if is_existing_asset asset then false
  else if str_truthy (start_date asset) && opt_eq_str (start_date asset) currentYearLabel
  then true
  else if match purchase_year asset with
          | Some p => negb (Z.eqb p 0) && Z.eqb p yId
          | None => false
          end
  then true
  else
    match start_year asset, currentYearLabel with
    | Some sy, Some (String c l) =>
        if Z.eqb sy 0 then false
        else
          match parseInt_first_segment (String c l) with
          | Some firstYear => Z.eqb sy firstYear
          | None => false
          end
    | _, _ => false
    end.

Definition assetAdditions_of : num :=
  match projectCostsData with
  | _ :: _ =>
      fold_left (fun sum asset => sum + amount asset)
        (List.filter asset_in_year projectCostsData) n0
  | [] => n0
  end.

(** The net block of the previous year, through the internal carry key. *)
Definition prevNetBlock_of (R : results) : num :=
  match prev with
  | Some p =>
      match res_get R p "_net_block_carry" with
      | Some carry => nor carry n0
      | None => oor (res_get R p "Net block") (oor (res_get R p "Net Block") n0)
      end
  | None => n0
  end.

Definition is_fixed_asset_group (g : Group) : bool :=
  includes (toLowerCase (g_name g)) "fixed" || opt_is (g_system_tag g) "fixed_assets".

Definition fixed_asset_row (grossBlock netBlock : num) (R : results) (r : Row) : results :=
  let lowerName := trim (toLowerCase (r_name r)) in
  if includes lowerName "gross block" then set_res R (r_name r) grossBlock
  else if String.eqb lowerName "net block" then set_res R (r_name r) netBlock
  else R.

Record FixedAssets : Type := mkFixed {
  assetAdditions : num;
  grossBlock : num;
  netBlock : num;
  totalFixedAssets : num
}.

Definition grossBlock_of (R : results) (assetAdditions : num) : num :=
  if (yearIndex =? 0)%nat
  then getVal allGroups R yId "Gross block" + assetAdditions
  else prevNetBlock_of R + assetAdditions.

Definition phase_fixed_assets (R : results) (depreciation : num) : results * FixedAssets :=
  let assetAdditions := assetAdditions_of in
  let grossBlock := grossBlock_of R assetAdditions in
  let netBlock := grossBlock - depreciation in
  let R := set_res R "Gross block" grossBlock in
  let R := set_res R "Net block" netBlock in
  let R := set_res R "_net_block_carry" netBlock in
  let R :=
    match List.find is_fixed_asset_group allGroups with
    | Some fixedAssetGroup =>
        fold_left (fixed_asset_row grossBlock netBlock) (rows fixedAssetGroup) R
    | None => R
    end in
  let R := set_res R "Asset Additions" assetAdditions in
  let capitalWIP :=
    nor (getVal allGroups R yId "Capital WIP") (getVal allGroups R yId "Capital WIP") in
  let intangibleAssets := nor (getVal allGroups R yId "Intangible Assets") n0 in
  let totalFixedAssets := netBlock + capitalWIP + intangibleAssets in
  let R := set_res R "Total Fixed Assets" totalFixedAssets in
  (R, mkFixed assetAdditions grossBlock netBlock totalFixedAssets).

(** C. Current liabilities, with the working-capital limits injected. *)
Definition wc_liability_loan (st : results * num) (loan : WcLoan) : results * num :=
  let '(R, wcLiabilityExisting) := st in
  let val := sanctioned_amount loan in
  (set_res R (bank_name loan +:+ " WC Limit") val, wcLiabilityExisting + val).

Record CurrentLiabilities : Type := mkCurLiab {
  wcLiabilityExisting : num;
  wcLiabilityProposed : num;
  totalCurrentLiabilities : num
}.

Definition phase_current_liabilities (R : results) (taxTotal : num)
  : results * CurrentLiabilities :=
  let totalCurrentLiabilitiesInput :=
    sumGroup allGroups yId "Current liabilities" ["Provision for Taxes"] in
  let '(R, wcLiabilityExisting) :=
    match existingWCLoans with
    | _ :: _ => fold_left wc_liability_loan existingWCLoans (R, n0)
    | [] =>
        if is_enhancement then
          let w := existing_wc_limit wcSettings in
          (set_res R "Existing Working Capital Limit" w, w)
        else (R, n0)
    end in
  let wcLiabilityProposed := proposed_wc_limit wcSettings in
  let R := set_res R "Proposed Working Capital Limit" wcLiabilityProposed in
  let totalCurrentLiabilities :=
    totalCurrentLiabilitiesInput + taxTotal + wcLiabilityExisting + wcLiabilityProposed in
  let R := set_res R "Total current liability" totalCurrentLiabilities in
  let R := set_res R "Total Current Liabilities" totalCurrentLiabilities in
  let R := set_res R "Provision for Taxes" taxTotal in
  (R, mkCurLiab wcLiabilityExisting wcLiabilityProposed totalCurrentLiabilities).

(** D. Term liabilities. *)
Definition loanOutstanding_of : num :=
  match loanDataByYear yId with
  | Some d => nor (ld_closingBalance d) n0
  | None => n0
  end.

Definition loan_closing_entry (R : results) (summary : LoanSummary) : results :=
  if Z.eqb (ls_year_setting summary) yId
  then set_res R (loanName summary +:+ " (Closing Balance)") (closing_balance summary)
  else R.

Definition phase_term_liabilities (R : results) : results * num * num :=
  let termLiabilitiesInput := sumGroup allGroups yId "Term liabilities" ["Term loans"] in
  let loanOutstanding := loanOutstanding_of in
  let R := fold_left loan_closing_entry loanSummaries R in
  let totalTermLiabilities := termLiabilitiesInput + loanOutstanding in
  let R := set_res R "Total term liabilities" totalTermLiabilities in
  let R := set_res R "Total Term Liabilities" totalTermLiabilities in
  let R := set_res R "Term loans (excluding installments)" loanOutstanding in
  (R, loanOutstanding, totalTermLiabilities).

(** E. Net worth. *)
Definition isLlpOrProprietorship : bool :=
  String.eqb taxRegime "llp" || String.eqb taxRegime "proprietorship".

Definition net_worth_other_excludes : list string :=
  ["Capital"; "Drawings"; "General reserve"; "Total Net Worth";
   "Ordinary share capital"; "Share Capital"; "Reserves & Surplus"].

Definition share_capital_excludes : list string :=
  ["General reserve"; "Net worth"; "liability"].

(** Returns the store, [totalNetWorth] and the outer [shareCapital]. *)
Definition phase_net_worth (R : results) (retainedProfit : num) : results * num * num :=
  let '(R, totalNetWorth, shareCapital) :=
    if isLlpOrProprietorship then
      let capital :=
        if (yearIndex =? 0)%nat then
          nor (nor (getVal allGroups R yId "Capital")
                   (getVal allGroups R yId "Ordinary share capital")) n0
        else
          let prevCapital := oor (prev_get R prev "Capital") n0 in
          let prevPAT :=
            oor (prev_get R prev "General Reserve (PAT)")
                (oor (prev_get R prev "Profit After Tax (PAT)") n0) in
          let prevDrawings := oor (prev_get R prev "Drawings") n0 in
          prevCapital + prevPAT - prevDrawings in
      let R := set_res R "Capital" capital in
      let yearDrawings := nor (getVal allGroups R yId "Drawings") n0 in
      let R := set_res R "Drawings" yearDrawings in
      let generalReservePAT := oor (res_get R yId "Profit After Tax (PAT)") n0 in
      let R := set_res R "General Reserve (PAT)" generalReservePAT in
      let otherHeads := sumGroup allGroups yId "Net Worth" net_worth_other_excludes in
      (R, capital - yearDrawings + generalReservePAT + otherHeads, capital)
    else
      let shareCapital := sumGroup allGroups yId "Shareholders" share_capital_excludes in
      let shareCapital :=
        if neqb shareCapital n0
        then sumGroup allGroups yId "Share capital" share_capital_excludes
        else shareCapital in
      let shareCapital :=
        if neqb shareCapital n0
        then sumGroup allGroups yId "Net Worth" share_capital_excludes
        else shareCapital in
      let generalReserveInput := getVal allGroups R yId "General reserve" in
      let currentReserves :=
        if (yearIndex =? 0)%nat then generalReserveInput + retainedProfit
        else oor (prev_get R prev "Reserves") n0 + retainedProfit in
      let R := set_res R "Reserves" currentReserves in
      let R := set_res R "General reserve" currentReserves in
      let R := set_res R "Retained Earnings" currentReserves in
      (R, shareCapital + currentReserves, n0) in
  let R := set_res R "Net worth" totalNetWorth in
  let R := set_res R "Net Worth" totalNetWorth in
  let R := set_res R "Total Net Worth" totalNetWorth in
  (R, totalNetWorth, shareCapital).

(** F. Total liabilities. *)
Definition liability_tag_excludes : list string :=
  ["total_liabilities"; "total_assets"; "net_worth"; "net_worth_total";
   "reserves_surplus"; "shareholders_equity"].

Definition liability_row_excludes : list string :=
  ["provision for taxes"; "term loans"; "term loan"; "existing working capital";
   "proposed working capital"; "share capital"; "ordinary share capital";
   "general reserve"; "capital"; "drawings"; "retained earnings";
   "reserves & surplus"; "capital reserve"; "share premium"].

Definition phase_total_liabilities (R : results)
    (taxTotal loanOutstanding wcLE wcLP totalNetWorth : num) : results * num :=
  let allLiabilityRowsSum :=
    sumAllGroupsByPageType allGroups yId "liability"
      liability_tag_excludes liability_row_excludes (Some (year_map R yId)) in
  let totalLiabilities :=
    allLiabilityRowsSum + taxTotal + loanOutstanding + wcLE + wcLP + totalNetWorth in
  let R := set_res R "Total liabilities" totalLiabilities in
  let R := set_res R "Total Liabilities" totalLiabilities in
  let R := set_res R "Total Liabilities and Net Worth" totalLiabilities in
  let R := set_res R "_debug_allLiabilityRowsSum" allLiabilityRowsSum in
  let R := set_res R "_debug_taxInjection" taxTotal in
  let R := set_res R "_debug_loanInjection" loanOutstanding in
  let R := set_res R "_debug_wcInjection" (wcLE + wcLP) in
  let R := set_res R "_debug_netWorthInjection" totalNetWorth in
  (R, totalLiabilities).

(** *** 3. Cash flow statement (indirect method) *)

Definition mem_str (s : string) (l : list string) : bool :=
  existsb (String.eqb s) l.

(** [getRowCFBucket(row, groupCfBucket)]. *)
Definition getRowCFBucket (row : Row) (groupCfBucket : string) : string :=
  let lowerName := toLowerCase (r_name row) in
  let tag := r_system_tag row in
  if opt_is tag "cash_bank" ||
     (includes lowerName "cash" && (includes lowerName "bank" || includes lowerName "hand"))
  then "skip"
  else if opt_is tag "retained_earnings" || opt_is tag "general_reserve" then "skip"
  else if isLlpOrProprietorship &&
          (String.eqb lowerName "capital" || opt_is tag "capital" ||
           String.eqb lowerName "partner's capital")
  then "skip"
  else if isLlpOrProprietorship &&
          (String.eqb lowerName "drawings" || opt_is tag "drawings")
  then "skip"
  else if isLlpOrProprietorship && includes lowerName "general reserve" then "skip"
  else if includes lowerName "interest" && negb (includes lowerName "interest coverage")
  then "skip"
  else
    match tag with
    | Some (String c t) =>
        let tg := String c t in
        if mem_str tg ["wc_borrowing"; "drawings"; "share_capital"; "unsecured_loan"; "term_loan"]
        then "financing"
        else if mem_str tg ["gross_block"; "capital_wip"; "net_block"; "accum_depr"] then
          if String.eqb tg "gross_block" || String.eqb tg "net_block" ||
             String.eqb tg "accum_depr"
          then "skip" else "investing"
        else if String.eqb tg "dtl" then
          if includes lowerName "cc limit" || includes lowerName "od limit" ||
             includes lowerName "packing credit" ||
             includes lowerName "short term borrowing" ||
             includes lowerName "unsecured loan" ||
             includes lowerName "partner's capital" ||
             includes lowerName "share capital" ||
             includes lowerName "ordinary share capital" ||
             includes lowerName "bills payable" ||
             (includes lowerName "current maturity" && includes lowerName "debt")
          then "financing"
          else if includes lowerName "gross block" || includes lowerName "net block"
          then "skip"
          else "investing"
        else groupCfBucket
    | _ => groupCfBucket
    end.

(** The bucket of a group: its [cf_bucket], or a guess from its tag. *)
Definition groupCfBucket_of (group : Group) : string :=
  match cf_bucket group with
  | Some (String c b) => String c b
  | _ =>
      let tag := g_system_tag group in
      if opt_includes tag "current" || opt_includes tag "trade" ||
         opt_includes tag "provision"
      then "operating"
      else if opt_includes tag "fixed" || opt_includes tag "non_current" then "investing"
      else if opt_includes tag "capital" || opt_includes tag "borrowing" ||
              opt_includes tag "term"
      then "financing"
      else "operating"
  end.

Definition nature_of (group : Group) : string :=
  match nature group with
  | Some (String c n) => String c n
  | _ => if String.eqb (page_type group) "asset" then "asset" else "liability"
  end.

(** Groups left out of the delta scan. *)
Definition delta_group_skipped (group : Group) : bool :=
  String.eqb (page_type group) "operating" ||
  opt_is (g_system_tag group) "total_assets" ||
  opt_is (g_system_tag group) "total_liabilities" ||
  opt_is (g_system_tag group) "net_worth_total" ||
  opt_is (g_system_tag group) "reserves_surplus" ||
  opt_is (cf_bucket group) "cash_equivalent" ||
  opt_is (cf_bucket group) "skip".

(** The prefix of the per-row delta entries, byte for byte as the template
    literal of the source has it: the six bytes C3 8E E2 80 9D 20 (the
    letters of a capital delta in a mistaken encoding, then a space). *)
Definition delta_prefix : string := "Î” ".

Record Deltas : Type := mkDeltas {
  operatingDeltas : list DeltaItem;
  investingDeltas : list DeltaItem;
  financingDeltas : list DeltaItem
}.

(** The current value of a row in the delta scan: the grid value, replaced
    by the computed figures for the tax provision and the inventory rows. *)
Definition delta_currVal (R : results) (taxTotal : num) (row : Row) : num :=
  let rowNameLower := toLowerCase (r_name row) in
  let currVal := row_value row yId in
  let currVal :=
    if includes rowNameLower "provision for tax"
    then oor (res_get R yId "Provision for Taxes") (nor taxTotal currVal)
    else currVal in
  let currVal :=
    if includes rowNameLower "raw material" && includes rowNameLower "domestic"
    then oor (res_get R yId "Raw materials Domestic")
             (oor (res_get R yId "Closing Stock (Raw Materials)") currVal)
    else currVal in
  let currVal :=
    if includes rowNameLower "stock in process" ||
       (includes rowNameLower "wip" && negb (includes rowNameLower "capital"))
    then oor (res_get R yId "Stock in process")
             (oor (res_get R yId "Closing Stock (Work-in-Process)") currVal)
    else currVal in
  let currVal :=
    if includes rowNameLower "finished good"
    then oor (res_get R yId "Finished goods")
             (oor (res_get R yId "Closing Stock (Finished Goods)") currVal)
    else currVal in
  currVal.

(** [prevYearResults ? (prevYearResults[k] || 0) : 0]. *)
Definition prev_or_zero (R : results) (k : string) : num :=
  match prev with
  | Some p => oor (res_get R p k) n0
  | None => n0
  end.

Definition small : num := dec 1 100.

Definition delta_row (taxTotal : num) (groupCfBucket nature : string)
    (st : results * Deltas) (row : Row) : results * Deltas :=
  let '(R, ds) := st in
  if is_hidden row || is_calculated row || is_total_row row ||
     startsWith (r_name row) "="
  then st
  else
    let cfBucket := getRowCFBucket row groupCfBucket in
    if String.eqb cfBucket "skip" then st
    else
      let rowNameLower := toLowerCase (r_name row) in
      if includes rowNameLower "term loan" && includes rowNameLower "excluding" then st
      else
        let currVal := delta_currVal R taxTotal row in
        let prevVal := prev_or_zero R (r_name row) in
        let R := set_res R (r_name row) currVal in
        let delta :=
          if String.eqb nature "asset" then prevVal - currVal else currVal - prevVal in
        if ngt (nabs delta) small then
          let deltaItem := mkDelta (r_name row) delta cfBucket in
          let ds :=
            if String.eqb cfBucket "operating" then
              mkDeltas (operatingDeltas ds ++ [deltaItem]) (investingDeltas ds)
                       (financingDeltas ds)
            else if String.eqb cfBucket "investing" then
              mkDeltas (operatingDeltas ds) (investingDeltas ds ++ [deltaItem])
                       (financingDeltas ds)
            else if String.eqb cfBucket "financing" then
              mkDeltas (operatingDeltas ds) (investingDeltas ds)
                       (financingDeltas ds ++ [deltaItem])
            else ds in
          (set_res R (delta_prefix +:+ r_name row) delta, ds)
        else (R, ds).

Definition delta_group (taxTotal : num) (st : results * Deltas) (group : Group)
  : results * Deltas :=
  if delta_group_skipped group then st
  else
    fold_left (delta_row taxTotal (groupCfBucket_of group) (nature_of group))
      (rows group) st.

Definition delta_scan (R : results) (taxTotal : num) : results * Deltas :=
  fold_left (delta_group taxTotal) allGroups (R, mkDeltas [] [] []).

(** The split of the operating deltas into outflows and inflows. *)
Definition wc_changes (ops : list DeltaItem) : num * num :=
  fold_left
    (fun acc item =>
       let '(wcAssetChange, wcLiabilityChange) := acc in
       if nlt (d_delta item) n0
       then (wcAssetChange + - d_delta item, wcLiabilityChange)
       else (wcAssetChange, wcLiabilityChange + d_delta item))
    ops (n0, n0).

Definition sum_deltas (l : list DeltaItem) : num :=
  fold_left (fun sum item => sum + d_delta item) l n0.

(** Global delta audit: every balance-sheet row, against the names captured
    by the scan. *)
Definition audit_row (R : results) (captured : list string) (isAsset : bool)
    (acc : list AuditItem) (row : Row) : list AuditItem :=
  if is_hidden row || is_calculated row || is_total_row row ||
     startsWith (r_name row) "="
  then acc
  else
    let currVal := row_value row yId in
    let prevVal := prev_or_zero R (r_name row) in
    let delta := currVal - prevVal in
    let cashImpact := if isAsset then - delta else delta in
    let isCaptured := mem_str (r_name row) captured in
    if ngt (nabs delta) small
    then acc ++ [mkAudit (r_name row) delta cashImpact isCaptured (negb isCaptured)]
    else acc.

Definition audit_group (R : results) (captured : list string)
    (acc : list AuditItem) (group : Group) : list AuditItem :=
  if String.eqb (page_type group) "operating" then acc
  else
    fold_left (audit_row R captured (String.eqb (page_type group) "asset"))
      (rows group) acc.

Definition globalDeltaAudit_of (R : results) (ds : Deltas) : list AuditItem :=
  let captured :=
    List.map d_name (operatingDeltas ds) ++ List.map d_name (investingDeltas ds)
    ++ List.map d_name (financingDeltas ds) in
  fold_left (audit_group R captured) allGroups [].

Definition sum_cashImpact (l : list AuditItem) : num :=
  fold_left (fun sum item => sum + a_cashImpact item) l n0.

(** A. Operating activities. *)
Definition phase_operating (R : results) (p : Profit) (i : Interest)
  : results * Deltas * num :=
  let cashFromOperating := pat p in
  let R := set_res R "Net profit/Profit/Loss after tax" (pat p) in
  let R := set_res R "Add: Depreciation" (depreciation p) in
  let cashFromOperating := cashFromOperating + depreciation p in
  let R := set_res R "Add: Term Loan Interest" (termLoanInterest i) in
  let R := set_res R "Add: Working Capital Interest"
             (wcInterestExisting i + wcInterestProposed i) in
  let R := set_res R "Add: Other Interest" (otherInterest i) in
  let cashFromOperating := cashFromOperating + totalInterest i in
  let '(R, ds) := delta_scan R (total (taxDetails p)) in
  let '(wcAssetChange, wcLiabilityChange) := wc_changes (operatingDeltas ds) in
  let R := set_res R "Less: Increase in Current Assets" (- wcAssetChange) in
  let R := set_res R "Increase in Current Liability" wcLiabilityChange in
  let cashFromOperating := cashFromOperating + (wcLiabilityChange - wcAssetChange) in
  let globalDeltaAudit := globalDeltaAudit_of R ds in
  let totalBSDelta := sum_cashImpact globalDeltaAudit in
  let uncapturedDelta := sum_cashImpact (List.filter a_leak globalDeltaAudit) in
  let R := set_res R "_totalBSDelta" totalBSDelta in
  let R := set_res R "_uncapturedDelta" uncapturedDelta in
  let R := set_res R "Net Cash from Operating Activities" cashFromOperating in
  (R, ds, cashFromOperating).

(** B. Investing activities. *)
Definition purchaseFA_of (R : results) (fa : FixedAssets) (depreciation : num) : num :=
  match prev with
  | Some p =>
      let prevNetBlock := oor (res_get R p "Net block") n0 in
      (netBlock fa - prevNetBlock) + depreciation
  | None => grossBlock fa
  end.

Definition phase_investing (R : results) (fa : FixedAssets) (depreciation : num)
    (ds : Deltas) : results * num :=
  let purchaseFA := purchaseFA_of R fa depreciation in
  let R := set_res R "Less: Purchase/Addition of Fixed Assets" (- purchaseFA) in
  let investingDeltaSum := sum_deltas (investingDeltas ds) in
  let cashFromInvesting := - purchaseFA + investingDeltaSum in
  let R := set_res R "Net Cash from Investment Activities" cashFromInvesting in
  (R, cashFromInvesting).

(** C. Financing activities. *)
Definition is_some_year (o : option year_id) : bool :=
  match o with Some _ => true | None => false end.

Definition phase_financing (R : results) (p : Profit) (i : Interest)
    (cl : CurrentLiabilities) (loanOutstanding totalTermLiabilities shareCapital : num)
    (ds : Deltas) : results * num :=
  let cashFromFinancing := n0 in
  (* 1. term loans *)
  let '(termLoanProceeds, termLoanRepayment, cashFromFinancing) :=
    if is_some_year prev then
      let prevLoan := prev_or_zero R "Term loans (excluding installments)" in
      let currLoan := loanOutstanding in
      let loanChange := currLoan - prevLoan in
      if ngt loanChange n0
      then (loanChange, n0, cashFromFinancing + loanChange)
      else (n0, - loanChange, cashFromFinancing + loanChange)
    else (loanOutstanding, n0, cashFromFinancing + loanOutstanding) in
  let R := set_res R "Add: Proceeds from Term Loans" termLoanProceeds in
  let R := set_res R "Less: Repayment of Term Loans" (- termLoanRepayment) in
  (* 2. other term liabilities, for display *)
  let otherTermLiabChange :=
    match prev with
    | Some q =>
        let prevOtherTL :=
          oor (res_get R q "Total term liability")
              (oor (res_get R q "Total Term Liabilities") n0)
          - oor (res_get R q "Term loans (excluding installments)") n0 in
        let currOtherTL := totalTermLiabilities - loanOutstanding in
        currOtherTL - prevOtherTL
    | None => totalTermLiabilities - loanOutstanding
    end in
  let R := set_res R "Add/Less: Change in Other Term Liabilities" otherTermLiabChange in
  (* 3. share capital, for display *)
  let equityChange :=
    match prev with
    | Some q =>
        if isLlpOrProprietorship then n0
        else
          let prevShareCap :=
            oor (res_get R q "Ordinary share capital")
                (oor (res_get R q "Share Capital") n0) in
          let currShareCap :=
            nor (nor (getVal allGroups R yId "Ordinary share capital")
                     (getVal allGroups R yId "Share Capital")) n0 in
          currShareCap - prevShareCap
    | None =>
        if negb isLlpOrProprietorship then
          nor (nor (getVal allGroups R yId "Ordinary share capital")
                   (getVal allGroups R yId "Share Capital")) n0
        else
          nor (nor (getVal allGroups R yId "Capital") shareCapital) n0
    end in
  let R := set_res R "Add/Less: Change in Share Capital" equityChange in
  (* 4. working-capital borrowings *)
  let wcBorrowingChange :=
    match prev with
    | Some q =>
        let prevWCBorrowing :=
          oor (res_get R q "Existing Working Capital Limit") n0
          + oor (res_get R q "Proposed Working Capital Limit") n0 in
        let currWCBorrowing := wcLiabilityExisting cl + wcLiabilityProposed cl in
        currWCBorrowing - prevWCBorrowing
    | None => wcLiabilityExisting cl + wcLiabilityProposed cl
    end in
  let cashFromFinancing := cashFromFinancing + wcBorrowingChange in
  let R := set_res R "Add/Less: Change in WC Borrowings" wcBorrowingChange in
  (* 5. drawings *)
  let '(drawingsOutflow, cashFromFinancing) :=
    if isLlpOrProprietorship then
      let yearDrawings := nor (getVal allGroups R yId "Drawings") n0 in
      (yearDrawings, cashFromFinancing - yearDrawings)
    else (n0, cashFromFinancing) in
  let R := set_res R "Less: Drawings" (- drawingsOutflow) in
  (* 6. dividend *)
  let dividendPaid := dividends p + divTax p in
  let cashFromFinancing := cashFromFinancing - dividendPaid in
  let R := set_res R "Less: Dividend Paid" (- dividendPaid) in
  (* 7. interest *)
  let totalInterestPaid := totalInterest i in
  let cashFromFinancing := cashFromFinancing - totalInterestPaid in
  let R := set_res R "Less: Interest Paid" (- totalInterestPaid) in
  let R := set_res R "Less: Term Loan Interest Paid" (- termLoanInterest i) in
  let R := set_res R "Less: WC Interest Paid"
             (- (wcInterestExisting i + wcInterestProposed i)) in
  let R := set_res R "Less: Other Interest Paid" (- otherInterest i) in
  (* 8. deltas of the scan *)
  let financingDeltaSum := sum_deltas (financingDeltas ds) in
  let cashFromFinancing := cashFromFinancing + financingDeltaSum in
  let R := set_res R "Net Cash from Financing Activities" cashFromFinancing in
  (R, cashFromFinancing).

(** D to H. Net cash flow, opening and closing cash, total assets, checks. *)
Definition openingCash_of (R : results) : num :=
  if (yearIndex =? 0)%nat then
    nor (nor (nor (getVal allGroups R yId "Cash & Bank Balance")
                  (getVal allGroups R yId "Cash in Hand"))
             (getVal allGroups R yId "Balance with Banks")) n0
  else
    oor (prev_get R prev "Closing Cash Balance (as per CFS)")
      (oor (prev_get R prev "Cash & Bank Balance")
         (oor (prev_get R prev "Total Cash & Bank") n0)).

Definition nonCurrentAssets_of (R : results) : num :=
  nor (nor (sumGroup allGroups yId "Non-Current" [])
           (sumGroup allGroups yId "non_current" []))
      (getVal allGroups R yId "Long Term Investments"
       + getVal allGroups R yId "Security Deposits (MSEB/Rent)"
       + getVal allGroups R yId "Investment in Subsidy"
       + getVal allGroups R yId "Loans & Advances (LT)"
       + getVal allGroups R yId "Other Non-Current Assets").

Record Cash : Type := mkCash {
  netCashFlow : num;
  openingCash : num;
  closingCashCFS : num;
  totalCurrentAssets : num;
  nonCurrentAssets : num;
  totalAssets : num
}.

Definition phase_cash (R : results)
    (cashFromOperating cashFromInvesting cashFromFinancing : num)
    (nonCashCurrentAssets totalFixedAssets totalLiabilities : num) : results * Cash :=
  let netCashFlow := cashFromOperating + cashFromInvesting + cashFromFinancing in
  let R := set_res R "Net Cash Flow During the Year" netCashFlow in
  let openingCash := openingCash_of R in
  let closingCashCFS := openingCash + netCashFlow in
  let R := set_res R "Add: Opening Cash Balance" openingCash in
  let R := set_res R "Closing Cash Balance (as per CFS)" closingCashCFS in
  let R := set_res R "Cash & Bank Balance" closingCashCFS in
  let R := set_res R "Cash & bank balance" closingCashCFS in
  let R := set_res R "Cash in Hand" closingCashCFS in
  let R := set_res R "Balance with Banks" n0 in
  let R := set_res R "Total Cash & Bank" closingCashCFS in
  let totalCurrentAssets := nonCashCurrentAssets + closingCashCFS in
  let R := set_res R "Total current asset" totalCurrentAssets in
  let R := set_res R "Total Current Assets" totalCurrentAssets in
  let R := set_res R "Total Operating Current Assets" nonCashCurrentAssets in
  let nonCurrentAssets := nonCurrentAssets_of R in
  let R := set_res R "Total Non-Current Assets" nonCurrentAssets in
  let totalAssets :=
    closingCashCFS + nonCashCurrentAssets + totalFixedAssets + nonCurrentAssets in
  let R := set_res R "Total Asset" totalAssets in
  let R := set_res R "Total Assets" totalAssets in
  let balanceSheetCheck := totalAssets - totalLiabilities in
  let R := set_res R "Balance Sheet Check" balanceSheetCheck in
  let R := set_res R "BALANCE SHEET CHECK (Assets - Liabilities)" balanceSheetCheck in
  let R := set_res R "Cash & Bank Balance (as per Balance Sheet)" closingCashCFS in
  let R := set_res R "CFS Check Diff" balanceSheetCheck in
  let bsCashChange :=
    closingCashCFS - prev_or_zero R "Closing Cash Balance (as per CFS)" in
  let netCashFlowFromCFS := oor (res_get R yId "Net Cash Flow During the Year") n0 in
  let cfsReconciliationDiff := bsCashChange - netCashFlowFromCFS in
  let R := set_res R "_bsCashChange" bsCashChange in
  let R := set_res R "_netCashFlowFromCFS" netCashFlowFromCFS in
  let R := set_res R "_cfsReconciliationDiff" cfsReconciliationDiff in
  (R, mkCash netCashFlow openingCash closingCashCFS totalCurrentAssets
        nonCurrentAssets totalAssets).

(** *** Key ratios *)

(** [den !== 0 ? num / den : 0]. *)
Definition ratio (numer den : num) : num :=
  if nonzero den then numer / den else n0.

(** [den !== 0 ? (num / den) * 100 : 0]. *)
Definition ratio_pct (numer den : num) : num :=
  if nonzero den then (numer / den) * n100 else n0.

(** [results[yId]["Total Asset"] !== 0 ? totalRevenue / results[yId]["Total Asset"] : 0].
    An absent entry is [undefined], which differs from 0 and divides to NaN. *)
Definition assetTurnoverRatio_of (R : results) (totalRevenue : num) : num :=
  match res_get R yId "Total Asset" with
  | Some ta => ratio totalRevenue ta
  | None => NaN
  end.

Definition termLoanPrincipal_of : num :=
  match loanDataByYear yId with
  | Some d => nor (ld_principal d) n0
  | None => n0
  end.

Record Ratios : Type := mkRatios {
  debtEquityRatio : num;
  currentRatio : num;
  quickAssets : num;
  quickRatio : num;
  fixedAssetsCoverageRatio : num;
  interestCoverageRatio : num;
  dscr : num;
  roce : num;
  netProfitMargin : num;
  returnOnNetWorth : num;
  inventoryTurnoverRatio : num;
  fixedAssetTurnoverRatio : num;
  assetTurnoverRatio : num
}.

Definition avgInventory_of (c : Cogs) : num :=
  if (0 <? yearIndex)%nat then (openStockRM c + closeStockRM c) / n2
  else closeStockRM c.

Definition phase_ratios (R : results) (totalRevenue : num) (c : Cogs) (ch : CostChain)
    (i : Interest) (p : Profit) (fa : FixedAssets) (cl : CurrentLiabilities)
    (totalTermLiabilities totalNetWorth : num) (ca : Cash) : results * Ratios :=
  let totalDebt := totalTermLiabilities + totalCurrentLiabilities cl in
  let debtEquityRatio := ratio totalDebt totalNetWorth in
  let currentRatio := ratio (totalCurrentAssets ca) (totalCurrentLiabilities cl) in
  let R := set_res R "Current ratio" currentRatio in
  let inventory :=
    closeStockRM c + getVal allGroups R yId "Stock in process"
    + getVal allGroups R yId "Finished goods" in
  let quickAssets := totalCurrentAssets ca - inventory in
  let quickRatio := ratio quickAssets (totalCurrentLiabilities cl) in
  let R := set_res R "Quick ratio" quickRatio in
  let fixedAssetsCoverageRatio := ratio totalNetWorth (totalFixedAssets fa) in
  let R := set_res R "Fixed Assets Coverage Ratio" fixedAssetsCoverageRatio in
  let interestCoverageRatio := ratio (opProfit p) (totalInterest i) in
  let R := set_res R "Interest coverage ratio" interestCoverageRatio in
  let termLoanPrincipal := termLoanPrincipal_of in
  let dscr :=
    ratio (pat p + depreciation p + termLoanInterest i)
          (termLoanPrincipal + termLoanInterest i) in
  let R := set_res R "Debt Service Coverage Ratio (DSCR)" dscr in
  let capitalEmployed := totalNetWorth + totalTermLiabilities in
  let roce := ratio_pct (opProfit p) capitalEmployed in
  let R := set_res R "Return on Capital Employed (ROCE)" roce in
  let netProfitMargin := ratio_pct (pat p) totalRevenue in
  let R := set_res R "Net profit margin" netProfitMargin in
  let returnOnNetWorth := ratio_pct (pat p) totalNetWorth in
  let R := set_res R "Return on Net worth" returnOnNetWorth in
  let avgInventory := avgInventory_of c in
  let inventoryTurnoverRatio := ratio (cogs ch) avgInventory in
  let R := set_res R "Inventory turnover ratio" inventoryTurnoverRatio in
  let fixedAssetTurnoverRatio := ratio totalRevenue (totalFixedAssets fa) in
  let R := set_res R "Fixed asset turnover ratio" fixedAssetTurnoverRatio in
  let assetTurnoverRatio := assetTurnoverRatio_of R totalRevenue in
  let R := set_res R "Asset turnover ratio" assetTurnoverRatio in
  (R, mkRatios debtEquityRatio currentRatio quickAssets quickRatio
        fixedAssetsCoverageRatio
        interestCoverageRatio dscr roce netProfitMargin returnOnNetWorth
        inventoryTurnoverRatio fixedAssetTurnoverRatio assetTurnoverRatio).

(** *** The body of the loop over the years *)

(** Everything a year computes, next to the store; [t_store_cash] is the
    store at the moment section D (net cash flow) starts. *)
Record YearTrace : Type := mkTrace {
  t_totalRevenue : num;
  t_cogs_input : Cogs;
  t_cogs : Cogs;
  t_chain : CostChain;
  t_interest : Interest;
  t_profit : Profit;
  t_nonCashCurrentAssets : num;
  t_fixed : FixedAssets;
  t_curLiab : CurrentLiabilities;
  t_loanOutstanding : num;
  t_totalTermLiabilities : num;
  t_totalNetWorth : num;
  t_totalLiabilities : num;
  t_deltas : Deltas;
  t_cashFromOperating : num;
  t_cashFromInvesting : num;
  t_cashFromFinancing : num;
  t_store_cash : results;
  t_cash : Cash;
  t_ratios : Ratios
}.

Definition year_body (R : results) : results * YearTrace :=
  let '(R, totalRevenue) := phase_revenue R in
  let '(R, c0) := phase_cogs R in
  let '(R, c) := phase_gpr R totalRevenue c0 in
  let '(R, ch) := phase_chain R totalRevenue c in
  let '(R, wcE, wcP) := phase_wc_interest R in
  let '(R, ebitda) := phase_sga R (grossProfit ch) in
  let '(R, i) := phase_interest R wcE wcP in
  let '(R, p) := phase_profit R ebitda (totalInterest i) in
  let '(R, nonCash) := phase_current_assets R c in
  let '(R, fa) := phase_fixed_assets R (depreciation p) in
  let '(R, cl) := phase_current_liabilities R (total (taxDetails p)) in
  let '(R, loanOutstanding, totalTermLiabilities) := phase_term_liabilities R in
  let '(R, totalNetWorth, shareCapital) := phase_net_worth R (retainedProfit p) in
  let '(R, totalLiabilities) :=
    phase_total_liabilities R (total (taxDetails p)) loanOutstanding
      (wcLiabilityExisting cl) (wcLiabilityProposed cl) totalNetWorth in
  let '(R, ds, cfo) := phase_operating R p i in
  let '(R, cfi) := phase_investing R fa (depreciation p) ds in
  let '(R, cff) :=
    phase_financing R p i cl loanOutstanding totalTermLiabilities shareCapital ds in
  let Rc := R in
  let '(R, ca) := phase_cash R cfo cfi cff nonCash (totalFixedAssets fa) totalLiabilities in
  let '(R, rt) :=
    phase_ratios R totalRevenue c ch i p fa cl totalTermLiabilities totalNetWorth ca in
  (R, mkTrace totalRevenue c0 c ch i p nonCash fa cl loanOutstanding
        totalTermLiabilities totalNetWorth totalLiabilities ds cfo cfi cff Rc ca rt).

End Year.

(** *** The loop *)

(** [results[year.id] = {}] for every year setting. *)
Definition init_results : results :=
  fold_left (fun R y => <[id y := ∅]> R) yearSettings ∅.

Definition sortedYearSettings : list YearSetting := sort_years yearSettings.

(** State of the loop: the store, [prevYearResults] and the index. *)
Record Loop : Type := mkLoop {
  l_results : results;
  l_prev : option year_id;
  l_index : nat
}.

Definition year_step (st : Loop) (y : YearSetting) : Loop :=
  let '(R, _) := year_body (id y) (l_index st) (l_prev st) (l_results st) in
  mkLoop R (Some (id y)) (S (l_index st)).

Definition run_years (ys : list YearSetting) : Loop :=
  fold_left year_step ys (mkLoop init_results None 0).

Definition calculateAll : results := l_results (run_years sortedYearSettings).

(** The state in which the year of index [n] starts, and what it computes. *)
Definition state_before (n : nat) : Loop := run_years (firstn n sortedYearSettings).

Definition trace_of_year (n : nat) : option YearTrace :=
  match nth_error sortedYearSettings n with
  | Some y =>
      let st := state_before n in
      Some (snd (year_body (id y) (l_index st) (l_prev st) (l_results st)))
  | None => None
  end.

End CalculateAll.

End Engine.

(** ** The resolver as the specification words it *)

Module SpecWords.

(** All rows, in the order of the groups and, inside a group, of its rows. *)
Definition all_rows (gs : list Group) : list Row := flat_map rows gs.

(** A row matches a key when their normal forms are equal, or when the key
    is "capital" and the row is "ordinary share capital" or "share capital". *)
Definition key_matches (normalize : string -> string) (key : string) (row : Row) : bool :=
  let k := normalize key in
  let n := normalize (r_name row) in
  String.eqb n k ||
  (String.eqb k "capital" &&
   (String.eqb n "ordinary share capital" || String.eqb n "share capital")).

(** Lookup-by-key: the entry of the result map when there is one, else the
    value of the first matching row, else 0. *)
Definition lookup_by_key (normalize : string -> string) (gs : list Group)
    (R : results) (yearId : year_id) (key : string) : num :=
  match res_get R yearId key with
  | Some v => v
  | None =>
      match List.find (key_matches normalize key) (all_rows gs) with
      | Some row => row_value row yearId
      | None => of_Z 0
      end
  end.

(** "Lowercase, trimmed". *)
Definition lower_trimmed (s : string) : string := trim (toLowerCase s).

(** The same JavaScript number ([===], extended to relate NaN to itself). *)
Definition num_same (a b : num) : Prop :=
  match a, b with
  | NaN, NaN => True
  | _, _ => num_eq a b
  end.

(** Sum-group, as it is worded: the group is located by its name
    containing the fragment, letter case apart, or by its system tag
    containing the fragment with every run of white space made an
    underscore. *)
Definition group_located (fragment : string) (g : Group) : bool :=
  includes (toLowerCase (g_name g)) (toLowerCase fragment) ||
  match g_system_tag g with
  | Some tag => includes (toLowerCase tag) (spaces_to_underscore (toLowerCase fragment))
  | None => false
  end.

(** A row is left out by name when its name, lower-cased and stripped of
    everything but letters and digits, contains an exclusion fragment
    stripped in the same way, contains "depreciation" or "interest", or
    starts with "depr". *)
Definition left_out_by_name (excludeNames : list string) (row : Row) : bool :=
  let n := cleanName (r_name row) in
  existsb (fun fragment => includes n (cleanName fragment)) excludeNames ||
  includes n "depreciation" || startsWith n "depr" || includes n "interest".

(** The rows that are summed: not hidden, not left out by name, not
    calculated, not total rows, and not named with a leading "=". *)
Definition summed_row (excludeNames : list string) (row : Row) : bool :=
  negb (is_hidden row) && negb (left_out_by_name excludeNames row) &&
  negb (is_calculated row) && negb (is_total_row row) &&
  negb (startsWith (r_name row) "=").

(** What a row adds to a sum: its cell of the year, 0 when the cell does
    not hold a number. *)
Definition cell_or_zero (yearId : year_id) (row : Row) : num :=
  match row_value row yearId with
  | NaN => of_Z 0
  | v => v
  end.

(** The cells of the summed rows of a group, added one after the other to
    0 in the order of the rows. *)
Definition sum_of_rows (yearId : year_id) (excludeNames : list string)
    (rs : list Row) : num :=
  fold_left nadd (List.map (cell_or_zero yearId) (List.filter (summed_row excludeNames) rs))
    (of_Z 0).

Definition sum_group (gs : list Group) (yearId : year_id) (fragment : string)
    (excludeNames : list string) : num :=
  match List.find (group_located fragment) gs with
  | Some g => sum_of_rows yearId excludeNames (rows g)
  | None => of_Z 0
  end.




End SpecWords.

(** ** Keys and invariants used by the statements *)

Module Footprint.

Import Engine.

Definition forced_key : string := "_forced_opening_stock_rm".
Definition carry_key : string := "_net_block_carry".
Definition closing_key : string := "Closing Stock (Raw Materials)".

(** No row of the input bears the name [k]. *)
Definition no_row_named (k : string) (gs : list Group) : Prop :=
  Forall (fun g => Forall (fun r => r_name r <> k) (rows g)) gs.

(** The entry [(y, k)] is the same in [R'] as in [R]. *)
Definition kept_at (y : year_id) (k : string) (R R' : results) : Prop :=
  res_get R' y k = res_get R y k.

(** An opening raw-material stock row that the loop over the cost rows
    takes into account. *)
Definition opening_rm_row (row : Row) : bool :=
  is_input_row row && is_opening_rm (toLowerCase (r_name row)).

(** The grid value, in year [yId], of the last opening raw-material stock
    row that is taken into account (0 when there is none). *)
Definition last_opening_input (yId : year_id) (rs : list Row) : num :=
  List.last (List.map (fun row => row_value row yId) (List.filter opening_rm_row rs)) n0.

(** What the loop over the cost rows maintains in year [yId]: no forced
    opening stock, and the closing stock [c] of the previous year. *)
Definition carry_inv (yId : year_id) (prev : option year_id) (c : num)
    (R : results) : Prop :=
  res_get R yId forced_key = None /\ prev_get R prev closing_key = Some c.

(** The three entries of a year's map that hold its closing cash. *)
Definition cash_entries (R : results) (y : year_id) (c : num) : Prop :=
  res_get R y "Closing Cash Balance (as per CFS)" = Some c /\
  res_get R y "Cash & Bank Balance" = Some c /\
  res_get R y "Total Cash & Bank" = Some c.

(** All the accumulators of the cost loop are finite. *)
Definition cogs_finite (c : Cogs) : bool :=
  is_finite (openStockRM c) && is_finite (closeStockRM c) &&
  is_finite (purchasesRM c) && is_finite (otherRMCosts c) &&
  is_finite (manufacturingExpenses c) && is_finite (openWIP c) &&
  is_finite (closeWIP c) && is_finite (openFG c) && is_finite (closeFG c).

(** The accumulators with the closing raw-material stock replaced. *)
Definition with_close (c : Cogs) (close : num) : Cogs :=
  mkCogs (openStockRM c) close (purchasesRM c) (otherRMCosts c)
    (manufacturingExpenses c) (openWIP c) (closeWIP c) (openFG c) (closeFG c).

(** A ratio as the year computes it: the label it is written under, its
    numerator, its denominator and its value. *)
Record RatioRow : Type := mkRatioRow {
  rr_key : string;
  rr_numer : num;
  rr_den : num;
  rr_value : num
}.

(** The ratio is 0 when its denominator is 0, and finite when numerator
    and denominator are. *)
Definition guarded (r : RatioRow) : Prop :=
  (neqb (rr_den r) zero = true -> rr_value r = n0) /\
  (is_finite (rr_numer r) = true -> is_finite (rr_den r) = true ->
   is_finite (rr_value r) = true).

(** The ratios of the last section of the year, with their labels. *)
Definition written_ratios (loanSummaries : list LoanSummary) (yId : year_id)
    (yearIndex : nat) (tr : YearTrace) : list RatioRow :=
  let ca := t_cash tr in
  let cl := t_curLiab tr in
  let fa := t_fixed tr in
  let it := t_interest tr in
  let pf := t_profit tr in
  let rt := t_ratios tr in
  [ mkRatioRow "Current ratio"
      (totalCurrentAssets ca) (totalCurrentLiabilities cl) (currentRatio rt);
    mkRatioRow "Quick ratio"
      (quickAssets rt) (totalCurrentLiabilities cl) (quickRatio rt);
    mkRatioRow "Fixed Assets Coverage Ratio"
      (t_totalNetWorth tr) (totalFixedAssets fa) (fixedAssetsCoverageRatio rt);
    mkRatioRow "Interest coverage ratio"
      (opProfit pf) (totalInterest it) (interestCoverageRatio rt);
    mkRatioRow "Debt Service Coverage Ratio (DSCR)"
      (pat pf + depreciation pf + termLoanInterest it)%num
      (termLoanPrincipal_of loanSummaries yId + termLoanInterest it)%num (dscr rt);
    mkRatioRow "Return on Capital Employed (ROCE)"
      (opProfit pf) (t_totalNetWorth tr + t_totalTermLiabilities tr)%num (roce rt);
    mkRatioRow "Net profit margin" (pat pf) (t_totalRevenue tr) (netProfitMargin rt);
    mkRatioRow "Return on Net worth" (pat pf) (t_totalNetWorth tr) (returnOnNetWorth rt);
    mkRatioRow "Inventory turnover ratio"
      (cogs (t_chain tr)) (avgInventory_of yearIndex (t_cogs tr))
      (inventoryTurnoverRatio rt);
    mkRatioRow "Fixed asset turnover ratio"
      (t_totalRevenue tr) (totalFixedAssets fa) (fixedAssetTurnoverRatio rt);
    mkRatioRow "Asset turnover ratio"
      (t_totalRevenue tr) (totalAssets ca) (assetTurnoverRatio rt) ].

(** The debt-equity ratio, which the year computes without writing it. *)
Definition debt_equity_row (tr : YearTrace) : RatioRow :=
  mkRatioRow "Debt Equity Ratio"
    (t_totalTermLiabilities tr + totalCurrentLiabilities (t_curLiab tr))%num
    (t_totalNetWorth tr) (debtEquityRatio (t_ratios tr)).

(** The gross profit ratio, written with the cost chain. *)
Definition gross_profit_ratio_row (totalRevenue grossProfit : num) : RatioRow :=
  mkRatioRow "Gross Profit Ratio" grossProfit totalRevenue
    (grossProfitRatio totalRevenue grossProfit).

End Footprint.

(** ** Concrete inputs used by the examples *)

Module Examples.

Import Engine.

Local Open Scope Z_scope.

Definition dp (y : year_id) (v : Z) : DataPoint := mkDataPoint y (of_Z v).

Definition input_row (n : string) (d : list DataPoint) : Row :=
  mkRow n false false false None d.

(** A row whose name carries a trailing space. *)
Definition padded_groups : list Group :=
  [mkGroup "Operating Expenses" "operating" None None None
     [input_row "Depreciation " [dp 1 5]]].

(** Two groups that both match the fragment "Selling". *)
Definition selling_first : Group :=
  mkGroup "Selling Expenses" "operating" None None None
    [input_row "Rent" [dp 1 10]; input_row "Salaries" [dp 1 20]].

Definition selling_second : Group :=
  mkGroup "Other" "operating" (Some "selling_general_admin") None None
    [input_row "Travel" [dp 1 400]].

Definition unrelated_group : Group :=
  mkGroup "Revenue" "operating" None None None [input_row "Sales" [dp 1 1000]].

(** A two-year report: the first year closes with no raw-material stock,
    the grid of the second year carries an opening stock of 77. *)
Definition two_years : list YearSetting :=
  [mkYear 1 "2024-2025"; mkYear 2 "2025-2026"].

Definition stock_cogs : Group :=
  mkGroup "Cost of Goods Sold" "operating" None None None
    [input_row "Opening Stock (Raw Materials)" [dp 1 50; dp 2 77];
     input_row "Purchases of Raw Materials" [dp 1 400; dp 2 500];
     input_row "Closing Stock (Raw Materials)" [dp 1 0; dp 2 80]].

Definition stock_groups : list Group :=
  [mkGroup "Revenue" "operating" None None None
     [input_row "Sales" [dp 1 1000; dp 2 1200]];
   stock_cogs].

Definition no_wc : WcSettings := mkWc "new" n0 (of_Z 10) n0 (of_Z 10).

(** The report above, run from scratch. *)
Definition stock_run : results :=
  calculateAll stock_groups two_years "domestic_22" [] None no_wc [] [].

Definition stock_trace (n : nat) : option YearTrace :=
  trace_of_year stock_groups two_years "domestic_22" [] None no_wc [] [] n.

(** The store in which the second year of the report starts. *)
Definition stock_after_first : results :=
  l_results (state_before stock_groups two_years "domestic_22" [] None no_wc [] [] 1).

(** The second year of the report, started from a store [R]. *)
Definition stock_second_year (assets : list Asset) (R : results) : results * YearTrace :=
  year_body stock_groups two_years "domestic_22" [] None no_wc assets [] 2 1 (Some 1) R.

(** A previous year that closed with a raw-material stock of 60. *)
Definition closed_with_60 : results :=
  res_set ∅ 1 "Closing Stock (Raw Materials)" (of_Z 60).


Definition one_machine : list Asset := [mkAsset false None (Some 2) None (of_Z 100)].

(** A one-year report whose only revenue cell does not hold a number. *)
Definition one_year : list YearSetting := [mkYear 1 "2024-2025"].

Definition nan_groups : list Group :=
  [mkGroup "Revenue" "operating" None None None
     [mkRow "Sales" false false false None [mkDataPoint 1 NaN]]].

Definition nan_run : results :=
  calculateAll nan_groups one_year "domestic_22" [] None no_wc [] [].

(** A two-year report with two cells of the first year that do not hold
    a number: the sales and the gross block. *)
Definition nan_cells_groups : list Group :=
  [mkGroup "Revenue" "operating" None None None
     [mkRow "Sales" false false false None [mkDataPoint 1 NaN; dp 2 1200]];
   mkGroup "Fixed Assets" "asset" None None None
     [mkRow "Gross block" false false false None [mkDataPoint 1 NaN; dp 2 300]]].

Definition nan_cells_run : results :=
  calculateAll nan_cells_groups two_years "domestic_22" [] None no_wc [] [].

Definition nan_cells_trace (n : nat) : option YearTrace :=
  trace_of_year nan_cells_groups two_years "domestic_22" [] None no_wc [] [] n.

(** Four years handed over out of order, with the target-margin mode on:
    five points more each year. *)
Definition shuffled_years : list YearSetting :=
  [mkYear 2 "2025-2026"; mkYear 1 "2024-2025"; mkYear 4 "2027-2028"; mkYear 3 "2026-2027"].

Definition ordered_years : list YearSetting :=
  [mkYear 1 "2024-2025"; mkYear 2 "2025-2026"; mkYear 3 "2026-2027"; mkYear 4 "2027-2028"].

Definition margin_groups : list Group :=
  [mkGroup "Revenue" "operating" None None None
     [input_row "Sales" [dp 1 1000; dp 2 1000; dp 3 1000; dp 4 1000]];
   mkGroup "Cost of Goods Sold" "operating" None None None
     [input_row "Opening Stock (Raw Materials)" [dp 1 100];
      input_row "Purchases of Raw Materials" [dp 1 600; dp 2 600; dp 3 600; dp 4 600];
      input_row "Closing Stock (Raw Materials)" [dp 1 100]]].

Definition margin_on : option GprSettings := Some (mkGpr true (of_Z 5) (of_Z 5)).

Definition margin_run (years : list YearSetting) : results :=
  calculateAll margin_groups years "domestic_22" [] margin_on no_wc [] [].

End Examples.

(** ** More concrete inputs *)

Module MoreExamples.

Import Engine Examples.

Local Open Scope Z_scope.

(** The two years of the two-year report. *)
Definition first_year : YearSetting := mkYear 1 "2024-2025".
Definition second_year : YearSetting := mkYear 2 "2025-2026".

(** The two-year report with a machine bought in the second year. *)
Definition machine_results : results :=
  calculateAll stock_groups two_years "domestic_22" [] None no_wc one_machine [].

(** The second and third of the four years in order. *)
Definition margin_second : YearSetting := mkYear 2 "2025-2026".
Definition margin_third : YearSetting := mkYear 3 "2026-2027".

Definition margin_cogs : Group :=
  mkGroup "Cost of Goods Sold" "operating" None None None
    [input_row "Opening Stock (Raw Materials)" [dp 1 100];
     input_row "Purchases of Raw Materials" [dp 1 600; dp 2 600; dp 3 600; dp 4 600];
     input_row "Closing Stock (Raw Materials)" [dp 1 100]].

(** A two-year report with a balance sheet: debtors, creditors and share
    capital next to the operating statement. *)
Definition full_groups : list Group :=
  [mkGroup "Revenue" "operating" None None None
     [input_row "Sales" [dp 1 1000; dp 2 1200]];
   mkGroup "Cost of Goods Sold" "operating" None None None
     [input_row "Opening Stock (Raw Materials)" [dp 1 50; dp 2 77];
      input_row "Purchases of Raw Materials" [dp 1 400; dp 2 500];
      input_row "Closing Stock (Raw Materials)" [dp 1 60; dp 2 80]];
   mkGroup "Selling, General and Administrative Expenses" "operating" None None None
     [input_row "Rent" [dp 1 100; dp 2 110];
      input_row "Depreciation" [dp 1 20; dp 2 20]];
   mkGroup "Current assets" "asset" (Some "current_assets") (Some "operating") None
     [input_row "Sundry Debtors" [dp 1 200; dp 2 260];
      input_row "Cash in Hand" [dp 1 10]];
   mkGroup "Current liabilities" "liability" (Some "current_liabilities")
     (Some "operating") None
     [input_row "Sundry Creditors" [dp 1 150; dp 2 190]];
   mkGroup "Net Worth" "liability" (Some "net_worth") (Some "financing") None
     [input_row "Ordinary share capital" [dp 1 500; dp 2 500]]].

(** The store in which the second year of that report starts, and its
    second year. *)
Definition full_after_first : results :=
  l_results (state_before full_groups two_years "domestic_22" [] None no_wc [] [] 1).

Definition full_second_year : results * YearTrace :=
  year_body full_groups two_years "domestic_22" [] None no_wc [] [] 2 1 (Some 1)
    full_after_first.

End MoreExamples.

(** ** The order of the years *)

Module YearOrder.

Import Engine.

(** The years whose label bears the number [n], in the order of the list. *)
Definition with_number (n : Z) (l : list YearSetting) : list YearSetting :=
  List.filter (fun y => (getYearNum (year y) =? n)%Z) l.

End YearOrder.

(** ** Loan schedules

    Shallow embedding of [services/loanCalculations.js]: [calculateEMI]
    and [generateLoanSchedule]. The tenure and the moratorium are whole
    numbers of months. The start date is given by its year and its month
    (0 for January), as [new Date(startDate)] followed by [setDate(1)]
    leaves them; the short name of a month, which depends on the locale, is
    a parameter. Arithmetic is exact, as for the engine: [round2] rounds
    the exact value, not the double that the code holds. *)

Module Loans.

Local Open Scope num_scope.

(** [Math.pow(b, n)] for a whole number [n]. *)
Fixpoint pow_nat (b : num) (n : nat) : num :=
  match n with
  | O => of_Z 1
  | S m => pow_nat b m * b
  end.

Definition of_nat (n : nat) : num := of_Z (Z.of_nat n).

(** [parseFloat(x.toFixed(2))]: the multiple of 0.01 nearest to [x], the
    one away from zero when two are as near; a number of 10^21 or more in
    absolute value, an infinity or NaN is left as it is. *)
Definition round2 (x : num) : num :=
  match x with
  | Fin q =>
      if Qle_bool (inject_Z (10 ^ 21)) (Qabs q) then Fin q
      else
        let n := Qfloor (Qabs q * inject_Z 100 + (1 # 2)) in
        if Qle_bool 0 q then Fin (inject_Z n / inject_Z 100)
        else Fin (- (inject_Z n / inject_Z 100))
  | _ => x
  end.

Definition calculateEMI (principal annualRate : num) (tenureMonths : nat) : num :=
  if (tenureMonths =? 0)%nat || neqb principal zero then of_Z 0
  else
    let monthlyRate := (annualRate / of_Z 100) / of_Z 12 in
    if neqb monthlyRate zero then principal / of_nat tenureMonths
    else
      principal * monthlyRate * pow_nat (of_Z 1 + monthlyRate) tenureMonths
      / (pow_nat (of_Z 1 + monthlyRate) tenureMonths - of_Z 1).

Record LoanConfig : Type := mkLoanConfig {
  loanAmount : num;
  interestRate : num;
  tenureMonths : nat;
  moratoriumMonths : nat;
  repaymentMethod : string;
  startDate : Z * nat
}.

Record ScheduleRow : Type := mkScheduleRow {
  period : string;
  date : Z * nat;
  periodIndex : nat;
  opening : num;
  interest : num;
  principal : num;
  payment : num;
  closing : num
}.

(** [currentDate.setMonth(currentDate.getMonth() + 1)] on the first day of
    a month. *)
Definition next_month (d : Z * nat) : Z * nat :=
  if (snd d =? 11)%nat then ((fst d + 1)%Z, 0%nat) else (fst d, S (snd d)).

Section Schedule.

(** [date.toLocaleString('default', { month: 'short' })] for the month of
    index [m]. *)
Variable monthName : nat -> string.

(** The label "Mon YYYY" of a month. *)
Definition periodLabel (d : Z * nat) : string :=
  monthName (snd d) +:+ " " +:+ pretty (fst d).

(** The state of the loops: the opening balance, the date pointer and the
    rows pushed so far. *)
Definition push_row (d : Z * nat) (p : nat)
    (openingBalance interest principal payment closingBalance : num)
    (schedule : list ScheduleRow) : list ScheduleRow :=
  schedule ++ [mkScheduleRow (periodLabel d) d p (round2 openingBalance)
                 (round2 interest) (round2 principal) (round2 payment)
                 (round2 closingBalance)].

(** One pass of the loop of the EMI method. *)
Definition emi_period (monthlyRate emi : num) (moratorium : nat)
    (st : num * (Z * nat) * list ScheduleRow) (p : nat)
  : num * (Z * nat) * list ScheduleRow :=
  let '(openingBalance, currentDate, schedule) := st in
  let interest := openingBalance * monthlyRate in
  let '(principal, payment) :=
    if (moratorium <? p)%nat then (emi - interest, emi) else (of_Z 0, interest) in
  let closingBalance := openingBalance - principal in
  (closingBalance, next_month currentDate,
   push_row currentDate p openingBalance interest principal payment closingBalance
     schedule).

(** One pass of the loop of the bullet method. *)
Definition bullet_period (monthlyRate : num) (tenure : nat)
    (st : num * (Z * nat) * list ScheduleRow) (p : nat)
  : num * (Z * nat) * list ScheduleRow :=
  let '(openingBalance, currentDate, schedule) := st in
  let interest := openingBalance * monthlyRate in
  let isPrincipalMonth := (p =? tenure)%nat in
  let principal := if isPrincipalMonth then openingBalance else of_Z 0 in
  let payment := interest + principal in
  let closingBalance := openingBalance - principal in
  (closingBalance, next_month currentDate,
   push_row currentDate p openingBalance interest principal payment closingBalance
     schedule).

Definition generateLoanSchedule (config : LoanConfig) : list ScheduleRow :=
  let monthlyRate := (interestRate config / of_Z 100) / of_Z 12 in
  if String.eqb (repaymentMethod config) "EMI" then
    let repaymentMonths := (tenureMonths config - moratoriumMonths config)%nat in
    let emi :=
      if (0 <? repaymentMonths)%nat
      then calculateEMI (loanAmount config) (interestRate config) repaymentMonths
      else of_Z 0 in
    snd (fold_left (emi_period monthlyRate emi (moratoriumMonths config))
           (seq 1 (tenureMonths config)) (loanAmount config, startDate config, []))
  else if String.eqb (repaymentMethod config) "BULLET" then
    snd (fold_left (bullet_period monthlyRate (tenureMonths config))
           (seq 1 (tenureMonths config)) (loanAmount config, startDate config, []))
  else [].

End Schedule.

(** The short month names of an English locale. *)
Definition english_month (m : nat) : string :=
  nth m ["Jan"; "Feb"; "Mar"; "Apr"; "May"; "Jun"; "Jul"; "Aug"; "Sep"; "Oct";
         "Nov"; "Dec"] "".

(** A loan of 1200 at 12% over four months from November 2024, the first
    month being a moratorium; and a bullet loan over three months. *)
Definition sample_loan : LoanConfig :=
  mkLoanConfig (of_Z 1200) (of_Z 12) 4 1 "EMI" (2024%Z, 10%nat).


(** The monthly rate, as a rational, of an annual rate in percent. *)
Definition monthly (R : Q) : Q := (R / inject_Z 100 / inject_Z 12)%Q.

End Loans.

(** * Properties *)

(** ** Numbers *)

Lemma Qle_bool_false (a b : Q) : Qle_bool a b = false -> b < a.
Proof.
  intros H. apply Qnot_le_lt. intros Hle. apply Qle_bool_iff in Hle. congruence.
Qed.

(** Case analysis on every rational comparison of the goal; the branches
    that contradict the bounds already known are closed on the way. *)
Ltac qbool :=
  repeat match goal with
  | |- context [Qle_bool ?a ?b] =>
      let E := fresh "E" in
      destruct (Qle_bool a b) eqn:E;
      [apply Qle_bool_iff in E | apply Qle_bool_false in E];
      try (exfalso; unfold inject_Z in *; lra); cbn [negb]
  end.

Lemma nle_add_zero (a b : num) :
  nle a b = true -> nle (a + of_Z 0 + of_Z 0)%num (b + of_Z 0 + of_Z 0)%num = true.
Proof.
  destruct a as [x| | |], b as [y| | |]; cbn; try congruence.
  intros H. apply Qle_bool_iff in H. apply Qle_bool_iff. unfold inject_Z. lra.
Qed.

(** ** Tax calculator *)

Module TaxProps.

Import Tax.

Ltac unfold_progressive :=
  unfold calculateTax, slab, top_slab, ngt, nlt, nle, nmin, nle, Qltb, of_Z, dec;
  cbn [String.eqb proprietorship domestic_22 llp Ascii.eqb Bool.eqb andb].

Lemma progressive_fin (p : Q) :
  exists t, tax (calculateTax (Fin p) proprietorship) = Fin t /\ 0 <= t.
Proof.
  unfold_progressive.
  qbool; cbn -[Qplus Qmult Qopp]; eexists; (split; [reflexivity|]);
    unfold inject_Z in *; try lra.
Qed.

Lemma progressive_mono_fin (p1 p2 : Q) :
  p1 <= p2 ->
  nle (tax (calculateTax (Fin p1) proprietorship))
      (tax (calculateTax (Fin p2) proprietorship)) = true.
Proof.
  intros Hle. unfold_progressive.
  qbool; cbn -[Qplus Qmult Qopp Qle_bool]; apply Qle_bool_iff;
    unfold inject_Z in *; lra.
Qed.

Lemma progressive_mono (p1 p2 : num) :
  nle p1 p2 = true ->
  nle (tax (calculateTax p1 proprietorship))
      (tax (calculateTax p2 proprietorship)) = true.
Proof.
  destruct p1 as [x| | |], p2 as [y| | |]; cbn [nle]; try congruence; intros H.
  - apply progressive_mono_fin. now apply Qle_bool_iff.
  - destruct (progressive_fin x) as (t & -> & _). reflexivity.
  - reflexivity.
  - destruct (progressive_fin y) as (t & -> & Ht).
    change (tax (calculateTax NInf proprietorship)) with (Fin 0).
    cbn. now apply Qle_bool_iff.
  - reflexivity.
  - reflexivity.
Qed.

Lemma progressive_total (p : num) :
  total (calculateTax p proprietorship)
  = (tax (calculateTax p proprietorship) + of_Z 0 + of_Z 0)%num.
Proof. unfold calculateTax. destruct (nle p 0%Z); reflexivity. Qed.

(** C5. In the progressive regime the tax (and with it the total) is
    non-decreasing in the profit, is 0 for every profit up to 700000, and
    surcharge and cess are 0 for every profit. *)
Theorem progressive_tax_monotone_rebate (p1 p2 : num) :
  (nle p1 p2 = true ->
     nle (tax (calculateTax p1 proprietorship))
         (tax (calculateTax p2 proprietorship)) = true /\
     nle (total (calculateTax p1 proprietorship))
         (total (calculateTax p2 proprietorship)) = true) /\
  (nle p1 700000%Z = true -> tax (calculateTax p1 proprietorship) = of_Z 0) /\
  surcharge (calculateTax p1 proprietorship) = of_Z 0 /\
  cess (calculateTax p1 proprietorship) = of_Z 0.
Proof.
  repeat split.
  - now apply progressive_mono.
  - rewrite !progressive_total. now apply nle_add_zero, progressive_mono.
  - intros H. unfold calculateTax.
    destruct (nle p1 0%Z); [reflexivity|].
    cbn [String.eqb proprietorship domestic_22 llp Ascii.eqb Bool.eqb andb].
    now rewrite H.
  - unfold calculateTax. destruct (nle p1 0%Z); reflexivity.
  - unfold calculateTax. destruct (nle p1 0%Z); reflexivity.
Qed.

Lemma progressive_tax_monotone_rebate_witness :
  nle (tax (calculateTax 500000%Z proprietorship))
      (tax (calculateTax 800000%Z proprietorship)) = true /\
  tax (calculateTax 500000%Z proprietorship) = of_Z 0.
Proof.
  destruct (progressive_tax_monotone_rebate 500000%Z 800000%Z) as (H1 & H2 & _).
  split; [apply H1; reflexivity | apply H2; reflexivity].
Defined.

(** C6. Whatever the regime, a profit that is zero or negative gives
    tax, surcharge, cess and total all equal to 0. *)
Theorem no_tax_without_profit (pbt : num) (regime : string) :
  nle pbt 0%Z = true -> calculateTax pbt regime = mkTax 0%Z 0%Z 0%Z 0%Z.
Proof. intros H. unfold calculateTax. now rewrite H. Qed.

Lemma no_tax_without_profit_witness :
  calculateTax (-5)%Z llp = mkTax 0%Z 0%Z 0%Z 0%Z.
Proof. apply (no_tax_without_profit (-5)%Z llp). reflexivity. Defined.

(** A regime other than the three that [calculateTax] tests for is charged
    nothing, whatever the profit: there is no branch for it and no
    fall-back. *)
Lemma unknown_regime_no_tax (pbt : num) (regime : string) :
  regime <> domestic_22 -> regime <> llp -> regime <> proprietorship ->
  calculateTax pbt regime = tax_zero.
Proof.
  intros H1 H2 H3. unfold calculateTax.
  destruct (nle pbt 0%Z); [reflexivity|].
  apply String.eqb_neq in H1, H2, H3. now rewrite H1, H2, H3.
Qed.

(** C7. The code does not fall back to the default regime. The regime
    "old_regime", which the set-up page of a project offers as "Domestic
    Company (Old Regime) - 25%", is charged nothing on a profit of 100,
    where the default regime "domestic_22" charges 22 of tax and 25.168 in
    all. *)
Theorem old_regime_is_not_taxed :
  calculateTax 100%Z "old_regime" = tax_zero /\
  num_eq (tax (calculateTax 100%Z domestic_22)) (of_Z 22) /\
  num_eq (total (calculateTax 100%Z domestic_22)) (dec 25168 1000) /\
  ~ tax_result_eq (calculateTax 100%Z "old_regime") (calculateTax 100%Z domestic_22).
Proof.
  split; [apply unknown_regime_no_tax; discriminate|].
  split; [vm_compute; reflexivity|].
  split; [vm_compute; reflexivity|].
  intros (H & _). vm_compute in H. discriminate H.
Qed.

End TaxProps.

(** ** Classification resolver *)

Module ResolverProps.

Import Resolver SpecWords Examples.

Lemma getVal_rows_find (yearId : year_id) (key : string) (rs : list Row) :
  getVal_rows yearId (toLowerCase key) rs
  = option_map (fun row => row_value row yearId)
      (List.find (key_matches toLowerCase key) rs).
Proof.
  induction rs as [|row rest IH]; [reflexivity|].
  cbn [getVal_rows List.find]. unfold key_matches at 1.
  destruct (String.eqb (toLowerCase (r_name row)) (toLowerCase key)); [reflexivity|].
  cbn [orb].
  destruct (String.eqb (toLowerCase key) "capital" &&
            (String.eqb (toLowerCase (r_name row)) "ordinary share capital" ||
             String.eqb (toLowerCase (r_name row)) "share capital")); [reflexivity|].
  exact IH.
Qed.

Lemma find_app_first {A} (f : A -> bool) (l1 l2 : list A) :
  List.find f (l1 ++ l2)
  = match List.find f l1 with Some x => Some x | None => List.find f l2 end.
Proof.
  induction l1 as [|a l1 IH]; [reflexivity|].
  cbn. destruct (f a); [reflexivity|exact IH].
Qed.

Lemma getVal_groups_find (yearId : year_id) (key : string) (gs : list Group) :
  getVal_groups yearId (toLowerCase key) gs
  = option_map (fun row => row_value row yearId)
      (List.find (key_matches toLowerCase key) (all_rows gs)).
Proof.
  induction gs as [|g rest IH]; [reflexivity|].
  cbn [getVal_groups all_rows flat_map]. rewrite find_app_first, getVal_rows_find.
  destruct (List.find (key_matches toLowerCase key) (rows g)); [reflexivity|].
  exact IH.
Qed.

(** C9, as stated, fails: names are lower-cased but not trimmed, so the key
    "Depreciation" misses a row named "Depreciation " (trailing space),
    which a trimmed comparison would find. *)
Lemma lookup_does_not_trim :
  getVal padded_groups ∅ 1%Z "Depreciation"
  <> lookup_by_key lower_trimmed padded_groups ∅ 1%Z "Depreciation".
Proof. vm_compute. discriminate. Qed.

(** C9, amended. Lookup-by-key returns the entry of the year's result map
    when the key was written there; otherwise it lower-cases (without
    trimming) the key and every row name and returns the value of the
    first matching row, "capital" also matching "ordinary share capital"
    and "share capital"; it returns 0 when nothing matches. *)
Theorem lookup_by_key_lowercase (gs : list Group) (R : results)
    (yearId : year_id) (key : string) :
  getVal gs R yearId key = lookup_by_key toLowerCase gs R yearId key.
Proof.
  unfold getVal, lookup_by_key. destruct (res_get R yearId key); [reflexivity|].
  rewrite getVal_groups_find.
  now destruct (List.find (key_matches toLowerCase key) (all_rows gs)).
Qed.

Lemma find_skip {A} (f : A -> bool) (pre : list A) (x : A) (post : list A) :
  forallb (fun a => negb (f a)) pre = true -> f x = true ->
  List.find f (pre ++ x :: post) = Some x.
Proof.
  intros Hpre Hx. induction pre as [|a pre IH]; cbn.
  - now rewrite Hx.
  - cbn in Hpre. apply andb_true_iff in Hpre as [Ha Hpre].
    apply negb_true_iff in Ha. rewrite Ha. now apply IH.
Qed.

Lemma includes_empty (s : string) : includes s "" = true.
Proof. destruct s; reflexivity. Qed.

Lemma toLowerCase_empty (s : string) : toLowerCase s = "" -> s = "".
Proof. destruct s; [reflexivity | discriminate]. Qed.

Lemma spaces_to_underscore_empty (s : string) : spaces_to_underscore s = "" -> s = "".
Proof.
  destruct s as [|c s1]; [reflexivity|].
  unfold spaces_to_underscore. cbn [spaces_to_underscore_aux].
  destruct (space_width (String c s1)) as [|[|[|[|n]]]];
    destruct s1 as [|c1 [|c2 s3]]; discriminate.
Qed.

(** The group that [allGroups.find] locates is the one the wording
    describes: an empty system tag contains a fragment only when the
    fragment is empty, and then every name contains it. *)
Lemma group_matches_located (fragment : string) (g : Group) :
  group_matches fragment g = group_located fragment g.
Proof.
  unfold group_matches, group_located.
  destruct (g_system_tag g) as [[|c tag]|]; cbn [str_truthy andb option_map opt_includes];
    try reflexivity.
  destruct (spaces_to_underscore (toLowerCase fragment)) as [|c u] eqn:E.
  - apply spaces_to_underscore_empty, toLowerCase_empty in E. subst fragment.
    cbn [toLowerCase]. now rewrite includes_empty.
  - reflexivity.
Qed.

Lemma find_ext {A} (f h : A -> bool) (l : list A) :
  (forall a, f a = h a) -> List.find f l = List.find h l.
Proof.
  intros E. induction l as [|a l IH]; [reflexivity|]. cbn. now rewrite E, IH.
Qed.

(** The loop over the rows adds, to what it starts from, the cells of the
    summed rows in the order of the rows. *)
Lemma sumGroup_rows_worded (yearId : year_id) (excludeNames : list string)
    (rs : list Row) (start : num) :
  fold_left (sumGroup_row yearId excludeNames) rs start
  = fold_left nadd
      (List.map (cell_or_zero yearId) (List.filter (summed_row excludeNames) rs)) start.
Proof.
  revert start. induction rs as [|row rs IH]; intros start; [reflexivity|].
  cbn [fold_left List.filter]. rewrite IH.
  unfold sumGroup_row at 1. unfold summed_row at 2.
  change (left_out_by_name excludeNames row) with (isExcluded excludeNames row).
  destruct (is_hidden row); [reflexivity|].
  destruct (isExcluded excludeNames row); [reflexivity|].
  destruct (is_calculated row); [reflexivity|].
  destruct (is_total_row row); [reflexivity|].
  destruct (startsWith (r_name row) "="); [reflexivity|].
  cbn [negb andb List.map fold_left]. unfold cell_or_zero.
  destruct (row_value row yearId); reflexivity.
Qed.

(** C10. Sum-group locates the first group, in the order of the input,
    whose name contains the fragment (letter case apart) or whose system
    tag contains the fragment with underscores for white space, and returns
    the cells of its summed rows added to 0 in the order of the rows (0
    when no group is located). A group after the first located one,
    located or not, adds nothing. *)
Theorem sumGroup_first_match_only (pre : list Group) (g : Group) (post : list Group)
    (yearId : year_id) (groupNamePart : string) (excludeNames : list string) :
  (forall gs, sumGroup gs yearId groupNamePart excludeNames
              = sum_group gs yearId groupNamePart excludeNames) /\
  (forallb (fun g' => negb (group_located groupNamePart g')) pre = true ->
   group_located groupNamePart g = true ->
   sumGroup (pre ++ g :: post) yearId groupNamePart excludeNames
   = sum_of_rows yearId excludeNames (rows g)).
Proof.
  assert (Hall : forall gs, sumGroup gs yearId groupNamePart excludeNames
                            = sum_group gs yearId groupNamePart excludeNames).
  { intros gs. unfold sumGroup, sum_group.
    rewrite (find_ext _ _ gs (group_matches_located groupNamePart)).
    destruct (List.find (group_located groupNamePart) gs); [|reflexivity].
    apply sumGroup_rows_worded. }
  split; [exact Hall|]. intros Hpre Hg. rewrite Hall. unfold sum_group.
  now rewrite (find_skip _ pre g post Hpre Hg).
Qed.

(** The fragment "Selling" locates the second and the third of three
    groups; the sum is the 10 + 20 of the second, the 400 of the third
    staying out. *)
Lemma sumGroup_first_match_only_witness :
  group_located "Selling" selling_second = true /\
  sumGroup ([unrelated_group] ++ selling_first :: [selling_second]) 1%Z "Selling" []
  = of_Z 30.
Proof.
  split; [reflexivity|].
  rewrite (proj2 (sumGroup_first_match_only [unrelated_group] selling_first
                    [selling_second] 1%Z "Selling" [])) by reflexivity.
  vm_compute. reflexivity.
Defined.

End ResolverProps.

(** ** The store *)

Module StoreProps.

Lemma res_get_set (R : results) (y : year_id) (k : string) (v : num)
    (y' : year_id) (k' : string) :
  res_get (res_set R y k v) y' k'
  = if decide (y = y' /\ k = k') then Some v else res_get R y' k'.
Proof.
  unfold res_get, res_set, year_map.
  destruct (decide (y = y')) as [->|Hy].
  - rewrite lookup_insert_eq. cbn.
    destruct (decide (k = k')) as [->|Hk].
    + rewrite lookup_insert_eq. now rewrite decide_True.
    + rewrite lookup_insert_ne by done. rewrite decide_False by tauto. done.
  - rewrite lookup_insert_ne by done. rewrite decide_False by tauto. done.
Qed.

Lemma res_get_set_eq (R : results) (y : year_id) (k : string) (v : num) :
  res_get (res_set R y k v) y k = Some v.
Proof. rewrite res_get_set. now rewrite decide_True. Qed.

Lemma res_get_set_other (R : results) (y : year_id) (k : string) (v : num)
    (y' : year_id) (k' : string) :
  y <> y' \/ k <> k' -> res_get (res_set R y k v) y' k' = res_get R y' k'.
Proof. intros H. rewrite res_get_set. rewrite decide_False by tauto. done. Qed.

Lemma res_get_set_key (R : results) (y : year_id) (k : string) (v : num)
    (y' : year_id) (k' : string) :
  k <> k' -> res_get (res_set R y k v) y' k' = res_get R y' k'.
Proof. intros H. apply res_get_set_other. now right. Qed.

Lemma prev_get_set_key (R : results) (y : year_id) (prev : option year_id)
    (k : string) (v : num) (k' : string) :
  k <> k' -> prev_get (res_set R y k v) prev k' = prev_get R prev k'.
Proof. intros H. unfold prev_get. destruct prev; [|done]. now apply res_get_set_key. Qed.

Lemma prev_get_ext (R R' : results) (prev : option year_id) (k : string) :
  (forall y, res_get R' y k = res_get R y k) -> prev_get R' prev k = prev_get R prev k.
Proof. intros H. unfold prev_get. now destruct prev. Qed.

Lemma getVal_set_key (gs : list Group) (R : results) (y : year_id) (k : string)
    (v : num) (k' : string) :
  k <> k' ->
  Resolver.getVal gs (res_set R y k v) y k' = Resolver.getVal gs R y k'.
Proof. intros H. unfold Resolver.getVal. now rewrite res_get_set_key. Qed.

Lemma res_get_set_same (R : results) (y : year_id) (k : string) (v : num) (k' : string) :
  res_get (res_set R y k v) y k'
  = if String.eqb k k' then Some v else res_get R y k'.
Proof.
  rewrite res_get_set. destruct (String.eqb_spec k k') as [->|Hn].
  - now rewrite decide_True.
  - rewrite decide_False by tauto. done.
Qed.

(** Names the values assigned in the goal, so that the goal stays small. *)
Ltac abstract_values :=
  repeat match goal with
         | |- context [res_set _ _ _ ?v] =>
             tryif is_var v then fail
             else (let x := fresh "v" in set (x := v) in *; clearbody x)
         end.

(** Reads an entry of the current year through a pile of assignments to
    literal keys, by computing on the keys. *)
Ltac read_sets :=
  unfold Engine.set_res; abstract_values;
  rewrite ?res_get_set_same;
  cbv beta iota delta [String.eqb Ascii.eqb Bool.eqb].

(** The same when the values have been named already. *)
Ltac read_named :=
  rewrite ?res_get_set_same;
  cbv beta iota delta [String.eqb Ascii.eqb Bool.eqb].

(** Reads an entry through a pile of assignments to literal keys. *)
Ltac lookup_sets :=
  unfold Engine.set_res;
  repeat first
    [ rewrite res_get_set_eq
    | rewrite res_get_set_other by (right; discriminate)
    | rewrite prev_get_set_key by discriminate
    | rewrite getVal_set_key by discriminate ].

End StoreProps.

Module Frame.

Import Engine Resolver Tax StoreProps Footprint.

Lemma no_row_named_in (k : string) (gs : list Group) (g : Group) (r : Row) :
  no_row_named k gs -> In g gs -> In r (rows g) -> r_name r <> k.
Proof.
  intros H Hg Hr. unfold no_row_named in H.
  rewrite List.Forall_forall in H. specialize (H g Hg).
  rewrite List.Forall_forall in H. now apply H.
Qed.

Lemma append_suffix_differs (a : string) :
  a +:+ " WC Limit" <> carry_key /\ a +:+ " (Closing Balance)" <> carry_key.
Proof.
  split; intros H; unfold carry_key in H;
    repeat (destruct a as [|? a]; cbn in H; [discriminate H|]; injection H as _ H);
    destruct a; discriminate H.
Qed.

Section Target.

(** The year being computed, and an entry [(y, k)] of the store that the
    year must leave alone: an entry of another year, or the carry key of the
    year itself when no row is named after it. *)
Variable allGroups : list Group.
Variable yId : year_id.
Variable y : year_id.
Variable k : string.
Hypothesis Hk : k <> forced_key.
Hypothesis Hsafe : yId <> y \/ (k = carry_key /\ no_row_named carry_key allGroups).

Local Abbreviation kept := (kept_at y k).

Lemma kept_refl (R : results) : kept R R.
Proof. reflexivity. Qed.

Lemma kept_set_gen (R R' : results) (k0 : string) (v : num) :
  (yId <> y \/ k0 <> k) -> kept R R' -> kept R (set_res yId R' k0 v).
Proof.
  intros Hn H. unfold kept_at, set_res. now rewrite res_get_set_other.
Qed.

Lemma kept_forced (R R' : results) (y0 : year_id) (v : num) :
  kept R R' -> kept R (res_set R' y0 forced_key v).
Proof.
  intros H. unfold kept_at. rewrite res_get_set_other by (right; congruence). exact H.
Qed.

Lemma kept_set_row (R R' : results) (g : Group) (r : Row) (v : num) :
  In g allGroups -> In r (rows g) -> kept R R' -> kept R (set_res yId R' (r_name r) v).
Proof.
  intros Hg Hr. apply kept_set_gen. destruct Hsafe as [H|[E H]]; [now left|right].
  rewrite E. now apply (no_row_named_in _ allGroups g r).
Qed.

Lemma kept_set_delta (R R' : results) (n : string) (v : num) :
  kept R R' -> kept R (set_res yId R' (delta_prefix +:+ n) v).
Proof.
  apply kept_set_gen. destruct Hsafe as [H|[E H]]; [now left|right].
  rewrite E. discriminate.
Qed.

Lemma kept_set_interest (R R' : results) (n : string) (v : num) :
  kept R R' -> kept R (set_res yId R' ("Interest on " +:+ n) v).
Proof.
  apply kept_set_gen. destruct Hsafe as [H|[E H]]; [now left|right].
  rewrite E. discriminate.
Qed.

Lemma kept_set_limit (R R' : results) (n : string) (v : num) :
  kept R R' -> kept R (set_res yId R' (n +:+ " WC Limit") v).
Proof.
  apply kept_set_gen. destruct Hsafe as [H|[E H]]; [now left|right].
  rewrite E. apply append_suffix_differs.
Qed.

Lemma kept_set_closing (R R' : results) (n : string) (v : num) :
  kept R R' -> kept R (set_res yId R' (n +:+ " (Closing Balance)") v).
Proof.
  apply kept_set_gen. destruct Hsafe as [H|[E H]]; [now left|right].
  rewrite E. apply append_suffix_differs.
Qed.

Lemma kept_fold {B} (f : results -> B -> results) (l : list B) (R0 R : results) :
  (forall R' x, In x l -> kept R0 R' -> kept R0 (f R' x)) ->
  kept R0 R -> kept R0 (fold_left f l R).
Proof.
  revert R. induction l as [|x l IH]; intros R Hf HR; cbn; [done|].
  apply IH; [|apply Hf; [now left|done]].
  intros R' x' Hx'. apply Hf. now right.
Qed.

Lemma kept_fold_pair {A B} (f : results * A -> B -> results * A) (l : list B)
    (R0 : results) (st : results * A) :
  (forall st' x, In x l -> kept R0 (fst st') -> kept R0 (fst (f st' x))) ->
  kept R0 (fst st) -> kept R0 (fst (fold_left f l st)).
Proof.
  revert st. induction l as [|x l IH]; intros st Hf HR; cbn; [done|].
  apply IH; [|apply Hf; [now left|done]].
  intros st' x' Hx'. apply Hf. now right.
Qed.

(** An assignment to a literal key other than the two internal keys. *)
Ltac kept_literal :=
  simple apply kept_set_gen;
  [ let E := fresh "E" in
    destruct Hsafe as [?|[E ?]]; [now left | right; rewrite E; discriminate] | ].

(** Closes a goal [kept R0 e] where [e] is built from assignments of the
    year on top of a store already known to be kept. *)
Ltac kept_sets :=
  repeat first
    [ assumption
    | simple apply kept_refl
    | kept_literal
    | simple apply kept_forced
    | simple apply kept_set_delta
    | simple apply kept_set_interest
    | simple apply kept_set_limit
    | simple apply kept_set_closing ].

Ltac case_ifs :=
  repeat match goal with
         | |- context [if ?b then _ else _] => destruct b
         end.

Variable yearSettings : list YearSetting.
Variable taxRegime : string.
Variable loanSummaries : list LoanSummary.
Variable gprSettings : option GprSettings.
Variable wcSettings : WcSettings.
Variable projectCostsData : list Asset.
Variable existingWCLoans : list WcLoan.
Variable yearIndex : nat.
Variable prev : option year_id.

Lemma kept_revenue (R0 R : results) :
  kept R0 R -> kept R0 (fst (phase_revenue allGroups yId R)).
Proof. intros H. unfold phase_revenue. cbn. kept_sets. Qed.

Lemma kept_cogs_row (R0 : results) (g : Group) (st : results * Cogs) (row : Row) :
  In g allGroups -> In row (rows g) ->
  kept R0 (fst st) -> kept R0 (fst (cogs_row yId yearIndex prev st row)).
Proof.
  intros Hg Hr. destruct st as [R c]. cbn [fst]. intros H. unfold cogs_row.
  case_ifs; cbn [fst]; kept_sets;
    try (apply (kept_set_row _ _ g); [done|done|]); kept_sets.
Qed.

Lemma kept_cogs (R0 R : results) :
  kept R0 R -> kept R0 (fst (phase_cogs allGroups yId yearIndex prev R)).
Proof.
  intros H. unfold phase_cogs. destruct (cogsGroup allGroups) as [g|] eqn:Hg; [|done].
  apply List.find_some in Hg as [Hg _].
  apply kept_fold_pair; [|done]. intros. now apply (kept_cogs_row R0 g).
Qed.

Lemma kept_gpr (R0 R : results) (rev : num) (c : Cogs) :
  kept R0 R ->
  kept R0 (fst (phase_gpr yearSettings gprSettings yId yearIndex prev R rev c)).
Proof.
  intros H. unfold phase_gpr.
  repeat match goal with
         | |- context [if ?b then _ else _] => destruct b
         | |- context [match nth_error ?l ?n with _ => _ end] => destruct (nth_error l n)
         end; cbn [fst]; kept_sets.
Qed.

Lemma kept_chain (R0 R : results) (rev : num) (c : Cogs) :
  kept R0 R -> kept R0 (fst (phase_chain yId R rev c)).
Proof. intros H. unfold phase_chain. cbn. kept_sets. Qed.

Lemma kept_wc_interest (R0 R : results) :
  kept R0 R -> kept R0 (fst (fst (phase_wc_interest wcSettings existingWCLoans yId R))).
Proof.
  intros H. unfold phase_wc_interest.
  match goal with
  | |- context [let '(_, _) := ?e in _] =>
      assert (Hk' : kept R0 (fst e)); [|destruct e; cbn in *; kept_sets]
  end.
  destruct existingWCLoans as [|l ls].
  - destruct (is_enhancement wcSettings); cbn; kept_sets.
  - apply kept_fold_pair; [|done]. intros [R' w] x _ HR. cbn in *. kept_sets.
Qed.

Lemma kept_sga (R0 R : results) (gp : num) :
  kept R0 R -> kept R0 (fst (phase_sga allGroups yId R gp)).
Proof. intros H. unfold phase_sga. cbn. kept_sets. Qed.

Lemma kept_interest (R0 R : results) (wcE wcP : num) :
  kept R0 R -> kept R0 (fst (phase_interest allGroups loanSummaries yId R wcE wcP)).
Proof.
  intros H. unfold phase_interest. cbn [fst].
  assert (kept R0 (fold_left (loan_interest_entry yId) loanSummaries R)).
  { apply kept_fold; [|done]. intros R' x _ HR. unfold loan_interest_entry.
    destruct (_ =? _)%Z; kept_sets. }
  kept_sets.
Qed.

Lemma kept_profit (R0 R : results) (e ti : num) :
  kept R0 R -> kept R0 (fst (phase_profit allGroups taxRegime yId R e ti)).
Proof. intros H. unfold phase_profit. cbn [fst]. kept_sets. Qed.

Lemma kept_current_assets (R0 R : results) (c : Cogs) :
  kept R0 R -> kept R0 (fst (phase_current_assets allGroups yId R c)).
Proof. intros H. unfold phase_current_assets. cbn [fst]. kept_sets. Qed.

Lemma kept_fixed_rows (R0 R : results) (gb nb : num) :
  kept R0 R ->
  kept R0 match List.find is_fixed_asset_group allGroups with
          | Some fixedAssetGroup =>
              fold_left (fixed_asset_row yId gb nb) (rows fixedAssetGroup) R
          | None => R
          end.
Proof.
  intros H. destruct (List.find is_fixed_asset_group allGroups) as [g|] eqn:Hg; [|done].
  apply List.find_some in Hg as [Hg _].
  apply kept_fold; [|done]. intros R' x Hx HR. unfold fixed_asset_row.
  case_ifs; try (apply (kept_set_row _ _ g); [done|done|]); kept_sets.
Qed.

Lemma kept_fixed_assets_other (R0 R : results) (dep : num) :
  yId <> y -> kept R0 R ->
  kept R0 (fst (phase_fixed_assets allGroups yearSettings projectCostsData yId
                  yearIndex prev R dep)).
Proof.
  intros Hy H. unfold phase_fixed_assets. cbn [fst].
  do 2 kept_literal.
  match goal with
  | |- kept _ match _ with Some _ => _ | None => ?R' end =>
      apply kept_fixed_rows
  end.
  do 3 (apply kept_set_gen; [now left|]). exact H.
Qed.

Lemma kept_current_liabilities (R0 R : results) (t : num) :
  kept R0 R ->
  kept R0 (fst (phase_current_liabilities allGroups wcSettings existingWCLoans yId R t)).
Proof.
  intros H. unfold phase_current_liabilities.
  match goal with
  | |- context [let '(_, _) := ?e in _] =>
      assert (Hk' : kept R0 (fst e)); [|destruct e; cbn in *; kept_sets]
  end.
  destruct existingWCLoans as [|l ls].
  - destruct (is_enhancement wcSettings); cbn; kept_sets.
  - apply kept_fold_pair; [|done]. intros [R' w] x _ HR. cbn in *. kept_sets.
Qed.

Lemma kept_term_liabilities (R0 R : results) :
  kept R0 R ->
  kept R0 (fst (fst (phase_term_liabilities allGroups loanSummaries yId R))).
Proof.
  intros H. unfold phase_term_liabilities. cbn [fst].
  assert (kept R0 (fold_left (loan_closing_entry yId) loanSummaries R)).
  { apply kept_fold; [|done]. intros R' x _ HR. unfold loan_closing_entry.
    destruct (_ =? _)%Z; kept_sets. }
  kept_sets.
Qed.

Lemma kept_net_worth (R0 R : results) (rp : num) :
  kept R0 R ->
  kept R0 (fst (fst (phase_net_worth allGroups taxRegime yId yearIndex prev R rp))).
Proof.
  intros H. unfold phase_net_worth.
  destruct (isLlpOrProprietorship taxRegime); cbn [fst]; kept_sets.
Qed.

Lemma kept_total_liabilities (R0 R : results) (a b c d e : num) :
  kept R0 R -> kept R0 (fst (phase_total_liabilities allGroups yId R a b c d e)).
Proof. intros H. unfold phase_total_liabilities. cbn [fst]. kept_sets. Qed.

Lemma kept_delta_row (R0 : results) (g : Group) (t : num) (b n : string)
    (st : results * Deltas) (row : Row) :
  In g allGroups -> In row (rows g) ->
  kept R0 (fst st) -> kept R0 (fst (delta_row taxRegime yId prev t b n st row)).
Proof.
  intros Hg Hr. destruct st as [R ds]. cbn [fst]. intros H. unfold delta_row.
  case_ifs; cbn [fst]; try apply kept_set_delta;
    try (apply (kept_set_row _ _ g); [done|done|]); kept_sets.
Qed.

Lemma kept_delta_scan (R0 R : results) (t : num) :
  kept R0 R -> kept R0 (fst (delta_scan allGroups taxRegime yId prev R t)).
Proof.
  intros H. unfold delta_scan. apply kept_fold_pair; [|done].
  intros st g Hg Hst. unfold delta_group. destruct (delta_group_skipped g); [done|].
  apply kept_fold_pair; [|done]. intros. now apply (kept_delta_row R0 g).
Qed.

Lemma kept_operating (R0 R : results) (p : Profit) (i : Interest) :
  kept R0 R ->
  kept R0 (fst (fst (phase_operating allGroups taxRegime yId prev R p i))).
Proof.
  intros H. unfold phase_operating.
  match goal with
  | |- context [delta_scan ?a ?b ?c ?d ?R' ?t] =>
      pose proof (kept_delta_scan R0 R' t) as Hd;
      destruct (delta_scan a b c d R' t) as [Rd ds]
  end.
  cbn [fst] in Hd. specialize (Hd ltac:(kept_sets)).
  destruct (wc_changes (operatingDeltas ds)). cbn [fst]. kept_sets.
Qed.

Lemma kept_investing (R0 R : results) (fa : FixedAssets) (dep : num) (ds : Deltas) :
  kept R0 R -> kept R0 (fst (phase_investing yId prev R fa dep ds)).
Proof. intros H. unfold phase_investing. cbn [fst]. kept_sets. Qed.

Lemma kept_financing (R0 R : results) (p : Profit) (i : Interest)
    (cl : CurrentLiabilities) (a b c : num) (ds : Deltas) :
  kept R0 R ->
  kept R0 (fst (phase_financing allGroups taxRegime yId prev R p i cl a b c ds)).
Proof.
  intros H. unfold phase_financing.
  repeat match goal with
         | |- context [let '(_, _) := ?e in _] => destruct e
         end.
  cbn [fst]. kept_sets.
Qed.

Lemma kept_cash (R0 R : results) (a b c d e f : num) :
  kept R0 R ->
  kept R0 (fst (phase_cash allGroups yId yearIndex prev R a b c d e f)).
Proof. intros H. unfold phase_cash. cbn [fst]. kept_sets. Qed.

Lemma kept_ratios (R0 R : results) (rev : num) (c : Cogs) (ch : CostChain)
    (i : Interest) (p : Profit) (fa : FixedAssets) (cl : CurrentLiabilities)
    (a b : num) (ca : Cash) :
  kept R0 R ->
  kept R0 (fst (phase_ratios allGroups loanSummaries yId yearIndex R rev c ch i p fa cl
                  a b ca)).
Proof. intros H. unfold phase_ratios. cbn [fst]. kept_sets. Qed.

End Target.

End Frame.

Module YearProps.

Import Engine Resolver Tax StoreProps Frame SpecWords Footprint.

(** Opens [year_body] phase by phase, naming every intermediate store. *)
Ltac open_year_body :=
  unfold year_body;
  destruct (phase_revenue _ _ _) as [R1 rev] eqn:E1;
  destruct (phase_cogs _ _ _ _ R1) as [R2 c0] eqn:E2;
  destruct (phase_gpr _ _ _ _ _ R2 rev c0) as [R3 cg] eqn:E3;
  destruct (phase_chain _ R3 rev cg) as [R4 ch] eqn:E4;
  destruct (phase_wc_interest _ _ _ R4) as [[R5 wcE] wcP] eqn:E5;
  destruct (phase_sga _ _ R5 _) as [R6 ebitda] eqn:E6;
  destruct (phase_interest _ _ _ R6 wcE wcP) as [R7 it] eqn:E7;
  destruct (phase_profit _ _ _ R7 ebitda _) as [R8 pf] eqn:E8;
  destruct (phase_current_assets _ _ R8 cg) as [R9 nonCash] eqn:E9;
  destruct (phase_fixed_assets _ _ _ _ _ _ R9 _) as [R10 fa] eqn:E10;
  destruct (phase_current_liabilities _ _ _ _ R10 _) as [R11 cl] eqn:E11;
  destruct (phase_term_liabilities _ _ _ R11) as [[R12 lo] ttl] eqn:E12;
  destruct (phase_net_worth _ _ _ _ _ R12 _) as [[R13 nw] sc] eqn:E13;
  destruct (phase_total_liabilities _ _ R13 _ _ _ _ _) as [R14 tl] eqn:E14;
  destruct (phase_operating _ _ _ _ R14 pf it) as [[R15 ds] cfo] eqn:E15;
  destruct (phase_investing _ _ R15 fa _ ds) as [R16 cfi] eqn:E16;
  destruct (phase_financing _ _ _ _ R16 pf it cl lo ttl sc ds) as [R17 cff] eqn:E17;
  destruct (phase_cash _ _ _ _ R17 cfo cfi cff nonCash _ tl) as [R18 ca] eqn:E18;
  destruct (phase_ratios _ _ _ _ R18 rev cg ch it pf fa cl ttl nw ca) as [R19 rt] eqn:E19.

(** From [E : phase ... = (R', x)] and the frame lemma [lem] of the phase,
    the fact that [R'] is kept. *)
Ltac kept_from E lem :=
  match type of E with
  | ?ph = (?R', _, _) =>
      replace R' with (fst (fst ph)) by (now rewrite E); eapply lem; eassumption
  | ?ph = (?R', _) =>
      replace R' with (fst ph) by (now rewrite E); eapply lem; eassumption
  end.

Section Year.

Variable allGroups : list Group.
Variable yearSettings : list YearSetting.
Variable taxRegime : string.
Variable loanSummaries : list LoanSummary.
Variable gprSettings : option GprSettings.
Variable wcSettings : WcSettings.
Variable projectCostsData : list Asset.
Variable existingWCLoans : list WcLoan.
Variable yId : year_id.
Variable yearIndex : nat.
Variable prev : option year_id.

Local Abbreviation body :=
  (year_body allGroups yearSettings taxRegime loanSummaries gprSettings wcSettings
     projectCostsData existingWCLoans yId yearIndex prev).

(** The entries of the other years, apart from the forced opening stock,
    are the same when the fixed assets are computed, when the cash section
    starts and when the year ends. *)
Lemma year_keeps_other_years (R : results) (y : year_id) (k : string) :
  yId <> y -> k <> forced_key ->
  let tr := snd (body R) in
  res_get (t_store_cash tr) y k = res_get R y k /\
  res_get (fst (body R)) y k = res_get R y k.
Proof.
  intros Hy Hk. cbn zeta. open_year_body. cbn [fst snd t_store_cash].
  assert (Hs : yId <> y \/ k = carry_key /\ no_row_named carry_key allGroups) by now left.
  pose proof (kept_refl y k R) as H0.
  assert (H1 : kept_at y k R R1) by kept_from E1 kept_revenue.
  assert (H2 : kept_at y k R R2) by kept_from E2 kept_cogs.
  assert (H3 : kept_at y k R R3) by kept_from E3 kept_gpr.
  assert (H4 : kept_at y k R R4) by kept_from E4 kept_chain.
  assert (H5 : kept_at y k R R5) by kept_from E5 kept_wc_interest.
  assert (H6 : kept_at y k R R6) by kept_from E6 kept_sga.
  assert (H7 : kept_at y k R R7) by kept_from E7 kept_interest.
  assert (H8 : kept_at y k R R8) by kept_from E8 kept_profit.
  assert (H9 : kept_at y k R R9) by kept_from E9 kept_current_assets.
  assert (H10 : kept_at y k R R10) by kept_from E10 kept_fixed_assets_other.
  assert (H11 : kept_at y k R R11) by kept_from E11 kept_current_liabilities.
  assert (H12 : kept_at y k R R12) by kept_from E12 kept_term_liabilities.
  assert (H13 : kept_at y k R R13) by kept_from E13 kept_net_worth.
  assert (H14 : kept_at y k R R14) by kept_from E14 kept_total_liabilities.
  assert (H15 : kept_at y k R R15) by kept_from E15 kept_operating.
  assert (H16 : kept_at y k R R16) by kept_from E16 kept_investing.
  assert (H17 : kept_at y k R R17) by kept_from E17 kept_financing.
  assert (H18 : kept_at y k R R18) by kept_from E18 kept_cash.
  assert (H19 : kept_at y k R R19) by kept_from E19 kept_ratios.
  split; [exact H17 | exact H19].
Qed.

Lemma num_same_refl (a : num) : num_same a a.
Proof. destruct a; cbn; try exact I. reflexivity. Qed.

Lemma nor_zero_add (nb a : num) :
  isNaN nb = false -> num_same (nor nb n0 + a)%num (nb + a)%num.
Proof.
  destruct nb as [q| | |]; cbn; try discriminate; intros _.
  - unfold nor, truthy. destruct (Qeq_bool q 0) eqn:E; cbn [negb].
    + apply Qeq_bool_iff in E. destruct a; cbn; try exact I. rewrite E. reflexivity.
    + apply num_same_refl.
  - apply num_same_refl.
  - apply num_same_refl.
Qed.

(** The net block written under the carry key by the fixed-asset phase. *)
Lemma fixed_assets_carry (R : results) (dep : num) :
  no_row_named carry_key allGroups ->
  let st := phase_fixed_assets allGroups yearSettings projectCostsData yId
              yearIndex prev R dep in
  res_get (fst st) yId carry_key = Some (netBlock (snd st)).
Proof.
  intros Hno. unfold phase_fixed_assets. cbn [fst snd netBlock].
  assert (Hs : yId <> yId \/ carry_key = carry_key /\ no_row_named carry_key allGroups)
    by (right; split; [reflexivity | exact Hno]).
  unfold set_res at 1 2. rewrite !res_get_set_other by (right; discriminate).
  match goal with
  | |- res_get ?M _ _ = _ =>
      match M with
      | match _ with Some _ => _ | None => ?R' end =>
          assert (Hk : kept_at yId carry_key R' M)
            by (eapply kept_fixed_rows;
                first [eassumption | discriminate | apply kept_refl])
      end
  end.
  unfold kept_at in Hk. rewrite Hk. unfold set_res. now rewrite res_get_set_eq.
Qed.







(** Rewrites the store [R'] of [E : phase ... = (R', x)] into [fst (phase ...)]. *)
Ltac back E :=
  match type of E with
  | ?ph = (?R', _, _) => replace R' with (fst (fst ph)) by (rewrite E; reflexivity)
  | ?ph = (?R', _) => replace R' with (fst ph) by (rewrite E; reflexivity)
  end.

Ltac open_lets :=
  repeat match goal with
         | |- context [let '(_, _) := ?e in _] => destruct e
         end.

Lemma cash_chain_nan : oor (Some NaN) (oor (Some NaN) (oor (Some NaN) n0)) = n0.
Proof. reflexivity. Qed.

Lemma cash_chain (c : num) :
  isNaN c = false ->
  num_same (oor (Some c) (oor (Some c) (oor (Some c) n0))) c.
Proof.
  destruct c as [q| | |]; cbn; try discriminate; intros _; try exact I.
  unfold nor, truthy. destruct (Qeq_bool q 0) eqn:E; cbn [negb].
  - apply Qeq_bool_iff in E. cbn. now rewrite E.
  - cbn. reflexivity.
Qed.

(** C2, amended. Net cash flow is the sum of the three sections; closing
    cash is opening cash plus net cash flow; opening cash is the cash input
    of the first year (looked up under "Cash & Bank Balance", "Cash in
    Hand", "Balance with Banks") and afterwards the closing cash of the
    previous year, or 0 when that closing cash is NaN; the closing cash
    overwrites the cash entries of the balance sheet
    ("Balance with Banks" is set to 0, all cash being shown in "Cash in
    Hand") and is the cash component of total assets. *)
Theorem closing_cash_authoritative (R : results) :
  let R' := fst (body R) in
  let tr := snd (body R) in
  let ca := t_cash tr in
  netCashFlow ca
  = (t_cashFromOperating tr + t_cashFromInvesting tr + t_cashFromFinancing tr)%num /\
  (res_get R' yId "Net Cash from Operating Activities" = Some (t_cashFromOperating tr) /\
   res_get R' yId "Net Cash from Investment Activities" = Some (t_cashFromInvesting tr) /\
   res_get R' yId "Net Cash from Financing Activities" = Some (t_cashFromFinancing tr) /\
   res_get R' yId "Net Cash Flow During the Year" = Some (netCashFlow ca)) /\
  closingCashCFS ca = (openingCash ca + netCashFlow ca)%num /\
  res_get R' yId "Add: Opening Cash Balance" = Some (openingCash ca) /\
  (yearIndex = 0%nat ->
   openingCash ca
   = nor (nor (nor (getVal allGroups (t_store_cash tr) yId "Cash & Bank Balance")
                   (getVal allGroups (t_store_cash tr) yId "Cash in Hand"))
              (getVal allGroups (t_store_cash tr) yId "Balance with Banks")) n0) /\
  (forall p c,
     (0 < yearIndex)%nat -> prev = Some p -> yId <> p ->
     cash_entries R p c ->
     (isNaN c = false -> num_same (openingCash ca) c) /\
     (isNaN c = true -> openingCash ca = n0)) /\
  cash_entries R' yId (closingCashCFS ca) /\
  (res_get R' yId "Cash & bank balance" = Some (closingCashCFS ca) /\
   res_get R' yId "Cash in Hand" = Some (closingCashCFS ca) /\
   res_get R' yId "Balance with Banks" = Some n0) /\
  totalAssets ca
  = (closingCashCFS ca + t_nonCashCurrentAssets tr + totalFixedAssets (t_fixed tr)
     + nonCurrentAssets ca)%num /\
  res_get R' yId "Total Assets" = Some (totalAssets ca) /\
  res_get R' yId "Total Asset" = Some (totalAssets ca).
Proof.
  pose proof (fun y k Hy Hk => proj1 (year_keeps_other_years R y k Hy Hk)) as Hframe.
  cbn zeta in Hframe. revert Hframe. cbn zeta.
  open_year_body. cbn [fst snd t_cash t_cashFromOperating t_cashFromInvesting
    t_cashFromFinancing t_store_cash t_nonCashCurrentAssets t_fixed].
  intros Hframe.
  assert (Hca : ca = snd (phase_cash allGroups yId yearIndex prev R17 cfo cfi cff
                            nonCash (totalFixedAssets fa) tl)) by now rewrite E18.
  assert (Hcfo : res_get R15 yId "Net Cash from Operating Activities" = Some cfo).
  { assert (Hv : cfo = snd (phase_operating allGroups taxRegime yId prev R14 pf it))
      by now rewrite E15.
    back E15. rewrite Hv. clear. unfold phase_operating. open_lets.
    cbn [fst snd]. now lookup_sets. }
  assert (Hcfi : res_get R16 yId "Net Cash from Investment Activities" = Some cfi).
  { assert (Hv : cfi = snd (phase_investing yId prev R15 fa (depreciation pf) ds))
      by now rewrite E16.
    back E16. rewrite Hv. clear. unfold phase_investing. cbn [fst snd]. now lookup_sets. }
  assert (Hcff : res_get R17 yId "Net Cash from Financing Activities" = Some cff).
  { assert (Hv : cff = snd (phase_financing allGroups taxRegime yId prev R16 pf it cl
                              lo ttl sc ds)) by now rewrite E17.
    back E17. rewrite Hv. clear. unfold phase_financing. open_lets.
    cbn [fst snd]. now lookup_sets. }
  assert (H16 : forall K, K = "Net Cash from Operating Activities" ->
                          res_get R16 yId K = res_get R15 yId K).
  { intros K ->. back E16. clear. unfold phase_investing. cbn [fst]. now lookup_sets. }
  assert (H17 : forall K, K = "Net Cash from Operating Activities" \/
                          K = "Net Cash from Investment Activities" ->
                          res_get R17 yId K = res_get R16 yId K).
  { intros K HK. back E17. clear - HK. unfold phase_financing. open_lets. cbn [fst].
    unfold set_res. abstract_values.
    destruct HK as [-> | ->]; read_named; reflexivity. }
  assert (H18 : forall K, K = "Net Cash from Operating Activities" \/
                          K = "Net Cash from Investment Activities" \/
                          K = "Net Cash from Financing Activities" ->
                          res_get R18 yId K = res_get R17 yId K).
  { intros K HK. back E18. clear - HK. unfold phase_cash. cbn [fst].
    unfold set_res. abstract_values.
    destruct HK as [-> | [-> | ->]]; read_named; reflexivity. }
  assert (H19 : forall K,
             In K ["Net Cash from Operating Activities";
                   "Net Cash from Investment Activities";
                   "Net Cash from Financing Activities";
                   "Net Cash Flow During the Year"; "Add: Opening Cash Balance";
                   "Closing Cash Balance (as per CFS)"; "Cash & Bank Balance";
                   "Cash & bank balance"; "Cash in Hand"; "Balance with Banks";
                   "Total Cash & Bank"; "Total Assets"; "Total Asset"] ->
             res_get R19 yId K = res_get R18 yId K).
  { intros K HK. back E19. clear - HK. unfold phase_ratios. cbn [fst].
    cbn [In] in HK. unfold set_res. abstract_values.
    repeat (destruct HK as [<- | HK]; [read_named; reflexivity|]). destruct HK. }
  assert (Hc18 : forall K v,
             In (K, v) [("Net Cash Flow During the Year", netCashFlow ca);
                        ("Add: Opening Cash Balance", openingCash ca);
                        ("Closing Cash Balance (as per CFS)", closingCashCFS ca);
                        ("Cash & Bank Balance", closingCashCFS ca);
                        ("Cash & bank balance", closingCashCFS ca);
                        ("Cash in Hand", closingCashCFS ca);
                        ("Balance with Banks", n0);
                        ("Total Cash & Bank", closingCashCFS ca);
                        ("Total Assets", totalAssets ca);
                        ("Total Asset", totalAssets ca)] ->
             res_get R18 yId K = Some v).
  { intros K v HK. back E18. rewrite Hca in HK. clear - HK. unfold phase_cash in *.
    cbn [fst snd netCashFlow openingCash closingCashCFS totalAssets In] in *.
    unfold set_res in *. abstract_values.
    repeat (destruct HK as [HK | HK]; [injection HK as <- <-; read_named; reflexivity|]).
    destruct HK. }
  assert (Hfin : forall K v,
             In (K, v) [("Net Cash Flow During the Year", netCashFlow ca);
                        ("Add: Opening Cash Balance", openingCash ca);
                        ("Closing Cash Balance (as per CFS)", closingCashCFS ca);
                        ("Cash & Bank Balance", closingCashCFS ca);
                        ("Cash & bank balance", closingCashCFS ca);
                        ("Cash in Hand", closingCashCFS ca);
                        ("Balance with Banks", n0);
                        ("Total Cash & Bank", closingCashCFS ca);
                        ("Total Assets", totalAssets ca);
                        ("Total Asset", totalAssets ca)] ->
             res_get R19 yId K = Some v).
  { intros K v HK. rewrite H19; [now apply Hc18|]. clear - HK. cbn [In] in *.
    repeat (destruct HK as [HK | HK]; [injection HK as <- _; tauto|]). destruct HK. }
  clear E1 E2 E3 E4 E5 E6 E7 E8 E9 E10 E11 E12 E13 E14 E15 E16 E17 E18 E19.
  split; [rewrite Hca; reflexivity|].
  split.
  { repeat split.
    - rewrite H19, H18, H17, H16 by (cbn [In]; tauto). exact Hcfo.
    - rewrite H19, H18, H17 by (cbn [In]; tauto). exact Hcfi.
    - rewrite H19, H18 by (cbn [In]; tauto). exact Hcff.
    - apply Hfin. cbn [In]. tauto. }
  split; [rewrite Hca; reflexivity|].
  split; [apply Hfin; cbn [In]; tauto|].
  split.
  { intros Hidx. rewrite Hca. unfold phase_cash. cbn [snd openingCash].
    unfold openingCash_of. rewrite Hidx. cbn [Nat.eqb]. now lookup_sets. }
  split.
  { intros p c Hidx Hprev Hp (Hc1 & Hc2 & Hc3).
    rewrite Hca. unfold phase_cash. cbn [snd openingCash].
    unfold openingCash_of. destruct yearIndex; [inversion Hidx|]. cbn [Nat.eqb].
    rewrite Hprev. lookup_sets. cbn [prev_get].
    rewrite !Hframe by (assumption || discriminate).
    rewrite Hc1, Hc2, Hc3. split; intros Hnan.
    - now apply cash_chain.
    - destruct c; try discriminate Hnan. apply cash_chain_nan. }
  split.
  { repeat split; apply Hfin; cbn [In]; tauto. }
  split.
  { repeat split; apply Hfin; cbn [In]; tauto. }
  split; [rewrite Hca; reflexivity|].
  split; apply Hfin; cbn [In]; tauto.
Qed.

Lemma neqb_zero_truthy (d : num) : neqb d zero = true -> truthy d = false /\ nonzero d = false.
Proof.
  unfold nonzero. intros H. rewrite H. split; [|reflexivity].
  destruct d as [q| | |]; cbn in *; try discriminate. now rewrite H.
Qed.

Lemma ndiv_finite (a b : num) :
  is_finite a = true -> is_finite b = true -> nonzero b = true ->
  is_finite (a / b)%num = true.
Proof.
  destruct a as [x| | |], b as [y| | |]; cbn; try discriminate. intros _ _.
  unfold nonzero. cbn. now destruct (Qeq_bool y 0).
Qed.

Lemma nmul_finite (a b : num) :
  is_finite a = true -> is_finite b = true -> is_finite (a * b)%num = true.
Proof. destruct a, b; cbn; try discriminate. reflexivity. Qed.

Lemma ratio_guarded (k : string) (numer den : num) :
  guarded (mkRatioRow k numer den (ratio numer den)).
Proof.
  split; cbn [rr_den rr_value rr_numer]; unfold ratio.
  - intros H. apply neqb_zero_truthy in H as [_ ->]. reflexivity.
  - intros Hn Hd. destruct (nonzero den) eqn:E; [|reflexivity].
    now apply ndiv_finite.
Qed.

Lemma ratio_pct_guarded (k : string) (numer den : num) :
  guarded (mkRatioRow k numer den (ratio_pct numer den)).
Proof.
  split; cbn [rr_den rr_value rr_numer]; unfold ratio_pct.
  - intros H. apply neqb_zero_truthy in H as [_ ->]. reflexivity.
  - intros Hn Hd. destruct (nonzero den) eqn:E; [|reflexivity].
    apply nmul_finite; [now apply ndiv_finite|reflexivity].
Qed.

Lemma gross_profit_ratio_guarded (rev gp : num) :
  guarded (gross_profit_ratio_row rev gp).
Proof.
  split; cbn [rr_den rr_value rr_numer gross_profit_ratio_row]; unfold grossProfitRatio.
  - intros H. apply neqb_zero_truthy in H as [-> _]. reflexivity.
  - intros Hn Hd. destruct (truthy rev) eqn:E; [|reflexivity].
    apply nmul_finite; [|reflexivity]. apply ndiv_finite; [done|done|].
    destruct rev; cbn in *; try discriminate. unfold nonzero. cbn. exact E.
Qed.

Lemma cash_total_asset (R : results) (a b c d e f : num) :
  let st := phase_cash allGroups yId yearIndex prev R a b c d e f in
  res_get (fst st) yId "Total Asset" = Some (totalAssets (snd st)).
Proof.
  cbn zeta. unfold phase_cash. cbn [fst snd totalAssets]. read_sets. reflexivity.
Qed.

(** C8, amended. Every ratio written in the last section of the year, and
    the gross profit ratio, written with the cost chain, is 0 when its
    denominator is 0, and is finite when its numerator and its denominator
    are finite. (The same holds of the debt-equity ratio, a local of the
    year.) *)
Theorem ratios_guarded (R : results) :
  let R' := fst (body R) in
  let tr := snd (body R) in
  Forall (fun r => res_get R' yId (rr_key r) = Some (rr_value r) /\ guarded r)
         (written_ratios loanSummaries yId yearIndex tr) /\
  guarded (debt_equity_row tr) /\
  guarded (gross_profit_ratio_row (t_totalRevenue tr) (grossProfit (t_chain tr))) /\
  (forall R0 rev c,
     res_get (fst (phase_chain yId R0 rev c)) yId "Gross Profit Ratio"
     = Some (rr_value (gross_profit_ratio_row rev (grossProfit (snd (phase_chain yId R0 rev c)))))).
Proof.
  cbn zeta. open_year_body.
  pose proof (cash_total_asset R17 cfo cfi cff nonCash (totalFixedAssets fa) tl) as Hta.
  cbn zeta in Hta. rewrite E18 in Hta. cbn [fst snd] in Hta.
  assert (Hrt : rt = snd (phase_ratios allGroups loanSummaries yId yearIndex R18 rev cg
                            ch it pf fa cl ttl nw ca)) by now rewrite E19.
  assert (HR : R19 = fst (phase_ratios allGroups loanSummaries yId yearIndex R18 rev cg
                            ch it pf fa cl ttl nw ca)) by now rewrite E19.
  clear E1 E2 E3 E4 E5 E6 E7 E8 E9 E10 E11 E12 E13 E14 E15 E16 E17 E18 E19.
  assert (Hat : assetTurnoverRatio rt = ratio rev (totalAssets ca)).
  { rewrite Hrt. unfold phase_ratios. cbn [snd assetTurnoverRatio].
    unfold assetTurnoverRatio_of. unfold set_res.
    rewrite !res_get_set_other by (right; discriminate). now rewrite Hta. }
  cbn [fst snd]. unfold written_ratios, debt_equity_row.
  cbn [t_cash t_curLiab t_fixed t_interest t_profit t_ratios t_totalNetWorth
       t_totalTermLiabilities t_totalRevenue t_chain t_cogs].
  split; [|split; [|split]].
  - repeat (apply List.Forall_cons; [split|]); try apply List.Forall_nil;
      cbn [rr_key rr_value];
      try (rewrite Hat; apply ratio_guarded);
      try (rewrite Hrt; first [apply ratio_guarded | apply ratio_pct_guarded]).
    all: rewrite HR, Hrt; clear; unfold phase_ratios;
      cbn [fst snd currentRatio quickRatio fixedAssetsCoverageRatio
             interestCoverageRatio dscr roce netProfitMargin returnOnNetWorth
             inventoryTurnoverRatio fixedAssetTurnoverRatio assetTurnoverRatio];
      read_sets; reflexivity.
  - rewrite Hrt. apply ratio_guarded.
  - apply gross_profit_ratio_guarded.
  - intros R0 rev' c'. unfold phase_chain.
    cbn [fst snd rr_value gross_profit_ratio_row]. read_sets. reflexivity.
Qed.

(** *** The loop over the cost rows *)

(** The loop writes only under the names of opening raw-material rows. *)
Lemma cogs_row_writes (st : results * Cogs) (row : Row) (y : year_id) (K : string) :
  is_opening_rm (toLowerCase K) = false ->
  res_get (fst (cogs_row yId yearIndex prev st row)) y K = res_get (fst st) y K.
Proof.
  intros HK. destruct st as [R0 acc]. unfold cogs_row. cbn [fst].
  destruct (is_hidden row); [reflexivity|].
  destruct (negb (is_calculated row) && negb (is_total_row row) &&
            negb (startsWith (r_name row) "=")); [|reflexivity].
  destruct (is_opening_rm (toLowerCase (r_name row))) eqn:Hop.
  - cbn [fst]. unfold set_res. rewrite !res_get_set_other; [reflexivity| |].
    + right. intros <-. rewrite Hop in HK. discriminate.
    + right. intros <-. vm_compute in HK. discriminate.
  - repeat match goal with |- context [if ?b then _ else _] => destruct b end;
      reflexivity.
Qed.

Lemma cogs_rows_writes (rs : list Row) (st : results * Cogs) (y : year_id) (K : string) :
  is_opening_rm (toLowerCase K) = false ->
  res_get (fst (fold_left (cogs_row yId yearIndex prev) rs st)) y K
  = res_get (fst st) y K.
Proof.
  intros HK. revert st. induction rs as [|row rs IH]; intros st; [reflexivity|].
  cbn [fold_left]. rewrite IH. now apply cogs_row_writes.
Qed.

Lemma phase_cogs_writes (R : results) (y : year_id) (K : string) :
  is_opening_rm (toLowerCase K) = false ->
  res_get (fst (phase_cogs allGroups yId yearIndex prev R)) y K = res_get R y K.
Proof.
  intros HK. unfold phase_cogs. destruct (cogsGroup allGroups); [|reflexivity].
  now rewrite cogs_rows_writes.
Qed.

Lemma opening_value_stable (R R' : results) (v : num) :
  res_get R' yId "_forced_opening_stock_rm" = res_get R yId "_forced_opening_stock_rm" ->
  prev_get R' prev "Closing Stock (Raw Materials)"
  = prev_get R prev "Closing Stock (Raw Materials)" ->
  opening_rm_value yId yearIndex prev R' v = opening_rm_value yId yearIndex prev R v.
Proof. intros H1 H2. unfold opening_rm_value. now rewrite H1, H2. Qed.

(** When every opening row is given the same opening stock [c], the loop
    ends with [c] as soon as the group has such a row. *)
Lemma cogs_rows_open (c : num) (rs : list Row) (R0 : results) (acc : Cogs) :
  (forall v, opening_rm_value yId yearIndex prev R0 v = c) ->
  openStockRM (snd (fold_left (cogs_row yId yearIndex prev) rs (R0, acc)))
  = if existsb opening_rm_row rs then c else openStockRM acc.
Proof.
  revert R0 acc. induction rs as [|row rs IH]; intros R0 acc Hc; [reflexivity|].
  cbn [fold_left existsb].
  assert (Hstep : forall v,
             opening_rm_value yId yearIndex prev
               (fst (cogs_row yId yearIndex prev (R0, acc) row)) v = c).
  { intros v. rewrite (opening_value_stable R0); [apply Hc| |].
    - now rewrite cogs_row_writes.
    - apply prev_get_ext. intros y. now rewrite cogs_row_writes. }
  assert (Hopen : openStockRM (snd (cogs_row yId yearIndex prev (R0, acc) row))
                  = if opening_rm_row row then c else openStockRM acc).
  { unfold cogs_row, opening_rm_row, is_input_row.
    destruct (is_hidden row); [reflexivity|].
    destruct (is_calculated row); [reflexivity|].
    destruct (is_total_row row); [reflexivity|].
    destruct (startsWith (r_name row) "="); [reflexivity|]. cbn [negb andb].
    destruct (is_opening_rm (toLowerCase (r_name row))).
    - cbn [snd openStockRM]. apply Hc.
    - repeat match goal with |- context [if ?b then _ else _] => destruct b end;
        reflexivity. }
  destruct (cogs_row yId yearIndex prev (R0, acc) row) as [R1 acc1].
  cbn [fst snd] in *. rewrite (IH R1 acc1 Hstep), Hopen.
  now destruct (opening_rm_row row), (existsb opening_rm_row rs).
Qed.

Lemma phase_gpr_open (R0 : results) (rev : num) (cg : Cogs) :
  openStockRM (snd (phase_gpr yearSettings gprSettings yId yearIndex prev R0 rev cg))
  = openStockRM cg.
Proof.
  unfold phase_gpr.
  repeat match goal with |- context [if ?b then _ else _] => destruct b end;
    reflexivity.
Qed.

(** The opening stock that the year works with, when every opening row of
    the cost group is given [c]. *)
Lemma year_opening_stock (R : results) (g : Group) (c : num) :
  cogsGroup allGroups = Some g ->
  existsb opening_rm_row (rows g) = true ->
  (forall v, opening_rm_value yId yearIndex prev R v = c) ->
  let tr := snd (body R) in
  openStockRM (t_cogs tr) = c /\
  rmConsumed (t_chain tr)
  = (c + purchasesRM (t_cogs tr) + otherRMCosts (t_cogs tr) - closeStockRM (t_cogs tr))%num.
Proof.
  intros Hg Hex Hc. cbn zeta. open_year_body. cbn [snd t_cogs t_chain].
  assert (Hc1 : forall v, opening_rm_value yId yearIndex prev R1 v = c).
  { intros v. rewrite <- (Hc v). back E1. clear. unfold phase_revenue. cbn [fst].
    apply opening_value_stable; now lookup_sets. }
  assert (Ho : openStockRM c0 = c).
  { assert (Hv : c0 = snd (phase_cogs allGroups yId yearIndex prev R1)) by now rewrite E2.
    rewrite Hv. unfold phase_cogs. rewrite Hg. rewrite (cogs_rows_open c) by exact Hc1.
    now rewrite Hex. }
  assert (Hcg : openStockRM cg = c).
  { assert (Hv : cg = snd (phase_gpr yearSettings gprSettings yId yearIndex prev R2 rev c0))
      by now rewrite E3.
    rewrite Hv, phase_gpr_open. exact Ho. }
  assert (Hch : ch = cost_chain rev cg).
  { assert (Hv : ch = snd (phase_chain yId R3 rev cg)) by now rewrite E4.
    rewrite Hv. reflexivity. }
  split; [exact Hcg|]. rewrite Hch. cbn [cost_chain rmConsumed]. now rewrite Hcg.
Qed.

Lemma last_cons_default {A} (x d : A) (l : list A) :
  List.last (x :: l) d = List.last l x.
Proof.
  revert x d. induction l as [|y l IH]; intros x d; [reflexivity|].
  change (List.last (x :: y :: l) d) with (List.last (y :: l) d).
  now rewrite !IH.
Qed.

(** When every opening row is given its own grid value, the loop ends with
    the grid value of the last such row. *)
Lemma cogs_rows_open_input (rs : list Row) (R0 : results) (acc : Cogs) :
  (forall v, opening_rm_value yId yearIndex prev R0 v = v) ->
  openStockRM (snd (fold_left (cogs_row yId yearIndex prev) rs (R0, acc)))
  = List.last (List.map (fun row => row_value row yId) (List.filter opening_rm_row rs))
      (openStockRM acc).
Proof.
  revert R0 acc. induction rs as [|row rs IH]; intros R0 acc Hc; [reflexivity|].
  cbn [fold_left List.filter].
  assert (Hstep : forall v,
             opening_rm_value yId yearIndex prev
               (fst (cogs_row yId yearIndex prev (R0, acc) row)) v = v).
  { intros v. rewrite (opening_value_stable R0); [apply Hc| |].
    - now rewrite cogs_row_writes.
    - apply prev_get_ext. intros y. now rewrite cogs_row_writes. }
  assert (Hopen : openStockRM (snd (cogs_row yId yearIndex prev (R0, acc) row))
                  = if opening_rm_row row then row_value row yId else openStockRM acc).
  { unfold cogs_row, opening_rm_row, is_input_row.
    destruct (is_hidden row); [reflexivity|].
    destruct (is_calculated row); [reflexivity|].
    destruct (is_total_row row); [reflexivity|].
    destruct (startsWith (r_name row) "="); [reflexivity|]. cbn [negb andb].
    destruct (is_opening_rm (toLowerCase (r_name row))).
    - cbn [snd openStockRM]. apply Hc.
    - repeat match goal with |- context [if ?b then _ else _] => destruct b end;
        reflexivity. }
  destruct (cogs_row yId yearIndex prev (R0, acc) row) as [R1 acc1].
  cbn [fst snd] in *. rewrite (IH R1 acc1 Hstep), Hopen.
  destruct (opening_rm_row row); [|reflexivity].
  cbn [List.map]. now rewrite last_cons_default.
Qed.

(** The opening stock that the year works with, when every opening row of
    the cost group is given its own grid value. *)
Lemma year_opening_input (R : results) (g : Group) :
  cogsGroup allGroups = Some g ->
  (forall v, opening_rm_value yId yearIndex prev R v = v) ->
  openStockRM (t_cogs (snd (body R))) = last_opening_input yId (rows g).
Proof.
  intros Hg Hc. open_year_body. cbn [snd t_cogs].
  assert (Hc1 : forall v, opening_rm_value yId yearIndex prev R1 v = v).
  { intros v. rewrite <- (Hc v) at 2. back E1. clear. unfold phase_revenue. cbn [fst].
    apply opening_value_stable; now lookup_sets. }
  assert (Ho : openStockRM c0 = last_opening_input yId (rows g)).
  { assert (Hv : c0 = snd (phase_cogs allGroups yId yearIndex prev R1)) by now rewrite E2.
    rewrite Hv. unfold phase_cogs. rewrite Hg.
    rewrite cogs_rows_open_input by exact Hc1. reflexivity. }
  assert (Hv : cg = snd (phase_gpr yearSettings gprSettings yId yearIndex prev R2 rev c0))
    by now rewrite E3.
  rewrite Hv, phase_gpr_open. exact Ho.
Qed.

(** The raw material consumed is the opening stock plus the purchases and
    the other costs, less the closing stock. *)
Lemma year_rm_consumed (R : results) :
  let tr := snd (body R) in
  rmConsumed (t_chain tr)
  = (openStockRM (t_cogs tr) + purchasesRM (t_cogs tr) + otherRMCosts (t_cogs tr)
     - closeStockRM (t_cogs tr))%num.
Proof.
  cbn zeta. open_year_body. cbn [snd t_cogs t_chain].
  assert (Hv : ch = snd (phase_chain yId R3 rev cg)) by now rewrite E4.
  rewrite Hv. reflexivity.
Qed.

(** C1, amended. After the first year, without a forced opening stock, when
    the cost group has an opening raw-material row that is taken into
    account, the opening stock the year works with is the closing stock
    that the previous year stored, provided this is a number other than 0,
    and the grid value of the row then plays no part; when that closing
    stock is 0, NaN or missing, the opening stock is the grid value of the
    row (of the last such row, when there are several). In both cases it is
    the opening stock that enters the raw material consumed. *)
Theorem opening_stock_carried_forward (R : results) (g : Group) :
  (0 < yearIndex)%nat ->
  res_get R yId "_forced_opening_stock_rm" = None ->
  cogsGroup allGroups = Some g ->
  existsb opening_rm_row (rows g) = true ->
  let tr := snd (body R) in
  let closing := prev_get R prev "Closing Stock (Raw Materials)" in
  (forall c, closing = Some c -> truthy c = true -> openStockRM (t_cogs tr) = c) /\
  (closing = None \/ closing = Some NaN \/ (exists q, closing = Some (Fin q) /\ q == 0) ->
   openStockRM (t_cogs tr) = last_opening_input yId (rows g)) /\
  rmConsumed (t_chain tr)
  = (openStockRM (t_cogs tr) + purchasesRM (t_cogs tr) + otherRMCosts (t_cogs tr)
     - closeStockRM (t_cogs tr))%num.
Proof.
  intros Hidx Hf Hg Hex. cbn zeta. apply Nat.ltb_lt in Hidx.
  split; [|split].
  - intros c Hp Hc. apply (year_opening_stock R g c Hg Hex).
    intros v. unfold opening_rm_value. rewrite Hf, Hidx, Hp. cbn. unfold nor.
    now rewrite Hc.
  - intros Hp. apply (year_opening_input R g Hg).
    intros v. unfold opening_rm_value. rewrite Hf, Hidx.
    destruct Hp as [-> | [-> | (q & -> & Hq)]]; [reflexivity | reflexivity |].
    cbn. unfold nor, truthy. apply Qeq_bool_iff in Hq. now rewrite Hq.
  - apply year_rm_consumed.
Qed.

(** A forced opening stock takes precedence over everything else. *)
Lemma forced_opening_stock_used (R : results) (g : Group) (f : num) :
  res_get R yId "_forced_opening_stock_rm" = Some f ->
  cogsGroup allGroups = Some g ->
  existsb opening_rm_row (rows g) = true ->
  openStockRM (t_cogs (snd (body R))) = f.
Proof.
  intros Hf Hg Hex. apply (year_opening_stock R g f Hg Hex).
  intros v. unfold opening_rm_value. now rewrite Hf.
Qed.

(** *** Target gross-profit ratio *)

(** With the closing stock solved for a target margin, the cost chain
    yields exactly that margin on the revenue. *)
Lemma solved_stock_reaches_target (c : Cogs) (rev target : num) :
  cogs_finite c = true -> is_finite rev = true -> is_finite target = true ->
  num_eq (grossProfit (cost_chain rev (with_close c (solved_closing_stock c rev target))))
         (rev * (target / n100))%num.
Proof.
  destruct c as [o cl p x m ow cw og cf]. unfold cogs_finite. cbn [openStockRM
    closeStockRM purchasesRM otherRMCosts manufacturingExpenses openWIP closeWIP
    openFG closeFG].
  intros Hc Hr Ht.
  repeat (apply andb_true_iff in Hc as [Hc ?]).
  repeat match goal with
         | H : is_finite ?a = true |- _ => destruct a; try discriminate H; clear H
         end.
  assert (H100 : forall t, (Fin t / n100)%num = Fin (t / inject_Z 100)) by reflexivity.
  unfold solved_closing_stock, cost_chain, with_close.
  cbn [openStockRM closeStockRM purchasesRM otherRMCosts manufacturingExpenses
       openWIP closeWIP openFG closeFG grossProfit].
  rewrite H100. cbn [nmul nadd nsub nneg num_eq]. unfold Qdiv. ring.
Qed.

(** What the target-margin mode does in a year after the first whose
    revenue is positive: the target is the margin stored by the previous
    year plus the increment, the closing stock is the solved one, and it is
    stored as forced opening stock under the id that follows in the
    caller's list of years. *)
Lemma target_margin_year (R : results) :
  gpr_enabled gprSettings = true ->
  (0 < yearIndex)%nat ->
  let R' := fst (body R) in
  let tr := snd (body R) in
  let target :=
    (oor (prev_get R prev "_actual_gpr") n0 + gpr_increment gprSettings yearIndex)%num in
  ngt (t_totalRevenue tr) n0 = true ->
  t_cogs tr
  = with_close (t_cogs_input tr)
      (solved_closing_stock (t_cogs_input tr) (t_totalRevenue tr) target) /\
  (cogs_finite (t_cogs_input tr) = true -> is_finite (t_totalRevenue tr) = true ->
   is_finite target = true ->
   num_eq (grossProfit (t_chain tr)) (t_totalRevenue tr * (target / n100))%num) /\
  (forall next,
     nth_error yearSettings (yearIndex + 1) = Some next -> yId <> id next ->
     res_get R' (id next) "_forced_opening_stock_rm" = Some (closeStockRM (t_cogs tr))).
Proof.
  intros Hen Hidx. cbn zeta. open_year_body.
  cbn [fst snd t_cogs t_cogs_input t_totalRevenue t_chain]. intros Hrev.
  assert (Hprev : prev_get R2 prev "_actual_gpr" = prev_get R prev "_actual_gpr").
  { apply prev_get_ext. intros y.
    back E2. rewrite phase_cogs_writes by reflexivity.
    back E1. clear. unfold phase_revenue. cbn [fst]. unfold set_res.
    now rewrite !res_get_set_other by (right; discriminate). }
  assert (Hv : (R3, cg) = phase_gpr yearSettings gprSettings yId yearIndex prev R2 rev c0)
    by now rewrite E3.
  unfold phase_gpr in Hv. rewrite Hen, Hrev in Hv. cbn [andb] in Hv.
  destruct yearIndex as [|n] eqn:Hn; [inversion Hidx|]. cbn [Nat.eqb] in Hv.
  unfold targetGPR_of in Hv. rewrite Hprev in Hv.
  assert (Hcg : cg = with_close c0
                       (solved_closing_stock c0 rev
                          (oor (prev_get R prev "_actual_gpr") n0
                           + gpr_increment gprSettings (S n))%num)).
  { apply (f_equal snd) in Hv. cbn [snd] in Hv. exact Hv. }
  assert (Hch : ch = cost_chain rev cg).
  { assert (Hw : ch = snd (phase_chain yId R3 rev cg)) by now rewrite E4.
    rewrite Hw. reflexivity. }
  split; [exact Hcg|]. split.
  - intros Hfin Hr Ht. rewrite Hch, Hcg.
    apply solved_stock_reaches_target; assumption.
  - intros next Hnext Hne.
    assert (H3 : res_get R3 (id next) forced_key = Some (closeStockRM cg)).
    { apply (f_equal fst) in Hv. cbn [fst] in Hv. rewrite Hv, Hcg.
      assert (Hlt : (S n + 1 <? length yearSettings)%nat = true).
      { apply Nat.ltb_lt. apply nth_error_Some. rewrite Hnext. discriminate. }
      rewrite Hlt, Hnext. cbn [with_close closeStockRM]. unfold forced_key.
      rewrite res_get_set_eq. reflexivity. }
    assert (Hs : yId <> id next \/
                 forced_key = carry_key /\ no_row_named carry_key allGroups)
      by (left; exact Hne).
    pose proof (kept_refl (id next) forced_key R3) as K3.
    assert (K4 : kept_at (id next) forced_key R3 R4) by kept_from E4 kept_chain.
    assert (K5 : kept_at (id next) forced_key R3 R5) by kept_from E5 kept_wc_interest.
    assert (K6 : kept_at (id next) forced_key R3 R6) by kept_from E6 kept_sga.
    assert (K7 : kept_at (id next) forced_key R3 R7) by kept_from E7 kept_interest.
    assert (K8 : kept_at (id next) forced_key R3 R8) by kept_from E8 kept_profit.
    assert (K9 : kept_at (id next) forced_key R3 R9) by kept_from E9 kept_current_assets.
    assert (K10 : kept_at (id next) forced_key R3 R10)
      by kept_from E10 kept_fixed_assets_other.
    assert (K11 : kept_at (id next) forced_key R3 R11)
      by kept_from E11 kept_current_liabilities.
    assert (K12 : kept_at (id next) forced_key R3 R12)
      by kept_from E12 kept_term_liabilities.
    assert (K13 : kept_at (id next) forced_key R3 R13) by kept_from E13 kept_net_worth.
    assert (K14 : kept_at (id next) forced_key R3 R14)
      by kept_from E14 kept_total_liabilities.
    assert (K15 : kept_at (id next) forced_key R3 R15) by kept_from E15 kept_operating.
    assert (K16 : kept_at (id next) forced_key R3 R16) by kept_from E16 kept_investing.
    assert (K17 : kept_at (id next) forced_key R3 R17) by kept_from E17 kept_financing.
    assert (K18 : kept_at (id next) forced_key R3 R18) by kept_from E18 kept_cash.
    assert (K19 : kept_at (id next) forced_key R3 R19) by kept_from E19 kept_ratios.
    unfold kept_at, forced_key in K19, H3. rewrite K19. exact H3.
Qed.

End Year.

End YearProps.

(** ** Scenarios *)

Module Scenarios.

Import Engine Resolver Tax SpecWords Footprint Examples YearProps.

(** C1, as stated, fails. In the two-year report the first year closes
    with a raw-material stock of 0 and no opening stock is forced on the
    second year; the second year then works with the 77 of its own grid
    cell, not with the previous closing stock. *)
Lemma opening_stock_input_used_after_zero_closing :
  res_get stock_after_first 2%Z "_forced_opening_stock_rm" = None /\
  res_get stock_after_first 1%Z "Closing Stock (Raw Materials)" = Some (of_Z 0) /\
  option_map (fun t => openStockRM (t_cogs t)) (stock_trace 1) = Some (of_Z 77) /\
  ~ num_eq (of_Z 77) (of_Z 0).
Proof.
  split; [vm_compute; reflexivity|].
  split; [vm_compute; reflexivity|].
  split; [vm_compute; reflexivity|].
  vm_compute. discriminate.
Qed.

(** The second year of the two-year report opens with 60 after a first
    year that closed with a stock of 60, and with the 77 of its own grid
    cell after the first year of the report, which closes with 0. *)
Lemma opening_stock_carried_forward_witness :
  openStockRM (t_cogs (snd (stock_second_year [] closed_with_60))) = of_Z 60 /\
  openStockRM (t_cogs (snd (stock_second_year [] stock_after_first)))
  = last_opening_input 2%Z (rows stock_cogs) /\
  last_opening_input 2%Z (rows stock_cogs) = of_Z 77.
Proof.
  unfold stock_second_year. split; [|split].
  - apply (proj1 (opening_stock_carried_forward stock_groups two_years "domestic_22" []
                    None no_wc [] [] 2%Z 1%nat (Some 1%Z) closed_with_60 stock_cogs
                    Nat.lt_0_1 eq_refl eq_refl eq_refl) (of_Z 60)); reflexivity.
  - apply (proj1 (proj2 (opening_stock_carried_forward stock_groups two_years
                           "domestic_22" [] None no_wc [] [] 2%Z 1%nat (Some 1%Z)
                           stock_after_first stock_cogs Nat.lt_0_1
                           ltac:(vm_compute; reflexivity) eq_refl eq_refl))).
    right. right. exists 0. split; [vm_compute; reflexivity | reflexivity].
  - reflexivity.
Defined.

(** C2, as stated, fails. In the report whose sales of the first year do
    not hold a number, the first year closes with a cash balance that is
    NaN, and the second year opens with 0, not with that closing cash. *)
Lemma opening_cash_zero_after_nan_closing :
  res_get nan_cells_run 1%Z "Closing Cash Balance (as per CFS)" = Some NaN /\
  option_map (fun t => openingCash (t_cash t)) (nan_cells_trace 1) = Some (of_Z 0) /\
  res_get nan_cells_run 2%Z "Add: Opening Cash Balance" = Some (of_Z 0) /\
  ~ num_same (of_Z 0) NaN.
Proof.
  split; [vm_compute; reflexivity|].
  split; [vm_compute; reflexivity|].
  split; [vm_compute; reflexivity|].
  intros H. exact H.
Qed.

(** The second year of the two-year report opens with the closing cash of
    the first. *)
Lemma closing_cash_authoritative_witness :
  exists c,
    res_get stock_after_first 1%Z "Closing Cash Balance (as per CFS)" = Some c /\
    num_same (openingCash (t_cash (snd (stock_second_year [] stock_after_first)))) c.
Proof.
  eexists. split; [vm_compute; reflexivity|].
  unfold stock_second_year.
  pose proof (closing_cash_authoritative stock_groups two_years "domestic_22" []
                None no_wc [] [] 2%Z 1%nat (Some 1%Z) stock_after_first) as H.
  cbn zeta in H. destruct H as (_ & _ & _ & _ & _ & H & _).
  refine (proj1 (H 1%Z _ _ _ _ _) _).
  - apply Nat.lt_0_1.
  - reflexivity.
  - discriminate.
  - repeat split; vm_compute; reflexivity.
  - reflexivity.
Defined.



(** C8, as stated, fails. A revenue cell that does not hold a number makes
    the revenue NaN, and the net profit margin, whose denominator it is,
    comes out as NaN. Nor is a debt-equity ratio written: no entry of the
    year bears a label with "equity" in it. *)
Lemma ratio_nan_from_nan_input :
  res_get nan_run 1%Z "Total Revenue" = Some NaN /\
  res_get nan_run 1%Z "Net profit margin" = Some NaN /\
  forallb (fun entry => negb (includes (toLowerCase (fst entry)) "equity"))
    (map_to_list (year_map nan_run 1%Z)) = true.
Proof. repeat split; vm_compute; reflexivity. Qed.

(** Rows that are guarded and have finite numerators and denominators
    have finite values. *)
Lemma guarded_rows_finite (P : RatioRow -> Prop) (l : list RatioRow) :
  List.Forall (fun r => P r /\ guarded r) l ->
  forallb (fun r => is_finite (rr_numer r) && is_finite (rr_den r)) l = true ->
  List.Forall (fun r => is_finite (rr_value r) = true) l.
Proof.
  induction l as [|r l IH]; intros H Hb; [apply List.Forall_nil|].
  cbn [forallb] in Hb. apply andb_true_iff in Hb. destruct Hb as [Hr Hl].
  apply andb_true_iff in Hr. destruct Hr as [Hn Hd].
  pose proof (List.Forall_inv H) as Hhd. cbv beta in Hhd.
  destruct Hhd as (_ & _ & Hfin).
  apply List.Forall_cons; [exact (Hfin Hn Hd)|].
  apply IH; [exact (List.Forall_inv_tail H) | exact Hl].
Qed.

(** In the first year of the two-year report every written ratio is a
    finite number. *)
Lemma ratios_guarded_witness :
  List.Forall (fun r => is_finite (rr_value r) = true)
    (written_ratios [] 1%Z 0%nat
       (snd (year_body stock_groups two_years "domestic_22" [] None no_wc
               [] [] 1%Z 0%nat None (init_results two_years)))).
Proof.
  apply (guarded_rows_finite _ _
           (proj1 (ratios_guarded stock_groups two_years "domestic_22" []
                     None no_wc [] [] 1%Z 0%nat None (init_results two_years)))).
  vm_compute. reflexivity.
Defined.

(** C4, on years handed over out of order (2025, 2024, 2027, 2026). The
    year 2025 stores its solved closing stock of 150 as forced opening stock
    of the year 2027, which follows it in the caller's list, and the year
    2026 stores its 250 on itself. So 2027 opens with 150, not with the 250
    that 2026 closed with. On the same years in order, 2027 opens with 250. *)
Theorem forced_stock_lands_in_wrong_year :
  exists o c f o',
    res_get (margin_run shuffled_years) 4%Z "Opening Stock (Raw Materials)" = Some o /\
    res_get (margin_run shuffled_years) 3%Z "Closing Stock (Raw Materials)" = Some c /\
    res_get (margin_run shuffled_years) 3%Z "_forced_opening_stock_rm" = Some f /\
    res_get (margin_run ordered_years) 4%Z "Opening Stock (Raw Materials)" = Some o' /\
    num_eq o (of_Z 150) /\ num_eq c (of_Z 250) /\ num_eq f (of_Z 250) /\
    num_eq o' (of_Z 250).
Proof.
  do 4 eexists.
  repeat (split; [vm_compute; reflexivity|]). vm_compute. reflexivity.
Qed.

End Scenarios.

(** ** More on the tax calculator *)

Module TaxMore.

Import Tax.

Ltac unfold_tax :=
  unfold calculateTax, slab, top_slab, ngt, nlt, nle, nmin, nle, Qltb, of_Z, dec;
  cbn [String.eqb proprietorship domestic_22 llp Ascii.eqb Bool.eqb andb].

(** The three recognized regimes, and the others. *)
Lemma regime_cases (regime : string) :
  regime = domestic_22 \/ regime = llp \/ regime = proprietorship \/
  (String.eqb regime domestic_22 = false /\ String.eqb regime llp = false /\
   String.eqb regime proprietorship = false).
Proof.
  destruct (String.eqb regime domestic_22) eqn:E1;
    [left; now apply String.eqb_eq|].
  destruct (String.eqb regime llp) eqn:E2;
    [right; left; now apply String.eqb_eq|].
  destruct (String.eqb regime proprietorship) eqn:E3;
    [right; right; left; now apply String.eqb_eq|].
  right; right; right. repeat split.
Qed.

(** The total as a function of a finite profit, regime by regime. *)
Lemma total_fin (p : Q) (regime : string) :
  exists t, total (calculateTax (Fin p) regime) = Fin t /\ 0 <= t /\
            (0 < p -> t <= p * (34944 # 100000)) /\ (p <= 0 -> t == 0).
Proof.
  destruct (regime_cases regime) as [-> | [-> | [-> | (E1 & E2 & E3)]]].
  - unfold_tax. qbool; cbn -[Qplus Qmult Qopp]; eexists; (split; [reflexivity|]);
      unfold inject_Z in *; (split; [|split; intros ?]); lra.
  - unfold_tax. qbool; cbn -[Qplus Qmult Qopp]; eexists; (split; [reflexivity|]);
      unfold inject_Z in *; (split; [|split; intros ?]); lra.
  - unfold_tax. qbool; cbn -[Qplus Qmult Qopp]; eexists; (split; [reflexivity|]);
      unfold inject_Z in *; (split; [|split; intros ?]); lra.
  - unfold calculateTax. rewrite E1, E2, E3. unfold nle, of_Z.
    qbool; cbn -[Qplus Qmult Qopp]; eexists; (split; [reflexivity|]);
      unfold inject_Z in *; (split; [|split; intros ?]); lra.
Qed.

Lemma total_mono_fin (p1 p2 : Q) (regime : string) :
  p1 <= p2 ->
  nle (total (calculateTax (Fin p1) regime)) (total (calculateTax (Fin p2) regime)) = true.
Proof.
  intros Hle.
  destruct (regime_cases regime) as [-> | [-> | [-> | (E1 & E2 & E3)]]].
  - unfold_tax. qbool; cbn -[Qplus Qmult Qopp Qle_bool]; apply Qle_bool_iff;
      unfold inject_Z in *; lra.
  - unfold_tax. qbool; cbn -[Qplus Qmult Qopp Qle_bool]; apply Qle_bool_iff;
      unfold inject_Z in *; lra.
  - unfold_tax. qbool; cbn -[Qplus Qmult Qopp Qle_bool]; apply Qle_bool_iff;
      unfold inject_Z in *; lra.
  - unfold calculateTax. rewrite E1, E2, E3. unfold nle, of_Z.
    qbool; cbn -[Qplus Qmult Qopp Qle_bool]; apply Qle_bool_iff;
      unfold inject_Z in *; lra.
Qed.

(** Against an unbounded profit. *)
Lemma total_le_pinf (x : Q) (regime : string) :
  nle (total (calculateTax (Fin x) regime)) (total (calculateTax PInf regime)) = true.
Proof.
  destruct (total_fin x regime) as (t & Ht & _).
  destruct (regime_cases regime) as [-> | [-> | [-> | (E1 & E2 & E3)]]].
  - rewrite Ht. reflexivity.
  - rewrite Ht. reflexivity.
  - rewrite Ht. reflexivity.
  - unfold calculateTax. rewrite E1, E2, E3.
    destruct (nle (Fin x) 0%Z); reflexivity.
Qed.

Lemma total_pinf_nonneg (regime : string) :
  nle (Fin 0) (total (calculateTax PInf regime)) = true.
Proof.
  destruct (regime_cases regime) as [-> | [-> | [-> | (E1 & E2 & E3)]]];
    try reflexivity.
  unfold calculateTax. rewrite E1, E2, E3. reflexivity.
Qed.

(** X3. Whatever the regime, the total charged on a finite positive profit is
    a finite number that is not negative and is less than the profit: the
    tax never takes the whole profit. *)
Theorem tax_never_exceeds_profit (p : Q) (regime : string) :
  0 < p ->
  exists t, total (calculateTax (Fin p) regime) = Fin t /\ 0 <= t /\ t < p.
Proof.
  intros Hp. destruct (total_fin p regime) as (t & Ht & H0 & Hb & _).
  specialize (Hb Hp). exists t. repeat split; try assumption. lra.
Qed.

Lemma tax_never_exceeds_profit_witness :
  exists t, total (calculateTax (Fin 2000000) proprietorship) = Fin t /\ t < 2000000.
Proof.
  destruct (tax_never_exceeds_profit 2000000 proprietorship) as (t & Ht & _ & Hlt);
    [reflexivity|].
  exists t. split; assumption.
Defined.

(** X4. Whatever the regime, recognized or not, a larger profit is never
    charged a smaller total. *)
Theorem total_tax_monotone (p1 p2 : num) (regime : string) :
  nle p1 p2 = true ->
  nle (total (calculateTax p1 regime)) (total (calculateTax p2 regime)) = true.
Proof.
  destruct p1 as [x| | |], p2 as [y| | |]; cbn [nle]; try congruence; intros H.
  - apply total_mono_fin. now apply Qle_bool_iff.
  - apply total_le_pinf.
  - destruct (regime_cases regime) as [-> | [-> | [-> | (E1 & E2 & E3)]]];
      try reflexivity.
    unfold calculateTax. rewrite E1, E2, E3. reflexivity.
  - change (total (calculateTax NInf regime)) with (Fin 0).
    destruct (total_fin y regime) as (t & -> & Ht & _).
    cbn. now apply Qle_bool_iff.
  - change (total (calculateTax NInf regime)) with (Fin 0).
    apply total_pinf_nonneg.
  - reflexivity.
Qed.

Lemma total_tax_monotone_witness :
  nle (total (calculateTax (of_Z 9000000) llp)) (total (calculateTax (of_Z 11000000) llp))
  = true.
Proof.
  apply (total_tax_monotone (of_Z 9000000) (of_Z 11000000) llp). reflexivity.
Defined.

(** X5. The rebate of the progressive regime is a cliff: as soon as the profit
    exceeds 7 lakh the full slab tax is due, which is 20000 at least. *)
Theorem rebate_is_a_cliff (p : Q) :
  700000 < p ->
  exists t, tax (calculateTax (Fin p) proprietorship) = Fin t /\ 20000 <= t.
Proof.
  intros Hp. unfold_tax.
  qbool; cbn -[Qplus Qmult Qopp]; eexists; (split; [reflexivity|]);
    unfold inject_Z in *; lra.
Qed.

Lemma rebate_is_a_cliff_witness :
  exists t, tax (calculateTax (Fin 700001) proprietorship) = Fin t /\ 20000 <= t.
Proof.
  apply (rebate_is_a_cliff 700001). reflexivity.
Defined.

End TaxMore.

(** ** More on numbers *)

Module NumProps.

Lemma Qplus_assoc_eq (x y z : Q) : (x + (y + z) = (x + y) + z)%Q.
Proof.
  destruct x as [a b], y as [c d], z as [e f]. unfold Qplus. cbn [Qnum Qden].
  f_equal.
  - rewrite !Pos2Z.inj_mul. ring.
  - apply Pos.mul_assoc.
Qed.

Lemma Qplus_0_l_eq (x : Q) : (0 + x = x)%Q.
Proof.
  destruct x as [a b]. unfold Qplus. cbn [Qnum Qden]. f_equal. ring.
Qed.

Lemma Qplus_0_r_eq (x : Q) : (x + 0 = x)%Q.
Proof.
  destruct x as [a b]. unfold Qplus. cbn [Qnum Qden]. f_equal.
  - ring.
  - apply Pos.mul_1_r.
Qed.

Lemma nadd_assoc (a b c : num) : (a + (b + c) = (a + b) + c)%num.
Proof.
  destruct a, b, c; cbn [nadd]; try reflexivity. f_equal. apply Qplus_assoc_eq.
Qed.

Lemma nadd_0_l (a : num) : (Fin 0 + a = a)%num.
Proof. destruct a; cbn [nadd]; try reflexivity. f_equal. apply Qplus_0_l_eq. Qed.

Lemma nadd_0_r (a : num) : (a + Fin 0 = a)%num.
Proof. destruct a; cbn [nadd]; try reflexivity. f_equal. apply Qplus_0_r_eq. Qed.

Lemma nadd_finite (a b : num) :
  is_finite a = true -> is_finite b = true -> is_finite (a + b)%num = true.
Proof. destruct a, b; cbn; congruence. Qed.

(** A left fold that adds one term per element starts from any
    accumulator as from 0. *)
Lemma fold_add_shift {A} (f : num -> A -> num) (term : A -> num) (l : list A) :
  (forall acc x, f acc x = (acc + term x)%num) ->
  forall acc, fold_left f l acc = (acc + fold_left f l (Fin 0))%num.
Proof.
  intros Hf. induction l as [|x l IH]; intros acc; cbn [fold_left].
  - symmetry. apply nadd_0_r.
  - rewrite IH. rewrite (IH (f (Fin 0) x)). rewrite !Hf. rewrite nadd_0_l.
    symmetry. apply nadd_assoc.
Qed.

End NumProps.

(** ** More on the resolver *)

Module ResolverMore.

Import Resolver StoreProps NumProps Examples.

(** What a row adds to the sum of its group. *)
Lemma sumGroup_row_term (yearId : year_id) (excludeNames : list string) :
  exists term : Row -> num,
    (forall acc row, sumGroup_row yearId excludeNames acc row = (acc + term row)%num) /\
    (forall row, is_hidden row || isExcluded excludeNames row || is_calculated row
                 || is_total_row row || startsWith (r_name row) "=" = true ->
                 term row = Fin 0) /\
    (forall row, is_finite (term row) = true \/ term row = row_value row yearId).
Proof.
  exists (fun row => sumGroup_row yearId excludeNames (Fin 0) row).
  pose proof nadd_0_r as H0.
  repeat split.
  - intros acc row. unfold sumGroup_row.
    destruct (is_hidden row); [now rewrite H0|].
    destruct (negb (isExcluded excludeNames row) && negb (is_calculated row) &&
              negb (is_total_row row) && negb (startsWith (r_name row) "="));
      [|now rewrite H0].
    cbn zeta. change (of_Z 0) with (Fin 0). now rewrite nadd_0_l.
  - intros row H. unfold sumGroup_row.
    destruct (is_hidden row); [reflexivity|].
    destruct (isExcluded excludeNames row); [reflexivity|].
    destruct (is_calculated row); [reflexivity|].
    destruct (is_total_row row); [reflexivity|].
    cbn in H. now rewrite H.
  - intros row. unfold sumGroup_row.
    destruct (is_hidden row); [now left|].
    destruct (negb (isExcluded excludeNames row) && negb (is_calculated row) &&
              negb (is_total_row row) && negb (startsWith (r_name row) "="));
      [|now left].
    cbn zeta. change (of_Z 0) with (Fin 0). rewrite nadd_0_l.
    destruct (row_value row yearId); cbn; auto.
Qed.

(** X6. A value written under a key is what the lookup returns for that key
    from then on, whatever the grid holds; the lookups of the other keys
    and years are not affected. *)
Theorem getVal_reads_back_written_value (gs : list Group) (R : results)
    (y : year_id) (k : string) (v : num) :
  getVal gs (res_set R y k v) y k = v /\
  (forall y' k', y <> y' \/ k <> k' ->
                 getVal gs (res_set R y k v) y' k' = getVal gs R y' k').
Proof.
  split.
  - unfold getVal. now rewrite res_get_set_eq.
  - intros y' k' H. unfold getVal. now rewrite res_get_set_other.
Qed.

Lemma getVal_reads_back_written_value_witness :
  getVal padded_groups (res_set ∅ 1%Z "Depreciation" (of_Z 7)) 1%Z "Depreciation " = of_Z 5.
Proof.
  rewrite (proj2 (getVal_reads_back_written_value padded_groups ∅ 1%Z "Depreciation"
                    (of_Z 7)) 1%Z "Depreciation ").
  - reflexivity.
  - right. discriminate.
Defined.

(** The sum of a group over the rows [rs1 ++ rs2] is the sum over [rs1]
    plus the sum over [rs2]. *)
Lemma sumGroup_rows_app (yearId : year_id) (excludeNames : list string)
    (rs1 rs2 : list Row) :
  sumGroup_rows yearId excludeNames (rs1 ++ rs2)
  = (sumGroup_rows yearId excludeNames rs1 + sumGroup_rows yearId excludeNames rs2)%num.
Proof.
  destruct (sumGroup_row_term yearId excludeNames) as (term & Hterm & _).
  unfold sumGroup_rows. rewrite fold_left_app.
  change (of_Z 0) with (Fin 0).
  apply (fold_add_shift _ term rs2 Hterm).
Qed.

(** X7. A row that is hidden, calculated, a total or a formula row, or that is
    excluded (its cleaned name contains an excluded name, or "depreciation"
    or "interest", or starts with "depr") contributes nothing to the sum of
    its group: the sum is the same with and without the row. *)
Theorem sumGroup_leaves_out_row (yearId : year_id) (excludeNames : list string)
    (rs1 : list Row) (row : Row) (rs2 : list Row) :
  is_hidden row || isExcluded excludeNames row || is_calculated row
  || is_total_row row || startsWith (r_name row) "=" = true ->
  sumGroup_rows yearId excludeNames (rs1 ++ row :: rs2)
  = sumGroup_rows yearId excludeNames (rs1 ++ rs2).
Proof.
  intros H. destruct (sumGroup_row_term yearId excludeNames) as (term & Hterm & Hz & _).
  rewrite !sumGroup_rows_app. f_equal.
  change (row :: rs2) with ([row] ++ rs2). rewrite sumGroup_rows_app.
  unfold sumGroup_rows at 1. cbn [fold_left]. rewrite Hterm, (Hz row H).
  change (of_Z 0) with (Fin 0). cbn [nadd]. apply nadd_0_l.
Qed.

Lemma sumGroup_leaves_out_row_witness :
  sumGroup_rows 1%Z []
    ([input_row "Rent" [dp 1%Z 10%Z]]
     ++ mkRow "Interest on loan" false false false None [dp 1%Z 99%Z]
     :: [input_row "Salaries" [dp 1%Z 20%Z]])
  = sumGroup_rows 1%Z [] ([input_row "Rent" [dp 1%Z 10%Z]] ++ [input_row "Salaries" [dp 1%Z 20%Z]]).
Proof.
  apply (sumGroup_leaves_out_row 1%Z [] [input_row "Rent" [dp 1%Z 10%Z]]
           (mkRow "Interest on loan" false false false None [dp 1%Z 99%Z])
           [input_row "Salaries" [dp 1%Z 20%Z]]).
  reflexivity.
Defined.

(** X8. A cell that does not hold a number counts as 0: unless a cell of the
    group is infinite, the sum of a group is a finite number, never NaN. *)
Theorem sumGroup_is_finite (gs : list Group) (yearId : year_id)
    (groupNamePart : string) (excludeNames : list string) :
  Forall (fun g => Forall (fun row => row_value row yearId <> PInf /\
                                      row_value row yearId <> NInf) (rows g)) gs ->
  is_finite (sumGroup gs yearId groupNamePart excludeNames) = true.
Proof.
  intros Hgs. unfold sumGroup.
  destruct (List.find (group_matches groupNamePart) gs) as [g|] eqn:E; [|reflexivity].
  apply List.find_some in E. destruct E as [Hin _].
  rewrite List.Forall_forall in Hgs. specialize (Hgs g Hin).
  destruct (sumGroup_row_term yearId excludeNames) as (term & Hterm & _ & Hfin).
  unfold sumGroup_rows.
  assert (Hacc : forall acc, is_finite acc = true ->
            is_finite (fold_left (sumGroup_row yearId excludeNames) (rows g) acc) = true).
  { induction (rows g) as [|row rs IH]; intros acc Ha; [exact Ha|].
    cbn [fold_left]. apply IH.
    - exact (List.Forall_inv_tail Hgs).
    - unfold sumGroup_row.
      destruct (is_hidden row); [exact Ha|].
      destruct (negb (isExcluded excludeNames row) && negb (is_calculated row) &&
                negb (is_total_row row) && negb (startsWith (r_name row) "="));
        [|exact Ha].
      cbn zeta. apply nadd_finite; [exact Ha|].
      pose proof (List.Forall_inv Hgs) as [Hp Hn]. cbv beta in Hp, Hn.
      destruct (row_value row yearId); cbn; congruence. }
  apply Hacc. reflexivity.
Qed.

Lemma sumGroup_is_finite_witness :
  is_finite (sumGroup nan_groups 1%Z "Revenue" []) = true.
Proof.
  apply (sumGroup_is_finite nan_groups 1%Z "Revenue" []).
  repeat constructor; discriminate.
Defined.

End ResolverMore.

(** ** The order of the years *)

Module OrderProps.

Import Engine YearOrder.

Abbreviation year_le :=
  (fun a b : YearSetting => (getYearNum (year a) <= getYearNum (year b))%Z).

Lemma insert_year_perm (y : YearSetting) (l : list YearSetting) :
  Permutation (y :: l) (insert_year y l).
Proof.
  induction l as [|x l IH]; cbn [insert_year]; [reflexivity|].
  destruct (getYearNum (year y) <=? getYearNum (year x))%Z; [reflexivity|].
  rewrite perm_swap. now apply perm_skip.
Qed.

Lemma sort_years_perm (l : list YearSetting) : Permutation l (sort_years l).
Proof.
  induction l as [|y l IH]; [reflexivity|].
  change (sort_years (y :: l)) with (insert_year y (sort_years l)).
  rewrite <- insert_year_perm. now apply perm_skip.
Qed.

Lemma insert_year_sorted (y : YearSetting) (l : list YearSetting) :
  StronglySorted year_le l -> StronglySorted year_le (insert_year y l).
Proof.
  induction l as [|x l IH]; intros Hs; cbn [insert_year].
  - repeat constructor.
  - apply StronglySorted_inv in Hs. destruct Hs as [Hl Hx].
    destruct (getYearNum (year y) <=? getYearNum (year x))%Z eqn:E.
    + apply Z.leb_le in E. constructor.
      * now constructor.
      * constructor; [lia|].
        rewrite List.Forall_forall in Hx |- *. intros z Hz. specialize (Hx z Hz).
        cbv beta in Hx. lia.
    + apply Z.leb_gt in E. constructor; [now apply IH|].
      rewrite List.Forall_forall in Hx |- *. intros z Hz.
      apply (Permutation_in _ (Permutation_sym (insert_year_perm y l))) in Hz.
      destruct Hz as [<- | Hz]; [lia|]. now apply Hx.
Qed.

Lemma sort_years_sorted (l : list YearSetting) : StronglySorted year_le (sort_years l).
Proof.
  induction l as [|y l IH]; [constructor|].
  change (sort_years (y :: l)) with (insert_year y (sort_years l)).
  now apply insert_year_sorted.
Qed.

(** Years handed over in the order of their numbers stay where they are. *)
Lemma sort_years_sorted_input (l : list YearSetting) :
  StronglySorted year_le l -> sort_years l = l.
Proof.
  induction l as [|y l IH]; intros Hs; [reflexivity|].
  apply StronglySorted_inv in Hs. destruct Hs as [Hl Hy].
  change (sort_years (y :: l)) with (insert_year y (sort_years l)).
  rewrite (IH Hl). destruct l as [|x l']; [reflexivity|].
  cbn [insert_year]. apply List.Forall_inv in Hy. apply Z.leb_le in Hy.
  now rewrite Hy.
Qed.

Lemma sort_years_increasing (l : list YearSetting) :
  StronglySorted (fun a b => (getYearNum (year a) < getYearNum (year b))%Z) l ->
  sort_years l = l.
Proof.
  intros Hs. apply sort_years_sorted_input.
  induction Hs as [|y l Hl IH Hy]; constructor; [exact IH|].
  rewrite List.Forall_forall in Hy |- *. intros z Hz. specialize (Hy z Hz).
  cbv beta in Hy. lia.
Qed.

(** Putting a year in place keeps it in front of the years of the same
    number that are placed already. *)
Lemma insert_year_stable (n : Z) (y : YearSetting) (l : list YearSetting) :
  with_number n (insert_year y l) = with_number n (y :: l).
Proof.
  unfold with_number.
  induction l as [|x l IH]; cbn [insert_year]; [reflexivity|].
  destruct (getYearNum (year y) <=? getYearNum (year x))%Z eqn:E; [reflexivity|].
  apply Z.leb_gt in E. cbn [List.filter] in IH |- *. rewrite IH.
  destruct (getYearNum (year x) =? n)%Z eqn:Ex, (getYearNum (year y) =? n)%Z eqn:Ey;
    try reflexivity.
  apply Z.eqb_eq in Ex, Ey. lia.
Qed.

Lemma sort_years_stable (n : Z) (l : list YearSetting) :
  with_number n (sort_years l) = with_number n l.
Proof.
  induction l as [|y l IH]; [reflexivity|].
  change (sort_years (y :: l)) with (insert_year y (sort_years l)).
  rewrite insert_year_stable. unfold with_number in *. cbn [List.filter].
  now rewrite IH.
Qed.

(** X10. The years are processed once each, in the order of the first four-digit
    number of their labels (0 for a label without one): the processing
    order is a permutation of the year settings handed over, it is sorted
    by that number, and years of the same number are processed in the order
    in which they were handed over. Years handed over in the order of their
    numbers are processed as they come. *)
Theorem years_processed_once_in_order (yearSettings : list YearSetting) :
  Permutation yearSettings (sortedYearSettings yearSettings) /\
  StronglySorted year_le (sortedYearSettings yearSettings) /\
  (forall n, with_number n (sortedYearSettings yearSettings)
             = with_number n yearSettings) /\
  (StronglySorted year_le yearSettings -> sortedYearSettings yearSettings = yearSettings).
Proof.
  unfold sortedYearSettings. split; [apply sort_years_perm|].
  split; [apply sort_years_sorted|].
  split; [intros n; apply sort_years_stable | apply sort_years_sorted_input].
Qed.

(** Two years labelled without a four-digit number are processed in the
    order handed over. *)
Lemma years_processed_once_in_order_witness :
  sortedYearSettings [mkYear 1%Z "Year 1"; mkYear 2%Z "Year 2"]
  = [mkYear 1%Z "Year 1"; mkYear 2%Z "Year 2"].
Proof.
  apply (years_processed_once_in_order [mkYear 1%Z "Year 1"; mkYear 2%Z "Year 2"]).
  repeat constructor; vm_compute; discriminate.
Defined.

End OrderProps.

(** ** The loop over the years *)

Module RunProps.

Import Engine Resolver Tax StoreProps Frame SpecWords Footprint YearProps OrderProps
  Examples MoreExamples.

Section Run.

Variable allGroups : list Group.
Variable yearSettings : list YearSetting.
Variable taxRegime : string.
Variable loanSummaries : list LoanSummary.
Variable gprSettings : option GprSettings.
Variable wcSettings : WcSettings.
Variable projectCostsData : list Asset.
Variable existingWCLoans : list WcLoan.

Local Abbreviation body :=
  (year_body allGroups yearSettings taxRegime loanSummaries gprSettings wcSettings
     projectCostsData existingWCLoans).
Local Abbreviation step :=
  (year_step allGroups yearSettings taxRegime loanSummaries gprSettings wcSettings
     projectCostsData existingWCLoans).
Local Abbreviation run :=
  (run_years allGroups yearSettings taxRegime loanSummaries gprSettings wcSettings
     projectCostsData existingWCLoans).
Local Abbreviation before :=
  (state_before allGroups yearSettings taxRegime loanSummaries gprSettings wcSettings
     projectCostsData existingWCLoans).
Local Abbreviation final :=
  (calculateAll allGroups yearSettings taxRegime loanSummaries gprSettings wcSettings
     projectCostsData existingWCLoans).
Local Abbreviation sorted := (sortedYearSettings yearSettings).

Lemma step_results (st : Loop) (y : YearSetting) :
  l_results (step st y) = fst (body (id y) (l_index st) (l_prev st) (l_results st)) /\
  l_prev (step st y) = Some (id y) /\
  l_index (step st y) = S (l_index st).
Proof.
  unfold year_step.
  destruct (year_body _ _ _ _ _ _ _ _ _ _ _ _) as [R' tr]. repeat split.
Qed.

Lemma run_snoc (ys : list YearSetting) (y : YearSetting) :
  run (ys ++ [y]) = step (run ys) y.
Proof. unfold run_years. now rewrite fold_left_app. Qed.

Lemma run_index (ys : list YearSetting) : l_index (run ys) = length ys.
Proof.
  induction ys as [|y ys IH] using rev_ind; [reflexivity|].
  rewrite run_snoc, length_app. cbn [length].
  destruct (step_results (run ys) y) as (_ & _ & ->). rewrite IH. lia.
Qed.

Lemma run_prev (ys : list YearSetting) (y : YearSetting) :
  l_prev (run (ys ++ [y])) = Some (id y).
Proof. rewrite run_snoc. now destruct (step_results (run ys) y) as (_ & -> & _). Qed.

Lemma firstn_snoc {A} (l : list A) (n : nat) (x : A) :
  nth_error l n = Some x -> firstn (S n) l = firstn n l ++ [x].
Proof.
  revert n. induction l as [|a l IH]; intros [|n] H; try discriminate.
  - now injection H as ->.
  - cbn [firstn]. cbn in H. rewrite (IH n H). reflexivity.
Qed.

(** The state in which a year starts: the index is the position of the
    year, the previous year is the one before it in the processing
    order. *)
Lemma before_succ (n : nat) (y : YearSetting) :
  nth_error sorted n = Some y -> before (S n) = step (before n) y.
Proof.
  intros H. unfold state_before. rewrite (firstn_snoc _ _ _ H). apply run_snoc.
Qed.

Lemma before_index (n : nat) (y : YearSetting) :
  nth_error sorted n = Some y -> l_index (before n) = n.
Proof.
  intros H. unfold state_before. rewrite run_index.
  apply firstn_length_le, Nat.lt_le_incl, List.nth_error_Some. congruence.
Qed.

Lemma before_prev (n : nat) (p : YearSetting) :
  nth_error sorted n = Some p -> l_prev (before (S n)) = Some (id p).
Proof.
  intros H. rewrite (before_succ n p H).
  now destruct (step_results (before n) p) as (_ & -> & _).
Qed.

Lemma before_zero : before 0 = mkLoop (init_results yearSettings) None 0.
Proof. reflexivity. Qed.

(** One iteration, and then any number of them, leave the entries of
    the other years as they are, the forced opening stock apart. *)
Lemma step_keeps (st : Loop) (y : YearSetting) (y' : year_id) (k : string) :
  id y <> y' -> k <> forced_key ->
  res_get (l_results (step st y)) y' k = res_get (l_results st) y' k.
Proof.
  intros Hy Hk. destruct (step_results st y) as (-> & _ & _).
  exact (proj2 (year_keeps_other_years allGroups yearSettings taxRegime loanSummaries
                  gprSettings wcSettings projectCostsData existingWCLoans (id y)
                  (l_index st) (l_prev st) (l_results st) y' k Hy Hk)).
Qed.

Lemma steps_keep (ys : list YearSetting) (st : Loop) (y' : year_id) (k : string) :
  Forall (fun y => id y <> y') ys -> k <> forced_key ->
  res_get (l_results (fold_left step ys st)) y' k = res_get (l_results st) y' k.
Proof.
  intros Hys Hk. revert st. induction ys as [|y ys IH]; intros st; [reflexivity|].
  cbn [fold_left]. rewrite (IH (List.Forall_inv_tail Hys)).
  apply step_keeps; [exact (List.Forall_inv Hys) | exact Hk].
Qed.

Lemma final_from (n : nat) :
  final = l_results (fold_left step (skipn n sorted) (before n)).
Proof.
  unfold calculateAll, state_before, run_years. rewrite <- fold_left_app.
  now rewrite firstn_skipn.
Qed.

Lemma sorted_ids_nodup :
  List.NoDup (List.map id yearSettings) -> List.NoDup (List.map id sorted).
Proof.
  intros H. eapply Permutation_NoDup; [|exact H].
  apply Permutation_map, sort_years_perm.
Qed.

Lemma later_ids_differ (n : nat) (y : YearSetting) :
  List.NoDup (List.map id yearSettings) -> nth_error sorted n = Some y ->
  Forall (fun y' => id y' <> id y) (skipn (S n) sorted).
Proof.
  intros Hnd Hn. apply sorted_ids_nodup in Hnd. revert n Hn Hnd.
  generalize sorted as l. induction l as [|a l IH]; intros [|n] Hn Hnd;
    try discriminate.
  - injection Hn as ->. cbn [skipn]. cbn [List.map] in Hnd.
    apply List.NoDup_cons_iff in Hnd. destruct Hnd as [Hnotin _].
    apply List.Forall_forall. intros z Hz Heq. apply Hnotin.
    rewrite <- Heq. now apply List.in_map.
  - cbn [skipn]. cbn [List.map] in Hnd. apply List.NoDup_cons_iff in Hnd.
    apply IH; [exact Hn | tauto].
Qed.

(** The entries of a year in the result are those it had when its own
    iteration ended. *)
Lemma final_entry (n : nat) (y : YearSetting) (k : string) :
  List.NoDup (List.map id yearSettings) -> nth_error sorted n = Some y ->
  k <> forced_key ->
  res_get final (id y) k = res_get (l_results (before (S n))) (id y) k.
Proof.
  intros Hnd Hn Hk. rewrite (final_from (S n)).
  apply steps_keep; [|exact Hk]. now apply later_ids_differ.
Qed.

Local Abbreviation trace :=
  (trace_of_year allGroups yearSettings taxRegime loanSummaries gprSettings wcSettings
     projectCostsData existingWCLoans).

Lemma neighbours_differ (n : nat) (p y : YearSetting) :
  List.NoDup (List.map id yearSettings) ->
  nth_error sorted n = Some p -> nth_error sorted (S n) = Some y -> id y <> id p.
Proof.
  intros Hnd Hp Hy.
  pose proof (later_ids_differ n p Hnd Hp) as Hl.
  rewrite List.Forall_forall in Hl. apply Hl.
  apply (List.nth_error_In _ 0). rewrite List.nth_error_skipn.
  now rewrite Nat.add_0_r.
Qed.

(** The state after the iteration of the year of position [n], through the
    body of the loop. *)
Lemma after_year (n : nat) (y : YearSetting) :
  nth_error sorted n = Some y ->
  l_results (before (S n))
  = fst (year_body allGroups yearSettings taxRegime loanSummaries gprSettings
           wcSettings projectCostsData existingWCLoans (id y) n
           (l_prev (before n)) (l_results (before n))) /\
  trace n
  = Some (snd (year_body allGroups yearSettings taxRegime loanSummaries gprSettings
                 wcSettings projectCostsData existingWCLoans (id y) n
                 (l_prev (before n)) (l_results (before n)))).
Proof.
  intros Hn. split.
  - rewrite (before_succ n y Hn).
    destruct (step_results (before n) y) as (-> & _).
    now rewrite (before_index n y Hn).
  - unfold trace_of_year. fold sorted. rewrite Hn.
    fold before. now rewrite (before_index n y Hn).
Qed.

(** X11. Once the iteration of a year has ended, the iterations of the later
    years never touch its entries, the forced opening stock apart: what
    the result holds for the year is what its own iteration left. *)
Theorem finished_years_are_final (n : nat) (y : YearSetting) (k : string) :
  List.NoDup (List.map id yearSettings) -> nth_error sorted n = Some y ->
  k <> "_forced_opening_stock_rm" ->
  res_get final (id y) k = res_get (l_results (before (S n))) (id y) k.
Proof. exact (final_entry n y k). Qed.

End Run.

Lemma two_years_distinct : List.NoDup (List.map id two_years).
Proof. repeat constructor; cbn; intuition discriminate. Qed.

Lemma finished_years_are_final_witness :
  res_get (calculateAll stock_groups two_years "domestic_22" [] None no_wc [] [])
    (id first_year) "Gross Profit"
  = res_get (l_results (state_before stock_groups two_years "domestic_22" [] None
                          no_wc [] [] 1))
      (id first_year) "Gross Profit".
Proof.
  apply (finished_years_are_final stock_groups two_years "domestic_22" [] None no_wc
           [] [] 0%nat first_year "Gross Profit").
  - exact two_years_distinct.
  - reflexivity.
  - discriminate.
Defined.

End RunProps.

(** ** Cash from year to year *)

Module CashRun.

Import Engine Resolver Tax StoreProps Frame SpecWords Footprint YearProps OrderProps
  RunProps Examples MoreExamples.

Local Open Scope num_scope.

(** Replaces the store that a phase returned by the phase itself. *)
Ltac store_of E :=
  match type of E with
  | ?ph = (?R', _, _) => replace R' with (fst (fst ph)) by (rewrite E; reflexivity)
  | ?ph = (?R', _) => replace R' with (fst ph) by (rewrite E; reflexivity)
  end.

Section Year.

Variable allGroups : list Group.
Variable yearSettings : list YearSetting.
Variable taxRegime : string.
Variable loanSummaries : list LoanSummary.
Variable gprSettings : option GprSettings.
Variable wcSettings : WcSettings.
Variable projectCostsData : list Asset.
Variable existingWCLoans : list WcLoan.
Variable yId : year_id.
Variable yearIndex : nat.
Variable prev : option year_id.

Local Abbreviation body :=
  (year_body allGroups yearSettings taxRegime loanSummaries gprSettings wcSettings
     projectCostsData existingWCLoans yId yearIndex prev).

Lemma prev_or_zero_set (R : results) (k : string) (v : num) (k' : string) :
  (forall p, prev = Some p -> yId <> p) ->
  prev_or_zero prev (res_set R yId k v) k' = prev_or_zero prev R k'.
Proof.
  intros Hp. unfold prev_or_zero. destruct prev as [p|]; [|reflexivity].
  rewrite res_get_set_other; [reflexivity|]. left. now apply Hp.
Qed.

(** The cash entries that a year leaves, and what its opening cash and its
    reconciliation difference are made of. *)
Lemma year_cash_facts (R : results) :
  let R' := fst (body R) in
  let ca := t_cash (snd (body R)) in
  res_get R' yId "Add: Opening Cash Balance" = Some (openingCash ca) /\
  res_get R' yId "Net Cash Flow During the Year" = Some (netCashFlow ca) /\
  cash_entries R' yId (closingCashCFS ca) /\
  closingCashCFS ca = openingCash ca + netCashFlow ca /\
  (yearIndex = 0%nat -> prev = None ->
   res_get R' yId "_cfsReconciliationDiff"
   = Some (closingCashCFS ca - n0 - nor (netCashFlow ca) n0)) /\
  (forall p, (0 < yearIndex)%nat -> prev = Some p -> yId <> p ->
     openingCash ca
     = oor (res_get R p "Closing Cash Balance (as per CFS)")
         (oor (res_get R p "Cash & Bank Balance")
            (oor (res_get R p "Total Cash & Bank") n0)) /\
     res_get R' yId "_cfsReconciliationDiff"
     = Some (closingCashCFS ca
             - oor (res_get R p "Closing Cash Balance (as per CFS)") n0
             - nor (netCashFlow ca) n0)).
Proof.
  pose proof (fun y k Hy Hk => proj1 (year_keeps_other_years allGroups yearSettings
    taxRegime loanSummaries gprSettings wcSettings projectCostsData existingWCLoans
    yId yearIndex prev R y k Hy Hk)) as Hframe.
  cbn zeta in Hframe. revert Hframe. cbn zeta.
  open_year_body. cbn [fst snd t_cash t_store_cash]. intros Hframe.
  assert (Hca : ca = snd (phase_cash allGroups yId yearIndex prev R17 cfo cfi cff
                            nonCash (totalFixedAssets fa) tl))
    by (rewrite E18; reflexivity).
  assert (H19 : forall K,
             In K ["Net Cash Flow During the Year"; "Add: Opening Cash Balance";
                   "Closing Cash Balance (as per CFS)"; "Cash & Bank Balance";
                   "Total Cash & Bank"; "_cfsReconciliationDiff"] ->
             res_get R19 yId K = res_get R18 yId K).
  { intros K HK. store_of E19. clear - HK. unfold phase_ratios. cbn [fst].
    cbn [In] in HK. unfold set_res. abstract_values.
    repeat (destruct HK as [<- | HK]; [read_named; reflexivity|]). destruct HK. }
  assert (Hc18 : forall K v,
             In (K, v) [("Net Cash Flow During the Year", netCashFlow ca);
                        ("Add: Opening Cash Balance", openingCash ca);
                        ("Closing Cash Balance (as per CFS)", closingCashCFS ca);
                        ("Cash & Bank Balance", closingCashCFS ca);
                        ("Total Cash & Bank", closingCashCFS ca)] ->
             res_get R18 yId K = Some v).
  { intros K v HK. store_of E18. rewrite Hca in HK. clear - HK. unfold phase_cash in *.
    cbn [fst snd netCashFlow openingCash closingCashCFS totalAssets In] in *.
    unfold set_res in *. abstract_values.
    repeat (destruct HK as [HK | HK]; [injection HK as <- <-; read_named; reflexivity|]).
    destruct HK. }
  assert (Hfin : forall K v,
             In (K, v) [("Net Cash Flow During the Year", netCashFlow ca);
                        ("Add: Opening Cash Balance", openingCash ca);
                        ("Closing Cash Balance (as per CFS)", closingCashCFS ca);
                        ("Cash & Bank Balance", closingCashCFS ca);
                        ("Total Cash & Bank", closingCashCFS ca)] ->
             res_get R19 yId K = Some v).
  { intros K v HK. rewrite H19; [apply Hc18; exact HK|]. clear - HK. cbn [In] in *.
    repeat (destruct HK as [HK | HK]; [injection HK as <- _; tauto|]). destruct HK. }
  assert (Hdiff : (forall p, prev = Some p -> yId <> p) ->
                  res_get R18 yId "_cfsReconciliationDiff"
                  = Some (closingCashCFS ca
                          - prev_or_zero prev R17 "Closing Cash Balance (as per CFS)"
                          - nor (netCashFlow ca) n0)).
  { intros Hp. store_of E18. rewrite Hca. clear - Hp. unfold phase_cash.
    cbn [fst snd netCashFlow closingCashCFS].
    unfold set_res. rewrite res_get_set_eq.
    rewrite !(prev_or_zero_set _ _ _ _ Hp).
    abstract_values. read_named. reflexivity. }
  clear E1 E2 E3 E4 E5 E6 E7 E8 E9 E10 E11 E12 E13 E14 E15 E16 E17 E18 E19.
  split; [apply Hfin; cbn [In]; tauto|].
  split; [apply Hfin; cbn [In]; tauto|].
  split; [repeat split; apply Hfin; cbn [In]; tauto|].
  split; [rewrite Hca; reflexivity|].
  split.
  { intros Hidx Hprev. rewrite H19 by (cbn [In]; tauto).
    rewrite Hdiff by (intros p Hp; congruence).
    rewrite Hprev. reflexivity. }
  intros p Hidx Hprev Hp. split.
  - rewrite Hca. unfold phase_cash. cbn [snd openingCash].
    unfold openingCash_of. destruct yearIndex; [inversion Hidx|]. cbn [Nat.eqb].
    rewrite Hprev. lookup_sets. cbn [prev_get].
    rewrite !Hframe by (assumption || discriminate). reflexivity.
  - rewrite H19 by (cbn [In]; tauto).
    rewrite Hdiff by (intros p' Hp'; congruence). rewrite Hprev.
    unfold prev_or_zero. rewrite Hframe by (assumption || discriminate). reflexivity.
Qed.

End Year.

Section Run.

Variable allGroups : list Group.
Variable yearSettings : list YearSetting.
Variable taxRegime : string.
Variable loanSummaries : list LoanSummary.
Variable gprSettings : option GprSettings.
Variable wcSettings : WcSettings.
Variable projectCostsData : list Asset.
Variable existingWCLoans : list WcLoan.

Local Abbreviation before :=
  (state_before allGroups yearSettings taxRegime loanSummaries gprSettings wcSettings
     projectCostsData existingWCLoans).
Local Abbreviation final :=
  (calculateAll allGroups yearSettings taxRegime loanSummaries gprSettings wcSettings
     projectCostsData existingWCLoans).
Local Abbreviation sorted := (sortedYearSettings yearSettings).
Local Abbreviation trace :=
  (trace_of_year allGroups yearSettings taxRegime loanSummaries gprSettings wcSettings
     projectCostsData existingWCLoans).

(** What the iteration of the year of position [n] leaves about cash, in
    terms of the state in which it starts. *)
Lemma year_cash_run (n : nat) (y : YearSetting) :
  nth_error sorted n = Some y ->
  exists ca : Cash,
    option_map t_cash (trace n) = Some ca /\
    res_get (l_results (before (S n))) (id y) "Add: Opening Cash Balance"
    = Some (openingCash ca) /\
    res_get (l_results (before (S n))) (id y) "Net Cash Flow During the Year"
    = Some (netCashFlow ca) /\
    cash_entries (l_results (before (S n))) (id y) (closingCashCFS ca) /\
    closingCashCFS ca = openingCash ca + netCashFlow ca /\
    (n = 0%nat ->
     res_get (l_results (before (S n))) (id y) "_cfsReconciliationDiff"
     = Some (closingCashCFS ca - n0 - nor (netCashFlow ca) n0)) /\
    (forall m p, n = S m -> nth_error sorted m = Some p -> id y <> id p ->
       openingCash ca
       = oor (res_get (l_results (before n)) (id p) "Closing Cash Balance (as per CFS)")
           (oor (res_get (l_results (before n)) (id p) "Cash & Bank Balance")
              (oor (res_get (l_results (before n)) (id p) "Total Cash & Bank") n0)) /\
       res_get (l_results (before (S n))) (id y) "_cfsReconciliationDiff"
       = Some (closingCashCFS ca
               - oor (res_get (l_results (before n)) (id p)
                        "Closing Cash Balance (as per CFS)") n0
               - nor (netCashFlow ca) n0)).
Proof.
  intros Hn. destruct (after_year allGroups yearSettings taxRegime loanSummaries gprSettings
              wcSettings projectCostsData existingWCLoans n y Hn) as [HR Htr].
  pose proof (year_cash_facts allGroups yearSettings taxRegime loanSummaries
                gprSettings wcSettings projectCostsData existingWCLoans (id y) n
                (l_prev (before n)) (l_results (before n))) as H.
  cbn zeta in H. rewrite <- HR in H.
  destruct H as (H1 & H2 & H3 & H4 & H5 & H6).
  eexists. split; [rewrite Htr; reflexivity|].
  split; [exact H1|]. split; [exact H2|]. split; [exact H3|]. split; [exact H4|].
  split.
  - intros ->. apply H5; reflexivity.
  - intros m p -> Hm Hyp. apply H6.
    + apply Nat.lt_0_succ.
    + apply (before_prev _ _ _ _ _ _ _ _ m p Hm).
    + exact Hyp.
Qed.

(** X12. From the second year on, the opening cash of a year in the result is
    the closing cash that the result holds for the year before it. *)
Theorem opening_cash_continues_closing_cash (n : nat) (p y : YearSetting) (c : num) :
  List.NoDup (List.map id yearSettings) ->
  nth_error sorted n = Some p -> nth_error sorted (S n) = Some y ->
  res_get final (id p) "Closing Cash Balance (as per CFS)" = Some c ->
  isNaN c = false ->
  exists o, res_get final (id y) "Add: Opening Cash Balance" = Some o /\ num_same o c.
Proof.
  intros Hnd Hp Hy Hc Hnan.
  pose proof (neighbours_differ yearSettings n p y Hnd Hp Hy) as Hne.
  destruct (year_cash_run n p Hp) as (cp & _ & _ & _ & (Hc1 & Hc2 & Hc3) & _).
  destruct (year_cash_run (S n) y Hy) as (cy & _ & Hopen & _ & _ & _ & _ & Hprev).
  destruct (Hprev n p eq_refl Hp Hne) as [Ho _].
  rewrite (final_entry _ _ _ _ _ _ _ _ n p _ Hnd Hp) in Hc by discriminate.
  rewrite Hc1 in Hc. injection Hc as Hc.
  exists (openingCash cy). split.
  - rewrite (final_entry _ _ _ _ _ _ _ _ (S n) y _ Hnd Hy) by discriminate.
    exact Hopen.
  - rewrite Ho, Hc1, Hc2, Hc3, Hc. now apply cash_chain.
Qed.

End Run.

Lemma opening_cash_continues_closing_cash_witness :
  exists o,
    res_get (calculateAll stock_groups two_years "domestic_22" [] None no_wc [] [])
      (id second_year) "Add: Opening Cash Balance" = Some o /\
    num_same o
      (default NaN
         (res_get (calculateAll stock_groups two_years "domestic_22" [] None no_wc [] [])
            (id first_year) "Closing Cash Balance (as per CFS)")).
Proof.
  apply (opening_cash_continues_closing_cash stock_groups two_years "domestic_22" []
           None no_wc [] [] 0%nat first_year second_year).
  - exact two_years_distinct.
  - reflexivity.
  - reflexivity.
  - vm_compute. reflexivity.
  - vm_compute. reflexivity.
Defined.

End CashRun.

(** ** Fixed assets and stock from year to year *)

Module BlockRun.

Import Engine Resolver Tax StoreProps Frame SpecWords Footprint YearProps OrderProps
  RunProps Examples MoreExamples.

Local Open Scope num_scope.

Section Year.

Variable allGroups : list Group.
Variable yearSettings : list YearSetting.
Variable taxRegime : string.
Variable loanSummaries : list LoanSummary.
Variable gprSettings : option GprSettings.
Variable wcSettings : WcSettings.
Variable projectCostsData : list Asset.
Variable existingWCLoans : list WcLoan.
Variable yId : year_id.
Variable yearIndex : nat.
Variable prev : option year_id.

Local Abbreviation body :=
  (year_body allGroups yearSettings taxRegime loanSummaries gprSettings wcSettings
     projectCostsData existingWCLoans yId yearIndex prev).

(** The gross block of a year after the first, and the carry entry that
    the year leaves. *)
Lemma year_block_facts (R : results) :
  let R' := fst (body R) in
  let fa := t_fixed (snd (body R)) in
  netBlock fa = grossBlock fa - depreciation (t_profit (snd (body R))) /\
  (forall p nb,
     (0 < yearIndex)%nat -> prev = Some p -> yId <> p ->
     res_get R p "_net_block_carry" = Some nb -> isNaN nb = false ->
     num_same (grossBlock fa) (nb + assetAdditions fa)) /\
  (no_row_named "_net_block_carry" allGroups ->
   res_get R' yId "_net_block_carry" = Some (netBlock fa)).
Proof.
  cbn zeta. open_year_body. cbn [fst snd t_fixed t_profit].
  assert (Hfa : fa = snd (phase_fixed_assets allGroups yearSettings projectCostsData
                            yId yearIndex prev R9 (depreciation pf)))
    by (rewrite E10; reflexivity).
  split; [rewrite Hfa; reflexivity|]. split.
  - intros p nb Hidx Hprev Hp Hget Hnan.
    assert (Hs : yId <> p \/ carry_key = carry_key /\ no_row_named carry_key allGroups)
      by (left; exact Hp).
    assert (Hk : carry_key <> forced_key) by discriminate.
    pose proof (kept_refl p carry_key R) as H0.
    assert (H1 : kept_at p carry_key R R1) by kept_from E1 kept_revenue.
    assert (H2 : kept_at p carry_key R R2) by kept_from E2 kept_cogs.
    assert (H3 : kept_at p carry_key R R3) by kept_from E3 kept_gpr.
    assert (H4 : kept_at p carry_key R R4) by kept_from E4 kept_chain.
    assert (H5 : kept_at p carry_key R R5) by kept_from E5 kept_wc_interest.
    assert (H6 : kept_at p carry_key R R6) by kept_from E6 kept_sga.
    assert (H7 : kept_at p carry_key R R7) by kept_from E7 kept_interest.
    assert (H8 : kept_at p carry_key R R8) by kept_from E8 kept_profit.
    assert (H9 : kept_at p carry_key R R9) by kept_from E9 kept_current_assets.
    rewrite Hfa. unfold phase_fixed_assets. cbn [snd grossBlock assetAdditions].
    unfold grossBlock_of. apply Nat.ltb_lt in Hidx.
    destruct yearIndex; [discriminate|]. cbn [Nat.eqb].
    unfold prevNetBlock_of. rewrite Hprev.
    unfold kept_at, carry_key in H9. rewrite H9, Hget.
    apply nor_zero_add. exact Hnan.
  - intros Hno.
    assert (Hs : yId <> yId \/ carry_key = carry_key /\ no_row_named carry_key allGroups)
      by (right; split; [reflexivity | exact Hno]).
    assert (Hk : carry_key <> forced_key) by discriminate.
    pose proof (fixed_assets_carry allGroups yearSettings projectCostsData yId
                  yearIndex prev R9 (depreciation pf) Hno) as Hc.
    cbn zeta in Hc. rewrite E10 in Hc. cbn [fst snd] in Hc.
    pose proof (kept_refl yId carry_key R10) as H10.
    assert (H11 : kept_at yId carry_key R10 R11) by kept_from E11 kept_current_liabilities.
    assert (H12 : kept_at yId carry_key R10 R12) by kept_from E12 kept_term_liabilities.
    assert (H13 : kept_at yId carry_key R10 R13) by kept_from E13 kept_net_worth.
    assert (H14 : kept_at yId carry_key R10 R14) by kept_from E14 kept_total_liabilities.
    assert (H15 : kept_at yId carry_key R10 R15) by kept_from E15 kept_operating.
    assert (H16 : kept_at yId carry_key R10 R16) by kept_from E16 kept_investing.
    assert (H17 : kept_at yId carry_key R10 R17) by kept_from E17 kept_financing.
    assert (H18 : kept_at yId carry_key R10 R18) by kept_from E18 kept_cash.
    assert (H19 : kept_at yId carry_key R10 R19) by kept_from E19 kept_ratios.
    unfold kept_at, carry_key in H19. rewrite H19. exact Hc.
Qed.

End Year.

Section Run.

Variable allGroups : list Group.
Variable yearSettings : list YearSetting.
Variable taxRegime : string.
Variable loanSummaries : list LoanSummary.
Variable gprSettings : option GprSettings.
Variable wcSettings : WcSettings.
Variable projectCostsData : list Asset.
Variable existingWCLoans : list WcLoan.

Local Abbreviation before :=
  (state_before allGroups yearSettings taxRegime loanSummaries gprSettings wcSettings
     projectCostsData existingWCLoans).
Local Abbreviation final :=
  (calculateAll allGroups yearSettings taxRegime loanSummaries gprSettings wcSettings
     projectCostsData existingWCLoans).
Local Abbreviation sorted := (sortedYearSettings yearSettings).
Local Abbreviation trace :=
  (trace_of_year allGroups yearSettings taxRegime loanSummaries gprSettings wcSettings
     projectCostsData existingWCLoans).

(** X14. From the second year on, the gross block of a year is the net block
    that the result holds under the carry key for the year before it, plus
    the additions of the year; and the year leaves its own net block, its
    gross block less its depreciation, under the carry key. *)
Theorem gross_block_continues_net_block (n : nat) (p y : YearSetting) (nb : num) :
  List.NoDup (List.map id yearSettings) ->
  no_row_named "_net_block_carry" allGroups ->
  nth_error sorted n = Some p -> nth_error sorted (S n) = Some y ->
  res_get final (id p) "_net_block_carry" = Some nb -> isNaN nb = false ->
  exists tr,
    trace (S n) = Some tr /\
    num_same (grossBlock (t_fixed tr)) (nb + assetAdditions (t_fixed tr)) /\
    netBlock (t_fixed tr) = grossBlock (t_fixed tr) - depreciation (t_profit tr) /\
    res_get final (id y) "_net_block_carry" = Some (netBlock (t_fixed tr)).
Proof.
  intros Hnd Hno Hp Hy Hnb Hnan.
  pose proof (neighbours_differ yearSettings n p y Hnd Hp Hy) as Hne.
  destruct (after_year allGroups yearSettings taxRegime loanSummaries gprSettings
              wcSettings projectCostsData existingWCLoans (S n) y Hy) as [HR Htr].
  pose proof (year_block_facts allGroups yearSettings taxRegime loanSummaries
                gprSettings wcSettings projectCostsData existingWCLoans (id y) (S n)
                (l_prev (before (S n))) (l_results (before (S n)))) as H.
  cbn zeta in H. rewrite <- HR in H. destruct H as (H1 & H2 & H3).
  rewrite (final_entry _ _ _ _ _ _ _ _ n p _ Hnd Hp) in Hnb by discriminate.
  eexists. split; [exact Htr|]. split.
  - apply (H2 (id p) nb).
    + apply Nat.lt_0_succ.
    + apply (before_prev _ _ _ _ _ _ _ _ n p Hp).
    + exact Hne.
    + exact Hnb.
    + exact Hnan.
  - split; [exact H1|].
    rewrite (final_entry _ _ _ _ _ _ _ _ (S n) y _ Hnd Hy) by discriminate.
    apply H3. exact Hno.
Qed.

(** X15. With the years handed over in processing order and the target-margin
    mode on, the closing stock solved in a year (after the first, with a
    positive revenue) is the raw-material stock the next year opens
    with. *)
Theorem solved_stock_opens_next_year (n : nat) (y next : YearSetting) (g : Group) :
  sorted = yearSettings ->
  List.NoDup (List.map id yearSettings) ->
  gpr_enabled gprSettings = true ->
  (0 < n)%nat ->
  nth_error yearSettings n = Some y -> nth_error yearSettings (S n) = Some next ->
  cogsGroup allGroups = Some g -> existsb opening_rm_row (rows g) = true ->
  exists tr tr',
    trace n = Some tr /\ trace (S n) = Some tr' /\
    (ngt (t_totalRevenue tr) n0 = true ->
     openStockRM (t_cogs tr') = closeStockRM (t_cogs tr)).
Proof.
  intros Hs Hnd Hen Hn Hy Hnext Hg Hex.
  assert (Hy' : nth_error sorted n = Some y) by (rewrite Hs; exact Hy).
  assert (Hnext' : nth_error sorted (S n) = Some next) by (rewrite Hs; exact Hnext).
  pose proof (neighbours_differ yearSettings n y next Hnd Hy' Hnext') as Hne.
  destruct (after_year allGroups yearSettings taxRegime loanSummaries gprSettings
              wcSettings projectCostsData existingWCLoans n y Hy') as [HR Htr].
  destruct (after_year allGroups yearSettings taxRegime loanSummaries gprSettings
              wcSettings projectCostsData existingWCLoans (S n) next Hnext')
    as [HR' Htr'].
  eexists. eexists. split; [exact Htr|]. split; [exact Htr'|].
  intros Hrev.
  pose proof (target_margin_year allGroups yearSettings taxRegime loanSummaries
                gprSettings wcSettings projectCostsData existingWCLoans (id y) n
                (l_prev (before n)) (l_results (before n)) Hen Hn) as H.
  cbn zeta in H. destruct (H Hrev) as (_ & _ & Hforced).
  rewrite <- HR in Hforced.
  apply (forced_opening_stock_used allGroups yearSettings taxRegime loanSummaries
           gprSettings wcSettings projectCostsData existingWCLoans (id next) (S n)
           (l_prev (before (S n))) (l_results (before (S n))) g _).
  - apply Hforced.
    + rewrite Nat.add_1_r. exact Hnext.
    + intros Heq. apply Hne. symmetry. exact Heq.
  - exact Hg.
  - exact Hex.
Qed.

End Run.

Lemma gross_block_continues_net_block_witness :
  exists tr,
    trace_of_year stock_groups two_years "domestic_22" [] None no_wc one_machine [] 1
    = Some tr /\
    res_get (calculateAll stock_groups two_years "domestic_22" [] None no_wc
               one_machine [])
      (id second_year) "_net_block_carry" = Some (netBlock (t_fixed tr)).
Proof.
  destruct (gross_block_continues_net_block stock_groups two_years "domestic_22" []
              None no_wc one_machine [] 0%nat first_year second_year
              (default NaN (res_get machine_results 1%Z "_net_block_carry")))
    as (tr & Htr & _ & _ & Hcarry).
  - exact two_years_distinct.
  - repeat constructor; discriminate.
  - reflexivity.
  - reflexivity.
  - vm_compute. reflexivity.
  - vm_compute. reflexivity.
  - exists tr. split; [exact Htr | exact Hcarry].
Defined.

Lemma ordered_years_distinct : List.NoDup (List.map id ordered_years).
Proof. repeat constructor; cbn; intuition discriminate. Qed.

Lemma solved_stock_opens_next_year_witness :
  exists tr tr',
    trace_of_year margin_groups ordered_years "domestic_22" [] margin_on no_wc [] [] 1
    = Some tr /\
    trace_of_year margin_groups ordered_years "domestic_22" [] margin_on no_wc [] [] 2
    = Some tr' /\
    openStockRM (t_cogs tr') = closeStockRM (t_cogs tr).
Proof.
  destruct (solved_stock_opens_next_year margin_groups ordered_years "domestic_22" []
              margin_on no_wc [] [] 1%nat margin_second margin_third margin_cogs)
    as (tr & tr' & H1 & H2 & H3).
  - reflexivity.
  - exact ordered_years_distinct.
  - reflexivity.
  - apply Nat.lt_0_1.
  - reflexivity.
  - reflexivity.
  - reflexivity.
  - reflexivity.
  - exists tr, tr'. split; [exact H1|]. split; [exact H2|]. apply H3.
    apply (f_equal (option_map (fun t => ngt (t_totalRevenue t) n0))) in H1.
    vm_compute in H1. injection H1 as H1. symmetry. exact H1.
Defined.

End BlockRun.

(** ** The scan of the balance-sheet rows *)

Module DeltaProps.

Import Engine Resolver Tax StoreProps NumProps.

Local Open Scope num_scope.

Section Scan.

Variable allGroups : list Group.
Variable taxRegime : string.
Variable yId : year_id.
Variable prev : option year_id.

Local Abbreviation row_step := (delta_row taxRegime yId prev).
Local Abbreviation group_step := (delta_group taxRegime yId prev).
Local Abbreviation scan := (delta_scan allGroups taxRegime yId prev).

(** What holds of every recorded delta: it is recorded under [bucket], it
    exceeds the threshold, and its row is none of those the scan skips by
    name. *)
Local Abbreviation recorded bucket :=
  (fun d : DeltaItem =>
     d_bucket d = bucket /\
     ngt (nabs (d_delta d)) small = true /\
     (includes (toLowerCase (d_name d)) "cash" &&
      (includes (toLowerCase (d_name d)) "bank" ||
       includes (toLowerCase (d_name d)) "hand")) = false /\
     (includes (toLowerCase (d_name d)) "interest" &&
      negb (includes (toLowerCase (d_name d)) "interest coverage")) = false).

Local Abbreviation well_sorted :=
  (fun ds : Deltas =>
     Forall (recorded "operating") (operatingDeltas ds) /\
     Forall (recorded "investing") (investingDeltas ds) /\
     Forall (recorded "financing") (financingDeltas ds)).

Lemma bucket_not_skipped (row : Row) (gb : string) :
  String.eqb (getRowCFBucket taxRegime row gb) "skip" = false ->
  (includes (toLowerCase (r_name row)) "cash" &&
   (includes (toLowerCase (r_name row)) "bank" ||
    includes (toLowerCase (r_name row)) "hand")) = false /\
  (includes (toLowerCase (r_name row)) "interest" &&
   negb (includes (toLowerCase (r_name row)) "interest coverage")) = false.
Proof.
  unfold getRowCFBucket. cbn zeta.
  destruct (includes (toLowerCase (r_name row)) "cash" &&
            (includes (toLowerCase (r_name row)) "bank" ||
             includes (toLowerCase (r_name row)) "hand")) eqn:Ecash.
  - rewrite orb_true_r. discriminate.
  - destruct (opt_is (r_system_tag row) "cash_bank" || false); [discriminate|].
    destruct (opt_is (r_system_tag row) "retained_earnings" ||
              opt_is (r_system_tag row) "general_reserve"); [discriminate|].
    destruct (isLlpOrProprietorship taxRegime && _); [discriminate|].
    destruct (isLlpOrProprietorship taxRegime && _); [discriminate|].
    destruct (isLlpOrProprietorship taxRegime && _); [discriminate|].
    destruct (includes (toLowerCase (r_name row)) "interest" &&
              negb (includes (toLowerCase (r_name row)) "interest coverage"));
      [discriminate|].
    intros _. split; reflexivity.
Qed.

Lemma delta_row_sorted (taxTotal : num) (gb nature : string)
    (st : results * Deltas) (row : Row) :
  well_sorted (snd st) -> well_sorted (snd (row_step taxTotal gb nature st row)).
Proof.
  destruct st as [R ds]. cbn [snd]. intros (Ho & Hi & Hf). unfold delta_row.
  destruct (is_hidden row || is_calculated row || is_total_row row ||
            startsWith (r_name row) "="); [now repeat split|].
  cbn zeta.
  destruct (String.eqb (getRowCFBucket taxRegime row gb) "skip") eqn:Eskip;
    [now repeat split|].
  destruct (includes (toLowerCase (r_name row)) "term loan" &&
            includes (toLowerCase (r_name row)) "excluding"); [now repeat split|].
  destruct (ngt (nabs _) small) eqn:Ebig; [|now repeat split].
  destruct (bucket_not_skipped row gb Eskip) as [Hcash Hint].
  cbn [snd].
  destruct (String.eqb (getRowCFBucket taxRegime row gb) "operating") eqn:E1.
  { apply String.eqb_eq in E1. cbn [operatingDeltas investingDeltas financingDeltas].
    repeat split; try assumption.
    apply List.Forall_app. split; [assumption|]. constructor; [|constructor].
    cbn [d_bucket d_delta d_name]. repeat split; assumption. }
  destruct (String.eqb (getRowCFBucket taxRegime row gb) "investing") eqn:E2.
  { apply String.eqb_eq in E2. cbn [operatingDeltas investingDeltas financingDeltas].
    repeat split; try assumption.
    apply List.Forall_app. split; [assumption|]. constructor; [|constructor].
    cbn [d_bucket d_delta d_name]. repeat split; assumption. }
  destruct (String.eqb (getRowCFBucket taxRegime row gb) "financing") eqn:E3.
  { apply String.eqb_eq in E3. cbn [operatingDeltas investingDeltas financingDeltas].
    repeat split; try assumption.
    apply List.Forall_app. split; [assumption|]. constructor; [|constructor].
    cbn [d_bucket d_delta d_name]. repeat split; assumption. }
  now repeat split.
Qed.

Lemma delta_rows_sorted (taxTotal : num) (gb nature : string) (rs : list Row)
    (st : results * Deltas) :
  well_sorted (snd st) ->
  well_sorted (snd (fold_left (row_step taxTotal gb nature) rs st)).
Proof.
  revert st. induction rs as [|row rs IH]; intros st H; [exact H|].
  cbn [fold_left]. apply IH. now apply delta_row_sorted.
Qed.

Lemma delta_group_sorted (taxTotal : num) (st : results * Deltas) (group : Group) :
  well_sorted (snd st) -> well_sorted (snd (group_step taxTotal st group)).
Proof.
  intros H. unfold delta_group. destruct (delta_group_skipped group); [exact H|].
  now apply delta_rows_sorted.
Qed.

(** X16. Every delta that the scan records sits in the list of its own bucket
    and exceeds the threshold of 0.01 in absolute value; and no row whose
    name says cash and bank (or hand), or interest (other than interest
    coverage), is ever recorded as a source or use of cash. *)
Theorem recorded_deltas_are_sorted (R : results) (taxTotal : num) :
  well_sorted (snd (scan R taxTotal)).
Proof.
  unfold delta_scan.
  assert (H : forall gs st, well_sorted (snd st) ->
                            well_sorted (snd (fold_left (group_step taxTotal) gs st))).
  { induction gs as [|g gs IH]; intros st Hst; [exact Hst|].
    cbn [fold_left]. apply IH. now apply delta_group_sorted. }
  apply H. cbn [snd operatingDeltas investingDeltas financingDeltas].
  repeat split; constructor.
Qed.

End Scan.

Local Abbreviation split_step :=
  (fun (acc : num * num) (item : DeltaItem) =>
     let '(wcAssetChange, wcLiabilityChange) := acc in
     if nlt (d_delta item) n0
     then (wcAssetChange + - d_delta item, wcLiabilityChange)
     else (wcAssetChange, wcLiabilityChange + d_delta item)).

Local Abbreviation outflow := (fun d : DeltaItem => nlt (d_delta d) n0).

(** The two accumulators of the split do not meet: each is the sum of its
    own deltas, whatever it starts from. *)
Lemma wc_changes_from (ops : list DeltaItem) (a l : num) :
  fold_left split_step ops (a, l)
  = (fold_left nadd (List.map (fun d => - d_delta d) (List.filter outflow ops)) a,
     fold_left nadd
       (List.map d_delta (List.filter (fun d => negb (outflow d)) ops)) l).
Proof.
  revert a l. induction ops as [|d ops IH]; intros a l; [reflexivity|].
  cbn [fold_left List.filter]. destruct (nlt (d_delta d) n0); cbn [negb List.map fold_left];
    apply IH.
Qed.

Lemma sum_nonneg (l : list num) (a : Q) :
  Forall (fun v => is_finite v = true /\ nlt v n0 = false) l -> (0 <= a)%Q ->
  exists a' : Q, fold_left nadd l (Fin a) = Fin a' /\ (0 <= a')%Q.
Proof.
  intros H. revert a. induction H as [|v l [Hf Hv] _ IH]; intros a Ha.
  - exists a. split; [reflexivity | exact Ha].
  - cbn [fold_left]. destruct v as [q| | |]; try discriminate Hf.
    cbn [nadd]. apply IH.
    unfold nlt, n0, of_Z, Qltb in Hv. apply negb_false_iff, Qle_bool_iff in Hv.
    unfold inject_Z in Hv. lra.
Qed.

(** X17. The operating deltas are split into increases of current assets (the
    negative ones, shown positive) and increases of current liabilities
    (the others): each part is the sum of its own deltas, added to 0 in the
    order in which they were recorded, and for finite deltas both parts are
    finite and not negative. *)
Theorem working_capital_split (ops : list DeltaItem) :
  wc_changes ops
  = (fold_left nadd (List.map (fun d => - d_delta d) (List.filter outflow ops)) n0,
     fold_left nadd
       (List.map d_delta (List.filter (fun d => negb (outflow d)) ops)) n0) /\
  (Forall (fun d => is_finite (d_delta d) = true) ops ->
   exists a l : Q, wc_changes ops = (Fin a, Fin l) /\ (0 <= a)%Q /\ (0 <= l)%Q).
Proof.
  split; [apply wc_changes_from|]. intros Hfin.
  unfold wc_changes. rewrite wc_changes_from.
  destruct (sum_nonneg (List.map (fun d => - d_delta d) (List.filter outflow ops)) 0)
    as (a & Ha & Ha0); [|lra|].
  { apply List.Forall_map. apply List.Forall_forall. intros d Hd.
    apply List.filter_In in Hd. destruct Hd as [Hin Hneg].
    rewrite List.Forall_forall in Hfin. specialize (Hfin d Hin). cbv beta in Hfin.
    destruct (d_delta d) as [q| | |]; try discriminate Hfin.
    split; [reflexivity|]. cbn [nneg].
    unfold nlt, n0, of_Z, Qltb in Hneg |- *.
    apply negb_true_iff, Qle_bool_false in Hneg.
    apply negb_false_iff, Qle_bool_iff. unfold inject_Z in *. lra. }
  destruct (sum_nonneg (List.map d_delta
                          (List.filter (fun d => negb (outflow d)) ops)) 0)
    as (l & Hl & Hl0); [|lra|].
  { apply List.Forall_map. apply List.Forall_forall. intros d Hd.
    apply List.filter_In in Hd. destruct Hd as [Hin Hneg].
    rewrite List.Forall_forall in Hfin. specialize (Hfin d Hin). cbv beta in Hfin.
    split; [exact Hfin|]. now apply negb_true_iff in Hneg. }
  exists a, l. split; [|split; assumption].
  exact (f_equal2 pair Ha Hl).
Qed.

Lemma working_capital_split_witness :
  exists a l : Q,
    wc_changes [mkDelta "Debtors" (of_Z (-30)) "operating";
                mkDelta "Creditors" (of_Z 50) "operating"] = (Fin a, Fin l) /\
    (0 <= a)%Q /\ (0 <= l)%Q.
Proof.
  apply (working_capital_split
           [mkDelta "Debtors" (of_Z (-30)) "operating";
            mkDelta "Creditors" (of_Z 50) "operating"]).
  repeat constructor.
Defined.

End DeltaProps.

(** ** More on one year *)

Module YearMore.

Import Engine Resolver Tax StoreProps Frame SpecWords Footprint YearProps NumProps
  DeltaProps TaxMore Examples MoreExamples.

Local Open Scope num_scope.

Section Year.

Variable allGroups : list Group.
Variable yearSettings : list YearSetting.
Variable taxRegime : string.
Variable loanSummaries : list LoanSummary.
Variable gprSettings : option GprSettings.
Variable wcSettings : WcSettings.
Variable projectCostsData : list Asset.
Variable existingWCLoans : list WcLoan.
Variable yId : year_id.
Variable yearIndex : nat.
Variable prev : option year_id.

Local Abbreviation body :=
  (year_body allGroups yearSettings taxRegime loanSummaries gprSettings wcSettings
     projectCostsData existingWCLoans yId yearIndex prev).

(** X19. The tax of the year is the tax calculator applied to the profit
    before tax, and the profit after tax is what remains. So a loss is
    carried to the profit after tax unchanged, and a profit stays a
    profit after tax, never larger than before tax. *)
Theorem profit_after_tax_bounds (R : results) (p : Q) :
  let tr := snd (body R) in
  pbt (t_profit tr) = Fin p ->
  taxDetails (t_profit tr) = calculateTax (Fin p) taxRegime /\
  exists a : Q,
    pat (t_profit tr) = Fin a /\ (a <= p)%Q /\
    ((p <= 0)%Q -> (a == p)%Q) /\ ((0 < p)%Q -> (0 < a)%Q).
Proof.
  cbn zeta. open_year_body. cbn [snd t_profit].
  assert (Hv : pf = snd (phase_profit allGroups taxRegime yId R7 ebitda (totalInterest it)))
    by (rewrite E8; reflexivity).
  clear E1 E2 E3 E4 E5 E6 E7 E8 E9 E10 E11 E12 E13 E14 E15 E16 E17 E18 E19.
  rewrite Hv. unfold phase_profit. cbn [snd pbt taxDetails pat].
  intros Hp. rewrite Hp. split; [reflexivity|].
  destruct (total_fin p taxRegime) as (t & -> & Ht0 & Htb & Htz).
  exists (p + - t)%Q. split; [reflexivity|].
  split; [lra|]. split.
  - intros Hle. specialize (Htz Hle). lra.
  - intros Hlt. specialize (Htb Hlt). lra.
Qed.

End Year.

Lemma profit_after_tax_bounds_witness :
  exists a : Q, pat (t_profit (snd full_second_year)) = Fin a /\ (0 < a)%Q.
Proof.
  destruct (profit_after_tax_bounds full_groups two_years "domestic_22" [] None no_wc
              [] [] 2%Z 1%nat (Some 1%Z) full_after_first
              match pbt (t_profit (snd full_second_year)) with
              | Fin q => q
              | _ => 0%Q
              end)
    as (_ & a & Ha & _ & _ & Hpos).
  - vm_compute. reflexivity.
  - exists a. split; [exact Ha|]. apply Hpos. vm_compute. reflexivity.
Defined.

End YearMore.

(** ** Loans and assets handed to the engine *)

Module InputsProps.

Import Engine NumProps.

Local Open Scope num_scope.

Local Abbreviation of_year y := (fun s : LoanSummary => Z.eqb (ls_year_setting s) y).

Local Abbreviation loan_step y :=
  (fun (acc : option LoanData) (summary : LoanSummary) =>
     if Z.eqb (ls_year_setting summary) y then
       let d := default (mkLoanData n0 n0 n0 n0) acc in
       Some (mkLoanData
               (ld_interest d + annual_interest summary)
               (ld_principal d + annual_principal summary)
               (ld_closingBalance d + closing_balance summary)
               (ld_openingBalance d + opening_balance summary))
     else acc).

Lemma loan_fold_filter (l : list LoanSummary) (y : year_id) (acc : option LoanData) :
  fold_left (loan_step y) l acc = fold_left (loan_step y) (List.filter (of_year y) l) acc.
Proof.
  revert acc. induction l as [|s l IH]; intros acc; [reflexivity|].
  cbn [fold_left List.filter].
  destruct (Z.eqb (ls_year_setting s) y) eqn:E.
  - cbn [fold_left]. rewrite E. apply IH.
  - apply IH.
Qed.

Lemma loan_fold_sums (l : list LoanSummary) (y : year_id) (d : LoanData) :
  Forall (fun s => Z.eqb (ls_year_setting s) y = true) l ->
  fold_left (loan_step y) l (Some d)
  = Some (mkLoanData
            (fold_left (fun a s => a + annual_interest s) l (ld_interest d))
            (fold_left (fun a s => a + annual_principal s) l (ld_principal d))
            (fold_left (fun a s => a + closing_balance s) l (ld_closingBalance d))
            (fold_left (fun a s => a + opening_balance s) l (ld_openingBalance d))).
Proof.
  revert d. induction l as [|s l IH]; intros d Hl.
  - now destruct d.
  - cbn [fold_left]. rewrite (List.Forall_inv Hl). cbn zeta. cbn [default].
    rewrite (IH _ (List.Forall_inv_tail Hl)). reflexivity.
Qed.

(** X21. The loan figures of a year accumulate over the summaries of that year
    and of no other: the summaries of the other years can be removed
    without changing them, each total is the sum, in list order, over the
    summaries of the year, and a year without a summary has no term-loan
    interest, principal or outstanding balance. *)
Theorem loan_totals_by_year (l : list LoanSummary) (y : year_id) :
  loanDataByYear l y = loanDataByYear (List.filter (of_year y) l) y /\
  (forall d, loanDataByYear l y = Some d ->
     ld_interest d
     = fold_left (fun a s => a + annual_interest s) (List.filter (of_year y) l) n0 /\
     ld_principal d
     = fold_left (fun a s => a + annual_principal s) (List.filter (of_year y) l) n0 /\
     ld_closingBalance d
     = fold_left (fun a s => a + closing_balance s) (List.filter (of_year y) l) n0) /\
  (List.filter (of_year y) l = [] ->
   termLoanInterest_of l y = n0 /\ termLoanPrincipal_of l y = n0 /\
   loanOutstanding_of l y = n0).
Proof.
  unfold loanDataByYear, termLoanInterest_of, termLoanPrincipal_of, loanOutstanding_of,
    loanDataByYear.
  split; [apply loan_fold_filter|]. split.
  - intros d. rewrite loan_fold_filter.
    assert (Hall : Forall (fun s => Z.eqb (ls_year_setting s) y = true)
                     (List.filter (of_year y) l)).
    { apply List.Forall_forall. intros s Hs. apply List.filter_In in Hs. tauto. }
    destruct (List.filter (of_year y) l) as [|s f] eqn:Ef; [discriminate|].
    cbn [fold_left]. rewrite (List.Forall_inv Hall). cbn zeta. cbn [default].
    rewrite (loan_fold_sums f y _ (List.Forall_inv_tail Hall)).
    intros [= <-].
    cbn [ld_interest ld_principal ld_closingBalance]. repeat split.
  - intros Hnone. rewrite loan_fold_filter, Hnone. cbn [fold_left]. repeat split.
Qed.

Lemma loan_totals_by_year_witness :
  termLoanInterest_of [mkLoanSummary 2%Z (of_Z 90) (of_Z 100) (of_Z 900) (of_Z 1000) None true]
    1%Z = n0.
Proof.
  apply (loan_totals_by_year
           [mkLoanSummary 2%Z (of_Z 90) (of_Z 100) (of_Z 900) (of_Z 1000) None true] 1%Z).
  reflexivity.
Defined.

Lemma filter_filter_implied {A} (P Q : A -> bool) (l : list A) :
  (forall a, P a = true -> Q a = true) ->
  List.filter P (List.filter Q l) = List.filter P l.
Proof.
  intros H. induction l as [|a l IH]; [reflexivity|].
  cbn [List.filter]. destruct (Q a) eqn:EQ.
  - cbn [List.filter]. now rewrite IH.
  - destruct (P a) eqn:EP; [|exact IH]. rewrite (H a EP) in EQ. discriminate.
Qed.

Lemma assetAdditions_fold (ys : list YearSetting) (assets : list Asset)
    (yId : year_id) (yearIndex : nat) :
  assetAdditions_of ys assets yId yearIndex
  = fold_left (fun sum asset => sum + amount asset)
      (List.filter (asset_in_year ys yId yearIndex) assets) n0.
Proof. unfold assetAdditions_of. now destruct assets. Qed.

(** X22. An asset flagged as existing is never counted among the additions of
    a year, whatever its dates: the additions are the same with and without
    the existing assets. *)
Theorem existing_assets_are_never_additions (ys : list YearSetting)
    (assets : list Asset) (yId : year_id) (yearIndex : nat) :
  assetAdditions_of ys assets yId yearIndex
  = assetAdditions_of ys
      (List.filter (fun a => negb (is_existing_asset a)) assets) yId yearIndex.
Proof.
  rewrite !assetAdditions_fold. rewrite filter_filter_implied; [reflexivity|].
  intros a. unfold asset_in_year. now destruct (is_existing_asset a).
Qed.

End InputsProps.

(** ** Loan schedules *)

Module LoanProps.

Import Loans NumProps.

Lemma monthly_fin (R : Q) :
  (Fin R / of_Z 100 / of_Z 12)%num = Fin (monthly R).
Proof. reflexivity. Qed.

Lemma monthly_zero (R : Q) : R == 0 -> monthly R == 0.
Proof. intros H. unfold monthly. rewrite H. unfold inject_Z. field. Qed.

Lemma emi_without_loan_or_interest_aux (P R : Q) (n : nat) :
  R == 0 -> (0 < n)%nat -> ~ P == 0 ->
  exists e : Q, calculateEMI (Fin P) (Fin R) n = Fin e /\
                e * inject_Z (Z.of_nat n) == P.
Proof.
  intros HR Hn HP. unfold calculateEMI.
  destruct n as [|n]; [inversion Hn|]. cbn [Nat.eqb orb].
  assert (E0 : neqb (Fin P) zero = false).
  { cbn. destruct (Qeq_bool P 0) eqn:E; [|reflexivity].
    apply Qeq_bool_iff in E. contradiction. }
  rewrite E0, monthly_fin.
  assert (E1 : neqb (Fin (monthly R)) zero = true).
  { cbn. apply Qeq_bool_iff. now apply monthly_zero. }
  rewrite E1. unfold of_nat, of_Z. cbn [ndiv].
  assert (Hn0 : ~ inject_Z (Z.of_nat (S n)) == 0).
  { unfold Qeq, inject_Z. cbn [Qnum Qden]. lia. }
  destruct (Qeq_bool (inject_Z (Z.of_nat (S n))) 0) eqn:E.
  { apply Qeq_bool_iff in E. contradiction. }
  eexists. split; [reflexivity|]. field. exact Hn0.
Qed.

(** X23. No instalment is due on a loan of nothing or over no month, and
    without interest the instalment is the loan divided by the number of
    months. *)
Theorem emi_without_loan_or_interest (P R : Q) (n : nat) :
  (forall p a, calculateEMI p a 0 = of_Z 0) /\
  (forall a m, calculateEMI (of_Z 0) a m = of_Z 0) /\
  (R == 0 -> (0 < n)%nat -> ~ P == 0 ->
   exists e : Q, calculateEMI (Fin P) (Fin R) n = Fin e /\
                 e * inject_Z (Z.of_nat n) == P).
Proof.
  split; [reflexivity|]. split.
  { intros a m. unfold calculateEMI. now rewrite orb_true_r. }
  apply emi_without_loan_or_interest_aux.
Qed.

Lemma emi_without_loan_or_interest_witness :
  exists e : Q, calculateEMI (Fin 1200) (Fin 0) 4 = Fin e /\
                e * inject_Z (Z.of_nat 4) == 1200.
Proof.
  apply (emi_without_loan_or_interest 1200 0 4).
  - reflexivity.
  - apply Nat.lt_0_succ.
  - discriminate.
Defined.

(** Rounding to two decimals does not tell equal rationals apart, and it
    rounds 0 to 0. *)
Lemma round2_comp (a b : Q) : a == b -> num_eq (round2 (Fin a)) (round2 (Fin b)).
Proof.
  intros H. unfold round2.
  assert (Ha : Qabs a == Qabs b) by now rewrite H.
  assert (E1 : Qle_bool (inject_Z (10 ^ 21)) (Qabs a)
               = Qle_bool (inject_Z (10 ^ 21)) (Qabs b)).
  { destruct (Qle_bool (inject_Z (10 ^ 21)) (Qabs a)) eqn:Ea;
      destruct (Qle_bool (inject_Z (10 ^ 21)) (Qabs b)) eqn:Eb; try reflexivity.
    - apply Qle_bool_iff in Ea. rewrite Ha in Ea. apply Qle_bool_iff in Ea. congruence.
    - apply Qle_bool_iff in Eb. rewrite <- Ha in Eb. apply Qle_bool_iff in Eb.
      congruence. }
  assert (E2 : Qle_bool 0 a = Qle_bool 0 b).
  { destruct (Qle_bool 0 a) eqn:Ea; destruct (Qle_bool 0 b) eqn:Eb; try reflexivity.
    - apply Qle_bool_iff in Ea. rewrite H in Ea. apply Qle_bool_iff in Ea. congruence.
    - apply Qle_bool_iff in Eb. rewrite <- H in Eb. apply Qle_bool_iff in Eb.
      congruence. }
  rewrite E1, E2.
  assert (E3 : Qfloor (Qabs a * inject_Z 100 + (1 # 2))
               = Qfloor (Qabs b * inject_Z 100 + (1 # 2))).
  { apply Qfloor_comp. now rewrite Ha. }
  rewrite E3.
  destruct (Qle_bool (inject_Z (10 ^ 21)) (Qabs b)); [exact H|].
  destruct (Qle_bool 0 b); cbn [num_eq]; reflexivity.
Qed.

Lemma round2_zero (a : Q) : a == 0 -> num_eq (round2 (Fin a)) (of_Z 0).
Proof.
  intros H. pose proof (round2_comp a 0 H) as Hc.
  change (round2 (Fin 0)) with (Fin (inject_Z 0 / inject_Z 100)) in Hc.
  destruct (round2 (Fin a)) as [q| | |]; try contradiction.
  change (q == inject_Z 0 / inject_Z 100) in Hc. change (q == inject_Z 0).
  rewrite Hc. reflexivity.
Qed.

(** *** The loop of the EMI method *)

Section EmiLoop.

Variable monthName : nat -> string.
Variable P r e : num.
Variable m : nat.
Variable start : Z * nat.

Local Abbreviation step := (emi_period monthName r e m).
Local Abbreviation run k := (fold_left step (seq 1 k) (P, start, [])).
Local Abbreviation balance k := (fst (fst (run k))).
Local Abbreviation row_of k :=
  (mkScheduleRow (periodLabel monthName (Nat.iter k next_month start))
     (Nat.iter k next_month start) (S k)
     (round2 (balance k)) (round2 (nmul (balance k) r))
     (round2 (if (m <? S k)%nat then nsub e (nmul (balance k) r) else of_Z 0))
     (round2 (if (m <? S k)%nat then e else nmul (balance k) r))
     (round2 (balance (S k)))).

Lemma emi_run_succ (k : nat) : run (S k) = step (run k) (S k).
Proof. rewrite seq_S, fold_left_app. reflexivity. Qed.

Lemma emi_run_date (k : nat) : snd (fst (run k)) = Nat.iter k next_month start.
Proof.
  induction k as [|k IH]; [reflexivity|].
  rewrite emi_run_succ. destruct (run k) as [[B d] rows]. cbn [fst snd] in IH.
  unfold emi_period. destruct (m <? S k)%nat; cbn [fst snd Nat.iter]; now rewrite IH.
Qed.

Lemma emi_run_balance (k : nat) :
  balance (S k)
  = nsub (balance k) (if (m <? S k)%nat then nsub e (nmul (balance k) r) else of_Z 0).
Proof.
  rewrite emi_run_succ. destruct (run k) as [[B d] rows]. cbn [fst].
  unfold emi_period. destruct (m <? S k)%nat; reflexivity.
Qed.

Lemma emi_run_rows (k : nat) : snd (run (S k)) = snd (run k) ++ [row_of k].
Proof.
  pose proof (emi_run_balance k) as HB. pose proof (emi_run_date k) as HD.
  rewrite emi_run_succ in HB |- *. destruct (run k) as [[B d] rows].
  cbn [fst snd] in HB, HD |- *. subst d.
  unfold emi_period in HB |- *. unfold push_row.
  destruct (m <? S k)%nat; cbn [fst snd] in HB |- *; reflexivity.
Qed.

Lemma emi_run_length (k : nat) : length (snd (run k)) = k.
Proof.
  induction k as [|k IH]; [reflexivity|].
  rewrite emi_run_rows, length_app, IH. cbn [length]. lia.
Qed.

Lemma emi_run_nth (k n : nat) :
  (k < n)%nat -> nth_error (snd (run n)) k = Some (row_of k).
Proof.
  induction n as [|n IH]; intros Hk; [inversion Hk|].
  rewrite emi_run_rows.
  destruct (Nat.eq_dec k n) as [->|Hne].
  - rewrite List.nth_error_app2 by (rewrite emi_run_length; lia).
    rewrite emi_run_length, Nat.sub_diag. reflexivity.
  - rewrite List.nth_error_app1 by (rewrite emi_run_length; lia).
    apply IH. lia.
Qed.

End EmiLoop.

(** *** The loop of the bullet method *)

Section BulletLoop.

Variable monthName : nat -> string.
Variable P r : num.
Variable t : nat.
Variable start : Z * nat.

Local Abbreviation step := (bullet_period monthName r t).
Local Abbreviation run k := (fold_left step (seq 1 k) (P, start, [])).
Local Abbreviation balance k := (fst (fst (run k))).
Local Abbreviation row_of k :=
  (mkScheduleRow (periodLabel monthName (Nat.iter k next_month start))
     (Nat.iter k next_month start) (S k)
     (round2 (balance k)) (round2 (nmul (balance k) r))
     (round2 (if (S k =? t)%nat then balance k else of_Z 0))
     (round2 (nadd (nmul (balance k) r)
                (if (S k =? t)%nat then balance k else of_Z 0)))
     (round2 (balance (S k)))).

Lemma bullet_run_succ (k : nat) : run (S k) = step (run k) (S k).
Proof. rewrite seq_S, fold_left_app. reflexivity. Qed.

Lemma bullet_run_date (k : nat) : snd (fst (run k)) = Nat.iter k next_month start.
Proof.
  induction k as [|k IH]; [reflexivity|].
  rewrite bullet_run_succ. destruct (run k) as [[B d] rows]. cbn [fst snd] in IH.
  unfold bullet_period. cbn [fst snd Nat.iter]. now rewrite IH.
Qed.

Lemma bullet_run_balance (k : nat) :
  balance (S k) = nsub (balance k) (if (S k =? t)%nat then balance k else of_Z 0).
Proof.
  rewrite bullet_run_succ. destruct (run k) as [[B d] rows]. reflexivity.
Qed.

Lemma bullet_run_rows (k : nat) : snd (run (S k)) = snd (run k) ++ [row_of k].
Proof.
  pose proof (bullet_run_balance k) as HB. pose proof (bullet_run_date k) as HD.
  rewrite bullet_run_succ in HB |- *. destruct (run k) as [[B d] rows].
  cbn [fst snd] in HB, HD |- *. subst d.
  unfold bullet_period in HB |- *. unfold push_row. cbn [fst snd] in HB |- *.
  reflexivity.
Qed.

Lemma bullet_run_length (k : nat) : length (snd (run k)) = k.
Proof.
  induction k as [|k IH]; [reflexivity|].
  rewrite bullet_run_rows, length_app, IH. cbn [length]. lia.
Qed.

Lemma bullet_run_nth (k n : nat) :
  (k < n)%nat -> nth_error (snd (run n)) k = Some (row_of k).
Proof.
  induction n as [|n IH]; intros Hk; [inversion Hk|].
  rewrite bullet_run_rows.
  destruct (Nat.eq_dec k n) as [->|Hne].
  - rewrite List.nth_error_app2 by (rewrite bullet_run_length; lia).
    rewrite bullet_run_length, Nat.sub_diag. reflexivity.
  - rewrite List.nth_error_app1 by (rewrite bullet_run_length; lia).
    apply IH. lia.
Qed.

End BulletLoop.


Lemma nth_error_in_range {A : Type} (l : list A) (k : nat) (x : A) :
  nth_error l k = Some x -> (k < length l)%nat.
Proof.
  intros H. apply List.nth_error_Some. rewrite H. discriminate.
Qed.

(** X26. A schedule has one row for each month of the tenure, numbered from 1,
    dated month after month from the start date; the first row opens with
    the loan and every other row opens with the closing balance of the row
    before it. A method other than EMI and BULLET gives no row at all. *)
Theorem schedule_rows_follow_each_other (monthName : nat -> string)
    (config : LoanConfig) :
  (repaymentMethod config <> "EMI" -> repaymentMethod config <> "BULLET" ->
   generateLoanSchedule monthName config = []) /\
  (repaymentMethod config = "EMI" \/ repaymentMethod config = "BULLET" ->
   length (generateLoanSchedule monthName config) = tenureMonths config /\
   forall k row,
     nth_error (generateLoanSchedule monthName config) k = Some row ->
     periodIndex row = S k /\
     date row = Nat.iter k next_month (startDate config) /\
     period row = periodLabel monthName (date row) /\
     (k = 0%nat -> opening row = round2 (loanAmount config)) /\
     (forall row',
        nth_error (generateLoanSchedule monthName config) (S k) = Some row' ->
        opening row' = closing row)).
Proof.
  unfold generateLoanSchedule. split.
  - intros H1 H2. apply String.eqb_neq in H1, H2. now rewrite H1, H2.
  - intros [Hm | Hm]; rewrite Hm.
    + change (String.eqb "EMI" "EMI") with true. cbv iota zeta.
      split; [apply emi_run_length|].
      intros k row Hk.
      assert (Hlt : (k < tenureMonths config)%nat).
      { apply nth_error_in_range in Hk. now rewrite emi_run_length in Hk. }
      rewrite emi_run_nth in Hk by exact Hlt. injection Hk as <-.
      cbn [periodIndex date period opening closing].
      split; [reflexivity|]. split; [reflexivity|]. split; [reflexivity|]. split.
      * intros ->. reflexivity.
      * intros row' Hk'.
        assert (Hlt' : (S k < tenureMonths config)%nat).
        { apply nth_error_in_range in Hk'. now rewrite emi_run_length in Hk'. }
        rewrite emi_run_nth in Hk' by exact Hlt'. injection Hk' as <-. reflexivity.
    + change (String.eqb "BULLET" "EMI") with false.
      change (String.eqb "BULLET" "BULLET") with true. cbv iota zeta.
      split; [apply bullet_run_length|].
      intros k row Hk.
      assert (Hlt : (k < tenureMonths config)%nat).
      { apply nth_error_in_range in Hk. now rewrite bullet_run_length in Hk. }
      rewrite bullet_run_nth in Hk by exact Hlt. injection Hk as <-.
      cbn [periodIndex date period opening closing].
      split; [reflexivity|]. split; [reflexivity|]. split; [reflexivity|]. split.
      * intros ->. reflexivity.
      * intros row' Hk'.
        assert (Hlt' : (S k < tenureMonths config)%nat).
        { apply nth_error_in_range in Hk'. now rewrite bullet_run_length in Hk'. }
        rewrite bullet_run_nth in Hk' by exact Hlt'. injection Hk' as <-. reflexivity.
Qed.

Lemma schedule_rows_follow_each_other_witness :
  length (generateLoanSchedule english_month sample_loan) = 4%nat.
Proof.
  apply (schedule_rows_follow_each_other english_month sample_loan). left. reflexivity.
Defined.

(** X27. In a schedule by the EMI method, a month of the moratorium carries no
    repayment of principal, its payment being the interest alone, and every
    month after the moratorium is paid the same instalment, the one that
    [calculateEMI] gives for the loan over the months that follow the
    moratorium. *)
Theorem emi_schedule_instalments (monthName : nat -> string) (config : LoanConfig) :
  repaymentMethod config = "EMI" ->
  forall k row,
    nth_error (generateLoanSchedule monthName config) k = Some row ->
    ((S k <= moratoriumMonths config)%nat ->
     num_eq (principal row) (of_Z 0) /\ payment row = interest row) /\
    ((moratoriumMonths config < S k)%nat ->
     payment row
     = round2 (calculateEMI (loanAmount config) (interestRate config)
                 (tenureMonths config - moratoriumMonths config))).
Proof.
  intros Hm k row. unfold generateLoanSchedule. rewrite Hm.
  change (String.eqb "EMI" "EMI") with true. cbv iota zeta. intros Hk.
  assert (Hlt : (k < tenureMonths config)%nat).
  { apply nth_error_in_range in Hk. now rewrite emi_run_length in Hk. }
  rewrite emi_run_nth in Hk by exact Hlt. injection Hk as <-.
  cbn [principal payment interest]. split.
  - intros Hmor. apply Nat.ltb_ge in Hmor. rewrite Hmor. split; [|reflexivity].
    apply (round2_zero (inject_Z 0)). reflexivity.
  - intros Hrep.
    assert (E : (0 <? tenureMonths config - moratoriumMonths config)%nat = true)
      by (apply Nat.ltb_lt; lia).
    apply Nat.ltb_lt in Hrep. rewrite Hrep, E. reflexivity.
Qed.

Lemma emi_schedule_instalments_witness :
  exists row,
    nth_error (generateLoanSchedule english_month sample_loan) 0 = Some row /\
    payment row = interest row.
Proof.
  exists (default (mkScheduleRow "" (0%Z, 0%nat) 0 NaN NaN NaN NaN NaN)
            (nth_error (generateLoanSchedule english_month sample_loan) 0)).
  split; [vm_compute; reflexivity|].
  apply (emi_schedule_instalments english_month sample_loan eq_refl 0%nat).
  - vm_compute. reflexivity.
  - unfold sample_loan. cbn. lia.
Defined.



End LoanProps.
